(** * Randomness request lifecycle of hardhat-vrf-contracts

    A shallow embedding of the TypeScript sources:

    - [scripts/utils/contract-utils.ts]: [encodeOnChainVRFProvingKey];
    - the [request-randomness] task ([scripts/request-randomness.ts]):
      subscription discovery, consumer registration, funding, request
      submission and the fulfillment wait loop;
    - the [request-randomness-2] task, which shares the discovery code.

    Strings are ASCII strings, JavaScript [bigint]s and loop counters
    are [Z], the result of [parseInt] is a [Js.Number] (the double that
    JavaScript holds), a rejected promise or a thrown exception is the
    [Thrown] outcome, and the answers of the remote node are inputs of
    the model. *)

From Stdlib Require Import ZArith List String Ascii Bool Lia.
Import ListNotations.

Local Open Scope string_scope.
Local Open Scope Z_scope.

(* ===================================================================== *)
(** ** JavaScript values and exceptions *)
(* ===================================================================== *)

(** What a [catch] clause can receive.  [CallError] is the rejection of a
    provider or contract call; it carries the [data] field (the raw revert
    bytes) when the node supplied one. *)
Inductive Exn : Type :=
| SyntaxError
| TypeError
| Error (message : string)
| CallError (message : string) (data : option string).

Inductive Outcome (A : Type) : Type :=
| Returned (a : A)
| Thrown (e : Exn).
Arguments Returned {A} a.
Arguments Thrown {A} e.

Definition obind {A B} (o : Outcome A) (k : A -> Outcome B) : Outcome B :=
  match o with
  | Returned a => k a
  | Thrown e => Thrown e
  end.

(** [try { body } catch (e) { handler e }] *)
Definition tryCatch {A} (body : Outcome A) (handler : Exn -> Outcome A) : Outcome A :=
  match body with
  | Returned a => Returned a
  | Thrown e => handler e
  end.

Declare Scope outcome_scope.
Delimit Scope outcome_scope with outcome.
Notation "'let!' x ':=' c 'in' k" := (obind c (fun x => k))
  (at level 10, x name, c at level 100, k at level 200) : outcome_scope.

(* ===================================================================== *)
(** ** Strings: the [String.prototype] methods the scripts use *)
(* ===================================================================== *)

Module Js.

(** [s] used as a condition: every non-empty string is truthy. *)
Definition truthy (s : string) : bool := negb (s =? "")%string.

(** A [bigint] used as a condition: [undefined] and [0n] are falsy. *)
Definition truthyBig (v : option Z) : bool :=
  match v with
  | Some z => negb (z =? 0)
  | None => false
  end.

Definition lowerChar (c : ascii) : ascii :=
  let n := nat_of_ascii c in
  if ((65 <=? n) && (n <=? 90))%nat then ascii_of_nat (n + 32) else c.

Fixpoint toLowerCase (s : string) : string :=
  match s with
  | EmptyString => EmptyString
  | String c r => String (lowerChar c) (toLowerCase r)
  end.

(** [s.startsWith(p)] *)
Fixpoint startsWith (p s : string) : bool :=
  match p with
  | EmptyString => true
  | String a p' =>
      match s with
      | EmptyString => false
      | String b s' => Ascii.eqb a b && startsWith p' s'
      end
  end.

(** [s.slice(a, b)] for [0 <= a <= b]; both ends are clamped to the
    length of [s]. *)
Definition slice (a b : nat) (s : string) : string := substring a (b - a) s.

(** [s.slice(a)] *)
Fixpoint sliceFrom (a : nat) (s : string) : string :=
  match a, s with
  | O, _ => s
  | S a', EmptyString => EmptyString
  | S a', String _ r => sliceFrom a' r
  end.

Fixpoint repeatChar (c : ascii) (n : nat) : string :=
  match n with
  | O => EmptyString
  | S k => String c (repeatChar c k)
  end.

(** [s.padStart(n, c)] with a one-character filler. *)
Definition padStart (n : nat) (c : ascii) (s : string) : string :=
  repeatChar c (n - String.length s) ++ s.

(** *** Numeric literals *)

Definition digitVal (c : ascii) : option Z :=
  let n := nat_of_ascii c in
  if ((48 <=? n) && (n <=? 57))%nat then Some (Z.of_nat n - 48)
  else if ((97 <=? n) && (n <=? 122))%nat then Some (Z.of_nat n - 87)
  else if ((65 <=? n) && (n <=? 90))%nat then Some (Z.of_nat n - 55)
  else None.

Definition digitIn (radix : Z) (c : ascii) : option Z :=
  match digitVal c with
  | Some d => if d <? radix then Some d else None
  | None => None
  end.

(** Every character of [s] is a digit of [radix]; [acc] is the value
    read so far. *)
Fixpoint allDigits (radix : Z) (acc : Z) (s : string) : option Z :=
  match s with
  | EmptyString => Some acc
  | String c r =>
      match digitIn radix c with
      | Some d => allDigits radix (acc * radix + d) r
      | None => None
      end
  end.

(** The longest prefix of [s] made of digits of [radix]: its value and
    whether it is non-empty. *)
Fixpoint leadingDigits (radix : Z) (acc : Z) (seen : bool) (s : string) : Z * bool :=
  match s with
  | EmptyString => (acc, seen)
  | String c r =>
      match digitIn radix c with
      | Some d => leadingDigits radix (acc * radix + d) true r
      | None => (acc, seen)
      end
  end.

Definition isSpace (c : ascii) : bool :=
  let n := nat_of_ascii c in
  (((9 <=? n) && (n <=? 13)) || (n =? 32))%nat.

Fixpoint trimStart (s : string) : string :=
  match s with
  | EmptyString => EmptyString
  | String c r => if isSpace c then trimStart r else s
  end.

Fixpoint trimEnd (s : string) : string :=
  match s with
  | EmptyString => EmptyString
  | String c r =>
      match trimEnd r with
      | EmptyString => if isSpace c then EmptyString else String c EmptyString
      | r' => String c r'
      end
  end.

Definition nonEmptyDigits (radix : Z) (s : string) : option Z :=
  match s with
  | EmptyString => None
  | _ => allDigits radix 0 s
  end.

(** [BigInt(s)] for a string [s]: [None] is the [SyntaxError].  White
    space around the literal is dropped, the empty literal is [0n], a
    [0x], [0o] or [0b] literal is unsigned and a decimal one may carry a
    sign. *)
Definition BigInt (s : string) : option Z :=
  match trimEnd (trimStart s) with
  | EmptyString => Some 0
  | String "0" (String "x" r) | String "0" (String "X" r) => nonEmptyDigits 16 r
  | String "0" (String "o" r) | String "0" (String "O" r) => nonEmptyDigits 8 r
  | String "0" (String "b" r) | String "0" (String "B" r) => nonEmptyDigits 2 r
  | String "+" r => nonEmptyDigits 10 r
  | String "-" r => option_map Z.opp (nonEmptyDigits 10 r)
  | t => nonEmptyDigits 10 t
  end.

(** [BigInt(v)] where [v] may be [undefined] (an index past the end of
    an array): that case is a [TypeError]. *)
Definition BigIntOf (v : option string) : Outcome Z :=
  match v with
  | None => Thrown TypeError
  | Some s =>
      match BigInt s with
      | Some z => Returned z
      | None => Thrown SyntaxError
      end
  end.

(** The values a [number] takes in the scripts: the result of [parseInt]
    is [NaN], an infinity, or an integer that a double holds exactly. *)
Inductive Number : Type :=
| NaN
| Infinity (negative : bool)
| Finite (value : Z).

(** The [number] for a mathematical integer: itself below [2^53],
    otherwise the nearest double (53 significant bits, a tie going to the
    even significand), and an infinity once that reaches [2^1024]. *)
Definition toNumber (n : Z) : Number :=
  let a := Z.abs n in
  if a <? 2 ^ 53 then Finite n
  else
    let e := Z.log2 a - 52 in
    let q := a / 2 ^ e in
    let r := a mod 2 ^ e in
    let half := 2 ^ (e - 1) in
    let q := if (half <? r) || ((r =? half) && Z.odd q) then q + 1 else q in
    let m := q * 2 ^ e in
    if 2 ^ 1024 <=? m then Infinity (n <? 0)
    else Finite (if n <? 0 then - m else m).

(** [parseInt(s, 16)]: [NaN] when no digit can be read. *)
Definition parseInt16 (s : string) : Number :=
  let t := trimStart s in
  let '(neg, t) :=
    match t with
    | String "-" r => (true, r)
    | String "+" r => (false, r)
    | _ => (false, t)
    end in
  let t :=
    match t with
    | String "0" (String "x" r) | String "0" (String "X" r) => r
    | _ => t
    end in
  match leadingDigits 16 0 false t with
  | (v, true) => toNumber (if neg then - v else v)
  | (_, false) => NaN
  end.

(** [n > 0] for a [number]. *)
Definition positive (n : Number) : bool :=
  match n with
  | Finite v => 0 <? v
  | Infinity negative => negb negative
  | NaN => false
  end.

Definition hexChar (d : Z) : ascii :=
  if d <? 10 then ascii_of_nat (Z.to_nat (48 + d))
  else ascii_of_nat (Z.to_nat (87 + d)).

(** The digits of [n >= 0] in [radix], most significant first; [fuel]
    bounds their number. *)
Fixpoint digits (radix : Z) (fuel : nat) (n : Z) (acc : string) : string :=
  match fuel with
  | O => acc
  | S f =>
      let acc' := String (hexChar (n mod radix)) acc in
      if n <? radix then acc' else digits radix f (n / radix) acc'
  end.

Definition toStringRadix (radix : Z) (n : Z) : string :=
  if n <? 0
  then String "-" (digits radix (S (Z.to_nat (Z.log2 (- n)))) (- n) "")
  else digits radix (S (Z.to_nat (Z.log2 n))) n "".

(** [n.toString(16)] for a [bigint] or an integral [number]. *)
Definition toString16 (n : Z) : string := toStringRadix 16 n.

(** [`${n}`] for a [bigint]. *)
Definition toString (n : Z) : string := toStringRadix 10 n.

End Js.

(* ===================================================================== *)
(** ** [encodeOnChainVRFProvingKey] (scripts/utils/contract-utils.ts) *)
(* ===================================================================== *)

Module KeyEncoding.

Record EncodedKey : Type := {
  keyHash : string;
  compressed : string;
  coordinates : string * string
}.

Section WithKeccak.

(** [ethers.keccak256] on a hex string; [None] when it rejects the
    argument (not a byte string). *)
Variable keccak256 : string -> option string.

Definition encodeOnChainVRFProvingKey (uncompressedPubKey : string)
  : Outcome EncodedKey :=
  let pubKeyBytes :=
    if Js.startsWith "0x" uncompressedPubKey
    then Js.sliceFrom 2 uncompressedPubKey
    else uncompressedPubKey in
  let pubKeyBytes :=
    if negb (Js.startsWith "04" pubKeyBytes)
    then "04" ++ pubKeyBytes
    else pubKeyBytes in
  let xHex := "0x" ++ Js.slice 2 66 pubKeyBytes in
  let yHex := "0x" ++ Js.slice 66 130 pubKeyBytes in
  (let! x := Js.BigIntOf (Some xHex) in
   let! y := Js.BigIntOf (Some yHex) in
   let prefix := if y mod 2 =? 0 then "02" else "03" in
   let compressedKeyHex := prefix ++ Js.slice 2 66 pubKeyBytes in
   let compressedKey := "0x" ++ compressedKeyHex in
   match keccak256 compressedKey with
   | None => Thrown TypeError
   | Some h =>
       Returned {| keyHash := h;
                   compressed := compressedKey;
                   coordinates := (xHex, yHex) |}
   end)%outcome.

End WithKeccak.

End KeyEncoding.

(** The other version of the function kept in the repository: it checks
    the length of the key and hashes the two coordinates. *)
Module KeyEncodingChecked.

Section WithHash.

(** [ethers.keccak256(ethers.solidityPacked(["uint256", "uint256"], [x, y]))];
    [None] when a coordinate is not a number. *)
Variable packedHash : string -> string -> option string.

Definition encodeOnChainVRFProvingKey (uncompressed : string)
  : Outcome KeyEncoding.EncodedKey :=
  let hex :=
    if Js.startsWith "0x" uncompressed then Js.sliceFrom 2 uncompressed
    else uncompressed in
  let hex := if Js.startsWith "04" hex then Js.sliceFrom 2 hex else hex in
  if negb (String.length hex =? 128)%nat
  then Thrown (Error "uncompressed key must be 64 bytes")
  else
    let xHex := "0x" ++ Js.slice 0 64 hex in
    let yHex := "0x" ++ Js.slice 64 128 hex in
    (let! yBig := Js.BigIntOf (Some yHex) in
     let prefix := if negb (Z.land yBig 1 =? 0) then "03" else "02" in
     let compressed := "0x" ++ prefix ++ Js.slice 0 64 hex in
     match packedHash xHex yHex with
     | None => Thrown TypeError
     | Some h =>
         Returned {| KeyEncoding.keyHash := h;
                     KeyEncoding.compressed := compressed;
                     KeyEncoding.coordinates := (xHex, yHex) |}
     end)%outcome.

End WithHash.

End KeyEncodingChecked.

(* ===================================================================== *)
(** ** The remote ledger as the scripts see it *)
(* ===================================================================== *)

(** The struct returned by [coordinator.getSubscription]. *)
Record Subscription : Type := {
  balance : Z;
  nativeBalance : Z;
  reqCount : Z;
  subOwner : string;
  consumers : list string
}.

(** An entry of [receipt.logs] or of an [eth_getLogs] answer. *)
Record Log : Type := {
  address : string;
  topics : list string;
  data : string
}.

Record Receipt : Type := {
  blockNumber : Z;
  logs : list Log
}.

(** The coordinator's read interface at one point in time.  A call that
    reverts or is not part of the contract rejects, which is [None]. *)
Record Coordinator : Type := {
  getSubscription : Z -> option Subscription;
  getActiveSubscriptionIds : option (list Z)
}.

(** [a.toLowerCase() === b.toLowerCase()] *)
Definition sameAddress (a b : string) : bool :=
  (Js.toLowerCase a =? Js.toLowerCase b)%string.

(** [for (let i = lo; i <= hi; i++)] *)
Definition range (lo hi : Z) : list Z :=
  map (fun k => lo + Z.of_nat k) (seq 0 (Z.to_nat (hi - lo + 1))).

(** [for (let i = hi; i >= lo; i--)] *)
Definition rangeDown (hi lo : Z) : list Z := rev (range lo hi).

(* ===================================================================== *)
(** ** Subscription discovery (STEP 2 of both tasks) *)
(* ===================================================================== *)

Module Resolver.

(** An element of [existingSubscriptionIds]: the contract answers with
    [bigint]s, the manual check pushes [number]s. *)
Inductive IdValue : Type :=
| Num (n : Z)
| Big (n : Z).

(** [Array.prototype.includes] compares with SameValueZero, under which
    a [number] never equals a [bigint]. *)
Definition sameValueZero (a b : IdValue) : bool :=
  match a, b with
  | Num x, Num y => x =? y
  | Big x, Big y => x =? y
  | _, _ => false
  end.

Definition includes (l : list IdValue) (v : IdValue) : bool :=
  existsb (sameValueZero v) l.

Definition includesStr (l : list string) (v : string) : bool :=
  existsb (String.eqb v) l.

(** What a discovery run reads from the outside.  The task is the only
    sender between its reads, so the reads made after the creation are
    all answered from one state of the coordinator. *)
Record Env : Type := {
  signerAddress : string;
  coordinatorAddress : string;
  (** the coordinator before [createSubscription] is sent *)
  before : Coordinator;
  (** [createSubscription()] followed by [wait()]; [Returned None] is a
      [null] receipt *)
  createSubscription : Outcome (option Receipt);
  (** the coordinator once the creation is mined *)
  after : Coordinator;
  (** [abiCoder.decode(['address'], data)]; [None] when it throws *)
  decodeAddress : string -> option string
}.

Definition knownSubscriptionCreatedTopics : list string :=
  [ "0x464722b4166576d3dcbba877b999bc35cf911f4eaf1b6cb7c3512044693085d3";
    "0x1d3015d7ba850fa198dc7b1a3f5d42779313a681035f77c8c03764c61005518d" ].

Definition topicV2 : string := nth 0 knownSubscriptionCreatedTopics "".
Definition topicV2_5 : string := nth 1 knownSubscriptionCreatedTopics "".

(** [sub.subOwner && sub.subOwner.toLowerCase() === signerAddress.toLowerCase()] *)
Definition ownedBy (signer : string) (sub : Subscription) : bool :=
  Js.truthy (subOwner sub) && sameAddress (subOwner sub) signer.

(** The test of the 1..100 scan: owner, then
    [sub.reqCount !== undefined && sub.reqCount === 0n]. *)
Definition ownedAndFresh (signer : string) (sub : Subscription) : bool :=
  ownedBy signer sub && (reqCount sub =? 0).

(** The loop shape shared by every scan:
    [for (id of ids) { try { sub = await getSubscription(id);
       if (accept(sub)) { subId = BigInt(id); break; } } catch {} }] *)
Fixpoint firstMatch (c : Coordinator) (accept : Subscription -> bool)
  (ids : list Z) : option Z :=
  match ids with
  | [] => None
  | id :: rest =>
      match getSubscription c id with
      | Some sub => if accept sub then Some id else firstMatch c accept rest
      | None => firstMatch c accept rest
      end
  end.

(** [subId] after a scan: assigned when the scan found one. *)
Definition assign (subId found : option Z) : option Z :=
  match found with
  | Some id => Some id
  | None => subId
  end.

(** The [bigint] held by a truthy [subId]. *)
Definition valueOf (subId : option Z) : Z :=
  match subId with
  | Some v => v
  | None => 0
  end.

Definition isSome {A} (o : option A) : bool :=
  match o with Some _ => true | None => false end.

(** Lines 45-62: the snapshot taken before the creation. *)
Definition existingSubscriptionIds (c : Coordinator) : list IdValue :=
  match getActiveSubscriptionIds c with
  | Some ids => map Big ids
  | None =>
      map Num (filter (fun i => isSome (getSubscription c i)) (range 1 20))
  end.

(** Lines 77-105: identifiers that appeared with the creation. *)
Definition newlyCreated (env : Env) (existing : list IdValue) : option Z :=
  match getActiveSubscriptionIds (after env) with
  | Some newSubscriptionIds =>
      let newIds :=
        filter (fun id => negb (includes existing (Big id))) newSubscriptionIds in
      firstMatch (after env) (ownedBy (signerAddress env)) newIds
  | None => None
  end.

(** Lines 114-198, entered when the receipt has one log with two topics. *)
Definition directExtraction (env : Env) (subId : option Z) : option Z :=
  let signer := signerAddress env in
  let subId :=
    match getActiveSubscriptionIds (after env) with
    | Some activeIds =>
        assign subId (firstMatch (after env) (ownedBy signer) activeIds)
    | None => subId
    end in
  if negb (Js.truthyBig subId)
  then assign subId (firstMatch (after env) (ownedAndFresh signer) (range 1 100))
  else subId.

(** Lines 216-255: the first data word of a coordinator log, taken as an
    identifier when it is below one million and owned by the signer. *)
Definition hexExtraction (env : Env) (subId : option Z) (log : Log) : option Z :=
  if sameAddress (address log) (coordinatorAddress env) then
    if (66 <=? String.length (data log))%nat then
      match Js.BigInt ("0x" ++ Js.slice 2 66 (data log)) with
      | Some possibleId =>
          if (0 <? possibleId) && (possibleId <? 1000000) then
            match getSubscription (after env) possibleId with
            | Some sub =>
                if sameAddress (subOwner sub) (signerAddress env)
                then Some possibleId
                else subId
            | None => subId
            end
          else subId
      | None => subId
      end
    else subId
  else subId.

(** Lines 396-411: the search for the highest existing identifier. *)
Fixpoint maxExistingLoop (fuel : nat) (c : Coordinator)
  (left right maxExistingId : Z) : Z :=
  match fuel with
  | O => maxExistingId
  | S f =>
      if left <=? right then
        let mid := (left + right) / 2 in
        match getSubscription c mid with
        | Some _ => maxExistingLoop f c (mid + 1) right (Z.max maxExistingId mid)
        | None => maxExistingLoop f c left (mid - 1) maxExistingId
        end
      else maxExistingId
  end.

(** [left = 1], [right = 1000]; the interval shrinks at every turn, so
    a thousand turns are never used up (see [maxExistingLoop_fuel]). *)
Definition maxExisting (c : Coordinator) : Z := maxExistingLoop 1000 c 1 1000 0.

(** Lines 333-441: the scans made once the log data decodes as an
    address. *)
Definition recentSubscriptions (env : Env) (subId : option Z) : option Z :=
  let c := after env in
  let owned := ownedBy (signerAddress env) in
  match firstMatch c owned (range 1 10) with
  | Some i => Some i
  | None =>
      match firstMatch c owned (range 11 30) with
      | Some i => Some i
      | None =>
          let maxExistingId := maxExisting c in
          if 0 <? maxExistingId then
            assign subId
              (firstMatch c owned
                 (rangeDown maxExistingId (Z.max 1 (maxExistingId - 5))))
          else subId
      end
  end.

(** Lines 279-442: a log carrying the v2.5 creation topic. *)
Definition fromHashedTopic (env : Env) (subId : option Z) (log : Log) : option Z :=
  let subId :=
    assign subId
      (firstMatch (after env) (ownedBy (signerAddress env)) (range 1 20)) in
  if Js.truthyBig subId then subId
  else
    match decodeAddress env (data log) with
    | Some _ => recentSubscriptions env subId
    | None => subId
    end.

(** Lines 268-446: [for (const log of receipt.logs)] with its [break]s. *)
Fixpoint topicLoop (env : Env) (logs : list Log) (subId : option Z)
  : Outcome (option Z) :=
  match logs with
  | [] => Returned subId
  | log :: rest =>
      match nth_error (topics log) 0 with
      | None => Thrown TypeError
      | Some topic0 =>
          let topicHex := Js.toLowerCase topic0 in
          if includesStr knownSubscriptionCreatedTopics topicHex then
            (let! subId :=
               if (topicHex =? Js.toLowerCase topicV2)%string then
                 (let! v := Js.BigIntOf (nth_error (topics log) 1) in
                  Returned (Some v))
               else if (topicHex =? Js.toLowerCase topicV2_5)%string then
                 Returned (fromHashedTopic env subId log)
               else Returned subId in
             if Js.truthyBig subId then Returned subId
             else topicLoop env rest subId)%outcome
          else topicLoop env rest subId
      end
  end.

(** Lines 108-449: the fallback methods, entered when [!subId]. *)
Definition fallbackMethods (env : Env) (receipt : Receipt) (subId : option Z)
  : Outcome (option Z) :=
  let subId :=
    match logs receipt with
    | [log] =>
        if (List.length (topics log) =? 2)%nat
        then directExtraction env subId
        else subId
    | _ => subId
    end in
  if negb (Js.truthyBig subId) then
    let subId := fold_left (hexExtraction env) (logs receipt) subId in
    topicLoop env (logs receipt) subId
  else Returned subId.

(** Lines 451-529, entered when [!subId].  The [typeAndVersion] query
    at its head only prints. *)
Definition directApproach (env : Env) (subId : option Z) : Outcome Z :=
  let signer := signerAddress env in
  let '(subId, firstSubExists) :=
    match getSubscription (after env) 1 with
    | Some sub =>
        if ownedBy signer sub then (Some 1, true) else (subId, true)
    | None => (subId, false)
    end in
  let subId :=
    if negb (Js.truthyBig subId)
    then assign subId (firstMatch (after env) (ownedBy signer) (range 2 5))
    else subId in
  if negb (Js.truthyBig subId) then
    if negb firstSubExists then Returned 1
    else Thrown (Error "Could not find a usable subscription and subscription 1 belongs to someone else")
  else Returned (valueOf subId).

(** The value of [subId] with which STEP 3 starts, or the exception that
    ends the task. *)
Definition resolveSubscription (env : Env) : Outcome Z :=
  let existing := existingSubscriptionIds (before env) in
  (let! created := createSubscription env in
   match created with
   | None => Thrown (Error "Transaction failed")
   | Some receipt =>
       let subId := newlyCreated env existing in
       let! subId :=
         if negb (Js.truthyBig subId)
         then fallbackMethods env receipt subId
         else Returned subId in
       if negb (Js.truthyBig subId)
       then directApproach env subId
       else Returned (valueOf subId)
   end)%outcome.

End Resolver.

(* ===================================================================== *)
(** ** Steps that send transactions: the calls made, in order *)
(* ===================================================================== *)

(** A step that awaits remote calls one after the other.  Its result is
    the list of calls it made and how it ended; a call that rejects ends
    the step unless a [catch] takes the exception. *)
Module Task.

Definition t (C A : Type) : Type := list C * Outcome A.

Definition ret {C A} (a : A) : t C A := ([], Returned a).

Definition throw {C A} (e : Exn) : t C A := ([], Thrown e).

(** A computation that makes no remote call. *)
Definition local {C A} (o : Outcome A) : t C A := ([], o).

(** [await c] where the remote side answers [answer]. *)
Definition call {C A} (c : C) (answer : Outcome A) : t C A := ([c], answer).

Definition bind {C A B} (m : t C A) (k : A -> t C B) : t C B :=
  match m with
  | (calls, Returned a) => let '(more, r) := k a in ((calls ++ more)%list, r)
  | (calls, Thrown e) => (calls, Thrown e)
  end.

(** [try { m } catch (e) { handler e }] *)
Definition catch {C A} (m : t C A) (handler : Exn -> t C A) : t C A :=
  match m with
  | (calls, Returned a) => (calls, Returned a)
  | (calls, Thrown e) => let '(more, r) := handler e in ((calls ++ more)%list, r)
  end.

Definition calls {C A} (m : t C A) : list C := fst m.
Definition outcome {C A} (m : t C A) : Outcome A := snd m.

End Task.

Declare Scope task_scope.
Delimit Scope task_scope with task.
Notation "'await!' x ':=' c 'in' k" := (Task.bind c (fun x => k))
  (at level 10, x name, c at level 100, k at level 200) : task_scope.
Notation "'do!' c 'in' k" := (Task.bind c (fun _ => k))
  (at level 10, c at level 100, k at level 200) : task_scope.

(** [error.data] of what a [catch] received. *)
Definition dataOf (e : Exn) : option string :=
  match e with
  | CallError _ d => d
  | _ => None
  end.

(** [error.data] used as a condition. *)
Definition hasData (e : Exn) : bool :=
  match dataOf e with
  | Some d => Js.truthy d
  | None => false
  end.

(** [error.data === s] *)
Definition dataIs (e : Exn) (s : string) : bool :=
  match dataOf e with
  | Some d => (d =? s)%string
  | None => false
  end.

(* ===================================================================== *)
(** ** STEP 4: add the consumer to the subscription *)
(* ===================================================================== *)

Module Registration.

Inductive Call : Type :=
| AddConsumer (subId : Z) (consumer : string)
| CreateSubscription.

(** How the coordinator answers, in the order the step may ask.  Each
    answer stands for the send and the [wait()] that follows it. *)
Record Env : Type := {
  addConsumer : Outcome unit;
  createSubscription : Outcome unit;
  retryAddConsumer : Outcome unit
}.

Definition nonExistentSubscription : string := "0x1f6a65b6".

(** Lines 543-606. *)
Definition addConsumerStep (env : Env) (subId : Z) (consumerAddress : string)
  : Task.t Call unit :=
  Task.catch
    (Task.call (AddConsumer subId consumerAddress) (addConsumer env))
    (fun error =>
       (do! (if hasData error then
                  if dataIs error nonExistentSubscription
                  then Task.throw
                         (Error ("Subscription " ++ Js.toString subId ++ " does not exist"))
                  else Task.ret tt
                else Task.ret tt) in
        if dataIs error nonExistentSubscription then
          Task.catch
            (do! (Task.call CreateSubscription (createSubscription env)) in
             Task.call (AddConsumer subId consumerAddress) (retryAddConsumer env))
            (fun retryError => Task.throw retryError)
        else Task.throw error)%task).

End Registration.

(* ===================================================================== *)
(** ** STEP 5: fund the subscription *)
(* ===================================================================== *)

Module Funding.

(** [AbiCoder.encode(['uintN'], [v])] for a [bigint] [v]: one 32-byte
    word, big-endian; a value outside [0 .. 2^N - 1] makes the coder
    throw, which is [None]. *)
Definition abiEncodeUint (bits : Z) (v : Z) : option string :=
  if (0 <=? v) && (v <? 2 ^ bits)
  then Some ("0x" ++ Js.padStart 64 "0" (Js.toString16 v))
  else None.

(** Which of the two messages the encoder printed. *)
Inductive Width : Type :=
| Uint64
| Uint256.

(** Lines 623-631: [try { encode uint64 } catch (e) { encode uint256 }]. *)
Definition encodeSubId (subId : Z) : Outcome (Width * string) :=
  tryCatch
    (match abiEncodeUint 64 subId with
     | Some encoded => Returned (Uint64, encoded)
     | None => Thrown (Error "value out-of-bounds")
     end)
    (fun _ =>
       match abiEncodeUint 256 subId with
       | Some encoded => Returned (Uint256, encoded)
       | None => Thrown (Error "value out-of-bounds")
       end).

Inductive Call : Type :=
| Approve (spender : string) (amount : Z)
| ApproveWait
| TransferAndCall (to : string) (amount : Z) (data : string)
| TransferWait.

(** The token's answers.  [wait()] rejects when the transaction
    reverted. *)
Record Env : Type := {
  approve : Outcome unit;
  approveWait : Outcome unit;
  transferAndCall : Outcome unit;
  transferWait : Outcome unit
}.

(** [parseUnits("2", 18)] and [parseUnits("100", 18)] *)
Definition twoLink : Z := 2 * 10 ^ 18.
Definition hundredLink : Z := 100 * 10 ^ 18.

(** Lines 612-641.  The two tasks differ in the amount transferred only. *)
Definition fundSubscriptionWith (transferAmount : Z)
  (env : Env) (coordinatorAddress : string) (subId : Z) : Task.t Call unit :=
  (do! (Task.call (Approve coordinatorAddress twoLink) (approve env)) in
   do! (Task.call ApproveWait (approveWait env)) in
   await! encoded := Task.local (encodeSubId subId) in
   do! (Task.call (TransferAndCall coordinatorAddress transferAmount (snd encoded))
          (transferAndCall env)) in
   Task.call TransferWait (transferWait env))%task.

(** [request-randomness] *)
Definition fundSubscription : Env -> string -> Z -> Task.t Call unit :=
  fundSubscriptionWith twoLink.

(** [request-randomness-2] *)
Definition fundSubscription2 : Env -> string -> Z -> Task.t Call unit :=
  fundSubscriptionWith hundredLink.

End Funding.

(* ===================================================================== *)
(** ** STEP 6: submit the request and read its identifier *)
(* ===================================================================== *)

Module Submission.

(** The lines the step prints about the request identifier. *)
Inductive Printed : Type :=
| RequestId (requestId : Z)
| RequestIdFromEvent (topic1 : option string).

Record Env : Type := {
  coordinatorAddress : string;
  (** [consumer.requestRandomness(...)] and [requestTx.wait()] *)
  requestRandomness : Outcome unit;
  requestWait : Outcome unit;
  (** [consumer.s_requestId()] *)
  s_requestId : Outcome Z;
  (** [eth_getTransactionReceipt]: the logs of the receipt, [None] for a
      [null] answer *)
  getTransactionReceipt : Outcome (option (list Log))
}.

Definition randomWordsRequested : string :=
  "0x63373d1c4696214b898952999c9aaec57dac1ee2723cec59bea6888f489a9772".

(** [log.topics[0] === topic] *)
Definition firstTopicIs (log : Log) (topic : string) : bool :=
  match nth_error (topics log) 0 with
  | Some t0 => (t0 =? topic)%string
  | None => false
  end.

(** Lines 693-704: what the scan of the receipt prints for one log. *)
Definition requestedEvent (env : Env) (log : Log) : list Printed :=
  if sameAddress (address log) (coordinatorAddress env)
     && firstTopicIs log randomWordsRequested
  then [RequestIdFromEvent (nth_error (topics log) 1)]
  else [].

(** Lines 661-704.  The gas estimate made in between and the rest of the
    [try] block that starts at line 687 only print; an exception in that
    block is caught at line 854. *)
Definition submitRequest (env : Env) : list Printed * Outcome Z :=
  match requestRandomness env with
  | Thrown e => ([], Thrown e)
  | Returned _ =>
      match requestWait env with
      | Thrown e => ([], Thrown e)
      | Returned _ =>
          match s_requestId env with
          | Thrown e => ([], Thrown e)
          | Returned requestId =>
              let fromReceipt :=
                match getTransactionReceipt env with
                | Returned (Some receiptLogs) =>
                    flat_map (requestedEvent env) receiptLogs
                | _ => []
                end in
              (RequestId requestId :: fromReceipt, Returned requestId)
          end
      end
  end.

(** *** The [request-randomness-2] task (lines 668-695) *)

Definition diceRolled : string :=
  "0x4f2e3ef0829af24a5214761a2ede4d31c6a09ac580bf5da4e8bc394fb2603d1f".

(** [logs.find(log => log.address.toLowerCase() === from.toLowerCase()
                      && log.topics[0] === topic)] *)
Definition findEvent (from topic : string) (receiptLogs : list Log) : option Log :=
  find (fun log => sameAddress (address log) from && firstTopicIs log topic)
       receiptLogs.

(** The identifier is taken from the consumer's [DiceRolled] event,
    else from the coordinator's "request submitted" event, else it is
    [0n].  [receiptLogs] is [None] for a [null] receipt. *)
Definition requestIdFromReceipt (consumerAddress coordinator : string)
  (receiptLogs : option (list Log)) : Outcome Z :=
  let found topicFrom topic :=
    match receiptLogs with
    | Some l => findEvent topicFrom topic l
    | None => None
    end in
  match found consumerAddress diceRolled with
  | Some diceRolledEvent => Js.BigIntOf (nth_error (topics diceRolledEvent) 1)
  | None =>
      match found coordinator randomWordsRequested with
      | Some randomWordsRequestedEvent =>
          Js.BigIntOf (nth_error (topics randomWordsRequestedEvent) 1)
      | None => Returned 0
      end
  end.

End Submission.

(* ===================================================================== *)
(** ** STEP 7: wait for the fulfillment *)
(* ===================================================================== *)

Module Watcher.

(** What the node answers during one turn of the loop, in the order the
    turn asks. *)
Record Tick : Type := {
  (** [eth_getStorageAt] of slot 1, [s_requestId] *)
  storedRequestId : Outcome string;
  (** slot 0, the length of [s_randomWords] *)
  randomWordsLength : Outcome string;
  (** slot [keccak256(slot 0)], the first element of [s_randomWords] *)
  firstRandomWord : Outcome string;
  (** slot 3, [s_gasAvailable] *)
  gasAvailable : Outcome string;
  (** [eth_blockNumber] *)
  currentBlock : Outcome string;
  (** [eth_getLogs] for the fulfillment topic over the last 20 blocks *)
  fulfillmentLogs : Outcome (list Log)
}.

Record Env : Type := {
  (** the identifier read in STEP 6 *)
  requestId : Z;
  (** [abiCoder.decode(['uint256', 'uint256[]'], data)]; [None] when it
      throws *)
  decodeFulfillment : string -> option (Z * list Z);
  (** the answers of the [n]-th turn *)
  ticks : nat -> Tick
}.

(** The three [return] statements of the loop body. *)
Inductive Evidence : Type :=
| RandomWord (randomWord : Z)
| FulfilledEvent (decoded : option (Z * list Z))
| GasAvailable (gas : Js.Number).

Definition zeroWord : string :=
  "0x0000000000000000000000000000000000000000000000000000000000000000".

(** Lines 958-974: the first log whose second topic is the padded
    request identifier. *)
Fixpoint matchingEvent (env : Env) (requestIdHex : string) (logs : list Log)
  : option Evidence :=
  match logs with
  | [] => None
  | log :: rest =>
      if (1 <? List.length (topics log))%nat
         && match nth_error (topics log) 1 with
            | Some t1 => (t1 =? requestIdHex)%string
            | None => false
            end
      then Some (FulfilledEvent (decodeFulfillment env (data log)))
      else matchingEvent env requestIdHex rest
  end.

(** Lines 870-984, the body of the [try]: [Returned (Some e)] is a
    [return], [Returned None] falls through to "Still waiting". *)
Definition tickBody (env : Env) (t : Tick) : Outcome (option Evidence) :=
  (let! storedRequestIdHex := storedRequestId t in
   let! currentRequestId := Js.BigIntOf (Some storedRequestIdHex) in
   let! randomWordsLengthHex := randomWordsLength t in
   let arrayLength := Js.parseInt16 randomWordsLengthHex in
   let! found :=
     if Js.positive arrayLength then
       let! randomWordHex := firstRandomWord t in
       if Js.truthy randomWordHex && negb (randomWordHex =? zeroWord)%string then
         let! randomWord := Js.BigIntOf (Some randomWordHex) in
         Returned (Some (RandomWord randomWord))
       else Returned None
     else Returned None in
   match found with
   | Some e => Returned (Some e)
   | None =>
       let! gasAvailableHex := gasAvailable t in
       let gas := Js.parseInt16 gasAvailableHex in
       if Js.positive gas then
         let! currentBlockHex := currentBlock t in
         let! logs := fulfillmentLogs t in
         let requestIdHex :=
           "0x" ++ Js.padStart 64 "0" (Js.toString16 (requestId env)) in
         match matchingEvent env requestIdHex logs with
         | Some e => Returned (Some e)
         | None => Returned (Some (GasAvailable gas))
         end
       else Returned None
   end)%outcome.

(** How the loop of lines 865-993 ends. *)
Inductive Watch : Type :=
| Fulfilled (turns : nat) (e : Evidence)
| TimedOut (turns : nat).

Definition turnsOf (w : Watch) : nat :=
  match w with
  | Fulfilled n _ => n
  | TimedOut n => n
  end.

Inductive Run (A : Type) : Type :=
| Done (o : Outcome A)
| OutOfFuel.
Arguments Done {A} o.
Arguments OutOfFuel {A}.

Definition waitInterval : Z := 5000.
Definition timeout : Z := 300000.

(** [while (elapsed < timeout) { sleep; elapsed += waitInterval;
      try { body } catch (error) { print } print }]; [turn] counts the
    turns already made. *)
Fixpoint waitLoop (fuel : nat) (env : Env) (elapsed : Z) (turn : nat)
  : Run Watch :=
  if elapsed <? timeout then
    match fuel with
    | O => OutOfFuel
    | S f =>
        let elapsed := elapsed + waitInterval in
        match tryCatch (tickBody env (ticks env turn)) (fun _ => Returned None) with
        | Returned (Some e) => Done (Returned (Fulfilled (S turn) e))
        | Returned None => waitLoop f env elapsed (S turn)
        | Thrown e => Done (Thrown e)
        end
    end
  else Done (Returned (TimedOut turn)).

Definition waitForFulfillment (fuel : nat) (env : Env) : Run Watch :=
  waitLoop fuel env 0 0.

End Watcher.

(* ===================================================================== *)
(** ** The [request-randomness] action as a whole (lines 12-1010) *)
(* ===================================================================== *)

Module Lifecycle.

Inductive Call : Type :=
| Setup
| Discover
| DeployConsumer
| Register (c : Registration.Call)
| Fund (c : Funding.Call)
| ProvingKeyHash
| Submit (keyHash : string) (subId : Z)
| Watch (requestId : Z).

Record Env : Type := {
  (** lines 25-38: the contract handles, [eth_accounts], [balanceOf] *)
  setup : Outcome unit;
  (** STEP 2 *)
  discovery : Resolver.Env;
  (** STEP 3: [deploy], [waitForDeployment], [getAddress] *)
  deployConsumer : Outcome string;
  (** STEP 4 and STEP 5 *)
  registration : Registration.Env;
  funding : Funding.Env;
  (** STEP 6: [coordinator.s_provingKeyHashes(0)], then the request *)
  s_provingKeyHashes : Outcome string;
  requestRandomness : Outcome unit;
  requestWait : Outcome unit;
  s_requestId : Outcome Z;
  (** [parseInt(taskArgs.numwords)], [None] for [NaN] *)
  numWords : option Z;
  getTransactionReceipt : Outcome (option (list Log));
  (** STEP 7 *)
  decodeFulfillment : string -> option (Z * list Z);
  ticks : nat -> Watcher.Tick
}.

(** The calls of a step, seen as calls of the action. *)
Definition within {C D A} (f : C -> D) (m : Task.t C A) : Task.t D A :=
  (map f (fst m), snd m).

(** Line 654: the key hash used when the coordinator has none to give. *)
Definition fallbackKeyHash : string :=
  "0x0000000000000000000000000000000000000000000000000000000000000000".

Definition submission (env : Env) : Submission.Env :=
  {| Submission.coordinatorAddress := Resolver.coordinatorAddress (discovery env);
     Submission.requestRandomness := requestRandomness env;
     Submission.requestWait := requestWait env;
     Submission.s_requestId := s_requestId env;
     Submission.getTransactionReceipt := getTransactionReceipt env |}.

Definition watch (env : Env) (requestId : Z) : Watcher.Env :=
  {| Watcher.requestId := requestId;
     Watcher.decodeFulfillment := decodeFulfillment env;
     Watcher.ticks := ticks env |}.

(** Line 677, [Array(numWords)]: a [RangeError] unless [numWords] is an
    array length. *)
Definition dummyWords (numWords : option Z) : Outcome unit :=
  match numWords with
  | Some n =>
      if (0 <=? n) && (n <? 2 ^ 32) then Returned tt
      else Thrown (Error "Invalid array length")
  | None => Thrown (Error "Invalid array length")
  end.

(** Lines 20-677: everything up to the checks that follow the reading of
    the request identifier.  The other arguments of [requestRandomness]
    are the parameters of the task. *)
Definition untilRequested (env : Env) : Task.t Call Z :=
  let coordinatorAddress := Resolver.coordinatorAddress (discovery env) in
  (do! (Task.call Setup (setup env)) in
   await! subId :=
     Task.call Discover (Resolver.resolveSubscription (discovery env)) in
   await! consumerAddress := Task.call DeployConsumer (deployConsumer env) in
   do! (within Register
          (Registration.addConsumerStep (registration env) subId consumerAddress)) in
   do! (within Fund
          (Funding.fundSubscription (funding env) coordinatorAddress subId)) in
   await! keyHash :=
     Task.catch (Task.call ProvingKeyHash (s_provingKeyHashes env))
                (fun _ => Task.ret fallbackKeyHash) in
   await! requestId :=
     Task.call (Submit keyHash subId)
               (snd (Submission.submitRequest (submission env))) in
   do! (Task.local (dummyWords (numWords env))) in
   Task.ret requestId)%task.

(** The action: an exception of any step is printed and thrown again
    (lines 995-1009); otherwise the wait loop decides how it ends. *)
Definition requestRandomnessAction (env : Env)
  : list Call * Watcher.Run Watcher.Watch :=
  match untilRequested env with
  | (calls, Thrown e) => (calls, Watcher.Done (Thrown e))
  | (calls, Returned requestId) =>
      ((calls ++ [Watch requestId])%list,
       Watcher.waitForFulfillment 60 (watch env requestId))
  end.

End Lifecycle.

(* ===================================================================== *)
(** ** The wait loop of [request-randomness-2] (lines 715-770) *)
(* ===================================================================== *)

Module DiceWatcher.

(** What the node answers during one turn. *)
Record Tick : Type := {
  (** [consumer.house(signerAddress)]; it reverts while the roll is not
      settled *)
  house : Outcome string;
  (** [eth_blockNumber] *)
  currentBlock : Outcome string;
  (** [eth_getLogs] for the [DiceLanded] topic over the last 20 blocks *)
  diceLandedLogs : Outcome (list Log)
}.

(** What the turn printed before its [return]: the house and, for each
    log, its second topic and [parseInt(log.topics[2], 16)]. *)
Record Landed : Type := {
  houseName : string;
  events : list (option string * Js.Number)
}.

Definition landedEvent (log : Log) : option string * Js.Number :=
  (nth_error (topics log) 1,
   match nth_error (topics log) 2 with
   | Some t => Js.parseInt16 t
   | None => Js.NaN
   end).

(** Lines 727-756, the body of the [try]: once the three reads are
    answered it always reaches the [return]. *)
Definition tickBody (t : Tick) : Outcome (option Landed) :=
  (let! h := house t in
   let! currentBlockHex := currentBlock t in
   let! logs := diceLandedLogs t in
   Returned (Some {| houseName := h; events := map landedEvent logs |}))%outcome.

Inductive Watch : Type :=
| Settled (turns : nat) (l : Landed)
| TimedOut (turns : nat).

Definition turnsOf (w : Watch) : nat :=
  match w with
  | Settled n _ => n
  | TimedOut n => n
  end.

Definition waitInterval : Z := 5000.
Definition timeout : Z := 300000.

(** The loop has the shape of the one of the first task; the [catch]
    clause only prints. *)
Fixpoint waitLoop (fuel : nat) (ticks : nat -> Tick) (elapsed : Z) (turn : nat)
  : Watcher.Run Watch :=
  if elapsed <? timeout then
    match fuel with
    | O => Watcher.OutOfFuel
    | S f =>
        let elapsed := elapsed + waitInterval in
        match tryCatch (tickBody (ticks turn)) (fun _ => Returned None) with
        | Returned (Some l) => Watcher.Done (Returned (Settled (S turn) l))
        | Returned None => waitLoop f ticks elapsed (S turn)
        | Thrown e => Watcher.Done (Thrown e)
        end
    end
  else Watcher.Done (Returned (TimedOut turn)).

Definition waitForSettlement (fuel : nat) (ticks : nat -> Tick) : Watcher.Run Watch :=
  waitLoop fuel ticks 0 0.

End DiceWatcher.

(* ===================================================================== *)
(** ** The deployment script, steps 10 to 13
       (scripts/vrf2plus/deploy-vrf-system.ts, lines 127-166) *)
(* ===================================================================== *)

Module Deployment.

Inductive Call : Type :=
| CreateSubscription
| CreateSubscriptionWait
| AddConsumer (subId : Z) (consumer : string)
| AddConsumerWait
| TransferAndCall (to : string) (amount : Z) (data : string)
| TransferWait
| FundSubscriptionWithNative (subId : Z) (value : Z)
| FundNativeWait.

Record Env : Type := {
  createSubscription : Outcome unit;
  (** [createSubTx.wait()]; [Returned None] is a [null] receipt *)
  createSubscriptionWait : Outcome (option Receipt);
  addConsumer : Outcome unit;
  addConsumerWait : Outcome unit;
  (** [ethers.parseEther(config.LINK_FUNDING_AMOUNT)] *)
  linkFundingAmount : Outcome Z;
  transferAndCall : Outcome unit;
  transferWait : Outcome unit;
  (** [ethers.parseEther(config.NATIVE_FUNDING_AMOUNT)] *)
  nativeFundingAmount : Outcome Z;
  fundSubscriptionWithNative : Outcome unit;
  fundNativeWait : Outcome unit
}.

(** [createSubReceipt?.logs[0].topics[1]]: the [?.] guards the receipt
    only, so a receipt without logs is a [TypeError]. *)
Definition subIdHex (createSubReceipt : option Receipt) : Outcome (option string) :=
  match createSubReceipt with
  | None => Returned None
  | Some receipt =>
      match nth_error (logs receipt) 0 with
      | Some log => Returned (nth_error (topics log) 1)
      | None => Thrown TypeError
      end
  end.

(** [BigInt(subIdHex || "0")] *)
Definition subscriptionId (createSubReceipt : option Receipt) : Outcome Z :=
  (let! hex := subIdHex createSubReceipt in
   Js.BigIntOf (Some (match hex with
                      | Some s => if Js.truthy s then s else "0"
                      | None => "0"
                      end)))%outcome.

(** [ethers.solidityPacked(["uint256"], [subId])]: the 32-byte word of
    [subId], or an exception when it is not a [uint256]. *)
Definition packedSubId (subId : Z) : Outcome string :=
  match Funding.abiEncodeUint 256 subId with
  | Some word => Returned word
  | None => Thrown (Error "value out-of-bounds")
  end.

Definition createAndFund (env : Env) (coordinatorAddress consumerAddress : string)
  : Task.t Call Z :=
  (do! (Task.call CreateSubscription (createSubscription env)) in
   await! createSubReceipt :=
     Task.call CreateSubscriptionWait (createSubscriptionWait env) in
   await! subId := Task.local (subscriptionId createSubReceipt) in
   do! (Task.call (AddConsumer subId consumerAddress) (addConsumer env)) in
   do! (Task.call AddConsumerWait (addConsumerWait env)) in
   await! linkAmount := Task.local (linkFundingAmount env) in
   await! encodedSubId := Task.local (packedSubId subId) in
   do! (Task.call (TransferAndCall coordinatorAddress linkAmount encodedSubId)
          (transferAndCall env)) in
   do! (Task.call TransferWait (transferWait env)) in
   await! nativeAmount := Task.local (nativeFundingAmount env) in
   do! (Task.call (FundSubscriptionWithNative subId nativeAmount)
          (fundSubscriptionWithNative env)) in
   do! (Task.call FundNativeWait (fundNativeWait env)) in
   Task.ret subId)%task.

End Deployment.

(* ===================================================================== *)
(** ** Checks of the string functions *)
(* ===================================================================== *)

Example BigInt_hex : Js.BigInt "0x1F" = Some 31.
Proof. reflexivity. Qed.

Example BigInt_empty_hex : Js.BigInt "0x" = None.
Proof. reflexivity. Qed.

Example BigInt_blank : Js.BigInt "" = Some 0.
Proof. reflexivity. Qed.

Example parseInt16_word :
  Js.parseInt16 "0x0000000000000000000000000000000000000000000000000000000000000002"
  = Js.Finite 2.
Proof. reflexivity. Qed.

Example parseInt16_nan : Js.parseInt16 "0x" = Js.NaN.
Proof. reflexivity. Qed.

(** [2^53 + 1] is not a double: the tie goes to the even significand. *)
Example parseInt16_rounds_to_even :
  Js.parseInt16 "0x20000000000001" = Js.Finite 9007199254740992
  /\ Js.parseInt16 "0x20000000000003" = Js.Finite 9007199254740996.
Proof. split; vm_compute; reflexivity. Qed.

Example parseInt16_infinity :
  Js.parseInt16 ("0x" ++ Js.padStart 256 "f" "") = Js.Infinity false.
Proof. vm_compute. reflexivity. Qed.

Example toString16_255 : Js.padStart 8 "0" (Js.toString16 255) = "000000ff".
Proof. reflexivity. Qed.

Example toString_1024 : Js.toString 1024 = "1024".
Proof. reflexivity. Qed.

Example range_2_5 : range 2 5 = [2; 3; 4; 5].
Proof. reflexivity. Qed.

Example rangeDown_7_2 : rangeDown 7 (Z.max 1 (7 - 5)) = [7; 6; 5; 4; 3; 2].
Proof. reflexivity. Qed.

(* ===================================================================== *)
(** ** Numbers written and read back *)
(* ===================================================================== *)

Module HexFacts.

Lemma hexChar_digit (d : Z) :
  0 <= d < 16 -> Js.digitVal (Js.hexChar d) = Some d.
Proof.
  intros H.
  assert (C : d = 0 \/ d = 1 \/ d = 2 \/ d = 3 \/ d = 4 \/ d = 5 \/ d = 6 \/ d = 7
              \/ d = 8 \/ d = 9 \/ d = 10 \/ d = 11 \/ d = 12 \/ d = 13
              \/ d = 14 \/ d = 15) by lia.
  repeat (destruct C as [->|C]; [reflexivity|]). now subst d.
Qed.

Lemma hexChar_digitIn (radix d : Z) :
  radix <= 16 -> 0 <= d < radix -> Js.digitIn radix (Js.hexChar d) = Some d.
Proof.
  intros Hr Hd. unfold Js.digitIn. rewrite hexChar_digit by lia.
  destruct (Z.ltb_spec d radix); [reflexivity|lia].
Qed.

Lemma digits_step (radix : Z) (f : nat) (n : Z) (acc : string) :
  Js.digits radix (S f) n acc =
    if n <? radix then String (Js.hexChar (n mod radix)) acc
    else Js.digits radix f (n / radix) (String (Js.hexChar (n mod radix)) acc).
Proof. reflexivity. Qed.

(** The digits written for [n] read back as [n], and there are no more of
    them than [n] needs. *)
Lemma digits_value (radix : Z) (f : nat) :
  2 <= radix <= 16 ->
  forall (n : Z) (acc : string),
    0 <= n < radix ^ Z.of_nat (S f) ->
    exists d : nat,
      (1 <= d <= S f)%nat
      /\ (d = 1%nat \/ radix ^ Z.of_nat (d - 1) <= n)
      /\ String.length (Js.digits radix (S f) n acc) = (d + String.length acc)%nat
      /\ forall a, Js.allDigits radix a (Js.digits radix (S f) n acc)
                   = Js.allDigits radix (a * radix ^ Z.of_nat d + n) acc.
Proof.
  intros Hr. induction f as [|f IH]; intros n acc Hn.
  - exists 1%nat. rewrite digits_step.
    change (radix ^ Z.of_nat 1) with (radix ^ 1) in *. rewrite Z.pow_1_r in *.
    destruct (Z.ltb_spec n radix); [|lia].
    rewrite Z.mod_small by lia.
    split; [lia|]. split; [now left|]. split; [reflexivity|].
    intros a. cbn [Js.allDigits]. now rewrite hexChar_digitIn by lia.
  - rewrite digits_step. destruct (Z.ltb_spec n radix) as [Hlt|Hge].
    + exists 1%nat. rewrite Z.mod_small by lia.
      split; [lia|]. split; [now left|]. split; [reflexivity|].
      intros a. cbn [Js.allDigits]. rewrite hexChar_digitIn by lia.
      change (Z.of_nat 1) with 1. now rewrite Z.pow_1_r.
    + assert (Hdiv : 0 <= n / radix < radix ^ Z.of_nat (S f)).
      { split; [apply Z.div_pos; lia|].
        apply Z.div_lt_upper_bound; [lia|].
        rewrite (Nat2Z.inj_succ (S f)), Z.pow_succ_r in Hn by lia. lia. }
      destruct (IH (n / radix) (String (Js.hexChar (n mod radix)) acc) Hdiv)
        as [d [Hd [Hmin [Hlen Hval]]]].
      exists (S d).
      pose proof (Z.mod_pos_bound n radix ltac:(lia)) as Hmod.
      pose proof (Z.div_mod n radix ltac:(lia)) as Hdm.
      split; [lia|]. split; [|split].
      * right. replace (S d - 1)%nat with d by lia.
        destruct Hmin as [->|Hmin].
        -- change (Z.of_nat 1) with 1. rewrite Z.pow_1_r. lia.
        -- replace d with (S (d - 1)) at 1 by lia.
           rewrite Nat2Z.inj_succ, Z.pow_succ_r by lia. nia.
      * rewrite Hlen. cbn [String.length]. lia.
      * intros a. rewrite Hval. cbn [Js.allDigits].
        rewrite hexChar_digitIn by lia.
        f_equal. rewrite Nat2Z.inj_succ, Z.pow_succ_r by lia. nia.
Qed.

Lemma fuel_covers (radix n : Z) :
  2 <= radix -> 0 <= n -> n < radix ^ Z.of_nat (S (Z.to_nat (Z.log2 n))).
Proof.
  intros Hr Hn.
  rewrite Nat2Z.inj_succ, Z2Nat.id by apply Z.log2_nonneg.
  destruct (Z.eq_dec n 0) as [->|Hne].
  - simpl. lia.
  - apply Z.lt_le_trans with (2 ^ Z.succ (Z.log2 n)).
    + apply Z.log2_spec. lia.
    + apply Z.pow_le_mono_l. lia.
Qed.

(** [toString] of a non-negative integer reads back as that integer. *)
Lemma toStringRadix_value (radix n : Z) :
  2 <= radix <= 16 -> 0 <= n ->
  Js.allDigits radix 0 (Js.toStringRadix radix n) = Some n
  /\ Js.toStringRadix radix n <> ""
  /\ forall k : nat, n < radix ^ Z.of_nat k -> (0 < k)%nat ->
                     (String.length (Js.toStringRadix radix n) <= k)%nat.
Proof.
  intros Hr Hn. unfold Js.toStringRadix.
  destruct (Z.ltb_spec n 0); [lia|].
  destruct (digits_value radix (Z.to_nat (Z.log2 n)) Hr n ""
              (conj Hn (fuel_covers radix n ltac:(lia) Hn)))
    as [d [Hd [Hmin [Hlen Hval]]]].
  split; [|split].
  - rewrite Hval. cbn [Js.allDigits]. f_equal; lia.
  - intros E. rewrite E in Hlen. simpl in Hlen. lia.
  - intros k Hk Hpos. rewrite Hlen. cbn [String.length].
    destruct Hmin as [->|Hmin]; [lia|].
    assert (Z.of_nat (d - 1) < Z.of_nat k); [|lia].
    apply (Z.pow_lt_mono_r_iff radix); lia.
Qed.

Lemma length_app (s t : string) :
  String.length (s ++ t) = (String.length s + String.length t)%nat.
Proof. induction s as [|c s IH]; simpl; [reflexivity|now rewrite IH]. Qed.

Lemma length_repeatChar (c : ascii) (k : nat) :
  String.length (Js.repeatChar c k) = k.
Proof. induction k as [|k IH]; simpl; [reflexivity|now rewrite IH]. Qed.

Lemma padStart_length (n : nat) (c : ascii) (s : string) :
  (String.length s <= n)%nat -> String.length (Js.padStart n c s) = n.
Proof.
  intros H. unfold Js.padStart. rewrite length_app, length_repeatChar. lia.
Qed.

Lemma allDigits_zeros (k : nat) (s : string) :
  Js.allDigits 16 0 (Js.repeatChar "0" k ++ s) = Js.allDigits 16 0 s.
Proof. induction k as [|k IH]; simpl; [reflexivity|exact IH]. Qed.

Lemma digitVal_space (c : ascii) :
  Js.isSpace c = true -> Js.digitVal c = None.
Proof.
  destruct c as [[] [] [] [] [] [] [] []]; vm_compute;
    intros H; try reflexivity; discriminate H.
Qed.

Lemma digitIn_not_space (radix : Z) (c : ascii) (d : Z) :
  Js.digitIn radix c = Some d -> Js.isSpace c = false.
Proof.
  unfold Js.digitIn. intros H.
  destruct (Js.isSpace c) eqn:E; [|reflexivity].
  rewrite (digitVal_space c E) in H. discriminate.
Qed.

Lemma allDigits_trimEnd (radix : Z) (s : string) :
  forall acc v, Js.allDigits radix acc s = Some v -> Js.trimEnd s = s.
Proof.
  induction s as [|c s IH]; intros acc v H; simpl in *; [reflexivity|].
  destruct (Js.digitIn radix c) as [d|] eqn:Ed; [|discriminate].
  rewrite (IH _ _ H).
  destruct s; [|reflexivity].
  now rewrite (digitIn_not_space _ _ _ Ed).
Qed.

(** [BigInt] of a [0x] literal over hexadecimal digits is their value. *)
Lemma BigInt_hex_literal (s : string) (v : Z) :
  s <> "" -> Js.allDigits 16 0 s = Some v -> Js.BigInt ("0x" ++ s) = Some v.
Proof.
  intros Hne H. unfold Js.BigInt.
  change (Js.trimStart ("0x" ++ s)) with ("0x" ++ s).
  assert (Ht : Js.trimEnd ("0x" ++ s) = "0x" ++ s).
  { simpl. rewrite (allDigits_trimEnd _ _ _ _ H).
    destruct s; [congruence|reflexivity]. }
  rewrite Ht. simpl. destruct s; [congruence|exact H].
Qed.

(** The 32-byte word written for [n]: 66 characters that [BigInt] reads
    back as [n]. *)
Lemma word_roundtrip (n : Z) :
  0 <= n < 2 ^ 256 ->
  let w := "0x" ++ Js.padStart 64 "0" (Js.toString16 n) in
  String.length w = 66%nat /\ Js.BigInt w = Some n.
Proof.
  intros Hn w.
  destruct (toStringRadix_value 16 n ltac:(lia) ltac:(lia)) as [Hval [Hne Hlen]].
  assert (H64 : (String.length (Js.toString16 n) <= 64)%nat).
  { apply Hlen; [|lia]. change (16 ^ Z.of_nat 64) with (2 ^ 256). lia. }
  split.
  - unfold w. cbn [append String.length]. now rewrite padStart_length.
  - unfold w. apply BigInt_hex_literal.
    + unfold Js.padStart. intros E.
      apply (f_equal String.length) in E. rewrite length_app in E.
      simpl in E. destruct (Js.toString16 n); [now apply Hne|simpl in E; lia].
    + unfold Js.padStart. rewrite allDigits_zeros. exact Hval.
Qed.

End HexFacts.

(* ===================================================================== *)
(** ** Properties of [encodeOnChainVRFProvingKey] *)
(* ===================================================================== *)

Module KeyEncodingFacts.
Import KeyEncoding HexFacts.

(** A string of hexadecimal digits. *)
Definition isHex (s : string) : Prop := exists v, Js.allDigits 16 0 s = Some v.

Lemma substring_whole (s : string) (n : nat) :
  String.length s = n -> substring 0 n s = s.
Proof.
  revert n; induction s as [|c s IH]; intros [|n] H; simpl in *;
    try discriminate; try reflexivity.
  f_equal. apply IH. congruence.
Qed.

Lemma substring_app_left (a b : string) (n : nat) :
  String.length a = n -> substring 0 n (a ++ b) = a.
Proof.
  revert n; induction a as [|c a IH]; intros [|n] H; simpl in *;
    try discriminate.
  - destruct b; reflexivity.
  - f_equal. apply IH. congruence.
Qed.

Lemma substring_app_right (a b : string) (n m : nat) :
  String.length a = n -> substring n m (a ++ b) = substring 0 m b.
Proof.
  revert n; induction a as [|c a IH]; intros [|n] H; simpl in *;
    try discriminate.
  - reflexivity.
  - apply IH. congruence.
Qed.

Lemma startsWith_app (p s t : string) :
  (String.length p <= String.length s)%nat ->
  Js.startsWith p (s ++ t) = Js.startsWith p s.
Proof.
  revert s; induction p as [|a p IH]; intros [|b s] H; simpl in *;
    try reflexivity; try lia.
  f_equal. apply IH. lia.
Qed.

Lemma length_nonempty (s : string) (n : nat) :
  String.length s = S n -> s <> "".
Proof. destruct s; simpl; congruence. Qed.

Section WithKeccak.
Variable keccak256 : string -> option string.

(** What the function is documented to return for the key [x ++ y]:
    the two words as coordinates, the parity prefix of [y] before [x],
    and the hash of that compressed key. *)
Definition expected (x y : string) (yv : Z) : Outcome EncodedKey :=
  let c := "0x" ++ (if yv mod 2 =? 0 then "02" else "03") ++ x in
  match keccak256 c with
  | None => Thrown TypeError
  | Some h =>
      Returned {| keyHash := h; compressed := c;
                  coordinates := ("0x" ++ x, "0x" ++ y) |}
  end.

Lemma encode_body (x y : string) (xv yv : Z) (key : string) :
  String.length x = 64%nat -> String.length y = 64%nat ->
  Js.allDigits 16 0 x = Some xv -> Js.allDigits 16 0 y = Some yv ->
  (if Js.startsWith "0x" key then Js.sliceFrom 2 key else key) = "04" ++ x ++ y
  \/ ((if Js.startsWith "0x" key then Js.sliceFrom 2 key else key) = x ++ y
      /\ Js.startsWith "04" x = false) ->
  encodeOnChainVRFProvingKey keccak256 key = expected x y yv.
Proof.
  intros Hx Hy Hxv Hyv Hkey.
  unfold encodeOnChainVRFProvingKey.
  set (k := if Js.startsWith "0x" key then Js.sliceFrom 2 key else key) in *.
  assert (Hp : (if negb (Js.startsWith "04" k) then "04" ++ k else k)
               = "04" ++ x ++ y).
  { destruct Hkey as [-> | [-> Hn]]; [reflexivity|].
    rewrite startsWith_app by (rewrite Hx; simpl; lia).
    now rewrite Hn. }
  rewrite Hp.
  assert (Hsx : Js.slice 2 66 ("04" ++ x ++ y) = x).
  { unfold Js.slice. simpl. now apply substring_app_left. }
  assert (Hsy : Js.slice 66 130 ("04" ++ x ++ y) = y).
  { unfold Js.slice.
    change (substring 66 (130 - 66) ("04" ++ x ++ y))
      with (substring 64 64 (x ++ y)).
    rewrite (substring_app_right x y 64 64 Hx).
    now apply substring_whole. }
  rewrite Hsx, Hsy. unfold Js.BigIntOf.
  rewrite (BigInt_hex_literal x xv (length_nonempty _ _ Hx) Hxv).
  rewrite (BigInt_hex_literal y yv (length_nonempty _ _ Hy) Hyv).
  reflexivity.
Qed.

(** With the [04] marker (and with or without [0x]) the function
    returns what it documents. *)
Lemma encode_marked_key (x y : string) (xv yv : Z) (with0x : bool) :
  String.length x = 64%nat -> String.length y = 64%nat ->
  Js.allDigits 16 0 x = Some xv -> Js.allDigits 16 0 y = Some yv ->
  encodeOnChainVRFProvingKey keccak256
    ((if with0x then "0x" else "") ++ "04" ++ x ++ y) = expected x y yv.
Proof.
  intros Hx Hy Hxv Hyv.
  apply (encode_body x y xv yv); auto.
  left. destruct with0x; reflexivity.
Qed.

(** Without the marker the same holds as long as [x] does not itself
    begin with the characters [04]. *)
Lemma encode_bare_key (x y : string) (xv yv : Z) (with0x : bool) :
  String.length x = 64%nat -> String.length y = 64%nat ->
  Js.allDigits 16 0 x = Some xv -> Js.allDigits 16 0 y = Some yv ->
  Js.startsWith "04" x = false ->
  encodeOnChainVRFProvingKey keccak256
    ((if with0x then "0x" else "") ++ x ++ y) = expected x y yv.
Proof.
  intros Hx Hy Hxv Hyv Hn.
  apply (encode_body x y xv yv); auto.
  right. destruct with0x.
  - split; [reflexivity|exact Hn].
  - simpl ("" ++ _).
    assert (Js.startsWith "0x" (x ++ y) = false) as ->; [|auto].
    rewrite startsWith_app by (rewrite Hx; simpl; lia).
    destruct x as [|a [|b x]]; simpl in Hx; try discriminate.
    cbn [Js.startsWith]. cbn [Js.allDigits] in Hxv.
    destruct (Ascii.eqb_spec "0" a) as [<-|]; [|reflexivity].
    destruct (Ascii.eqb_spec "x" b) as [<-|]; [|reflexivity].
    assert (E : Js.digitIn 16 "x" = None) by reflexivity.
    rewrite E in Hxv. destruct (Js.digitIn 16 "0"); discriminate Hxv.
Qed.

End WithKeccak.

(** A bare key [x ++ y] whose [x] word begins with the byte [04]. *)
Definition x04 : string :=
  "0411111111111111111111111111111111111111111111111111111111111111".
Definition y04 : string :=
  "2222222222222222222222222222222222222222222222222222222222222223".

(** C10 (the code departs from it): for the bare key [x04 ++ y04] the
    function takes the leading [04] of [x] for the format marker, so the
    coordinates it returns are the input shifted by one byte, not the
    words [x04] and [y04], and the compressed key does not carry [x04]. *)
Theorem encode_bare_key_leading_04 (keccak256 : string -> option string) :
  encodeOnChainVRFProvingKey keccak256 (x04 ++ y04) =
    (let c := "0x03" ++ Js.slice 2 66 (x04 ++ y04) in
     match keccak256 c with
     | None => Thrown TypeError
     | Some h =>
         Returned {| keyHash := h; compressed := c;
                     coordinates := ("0x" ++ Js.slice 2 66 (x04 ++ y04),
                                     "0x" ++ Js.slice 2 64 y04) |}
     end)
  /\ Js.slice 2 66 (x04 ++ y04) <> x04
  /\ Js.slice 2 64 y04 <> y04
  /\ String.length x04 = 64%nat /\ String.length y04 = 64%nat
  /\ isHex x04 /\ isHex y04.
Proof.
  split; [reflexivity|].
  split; [vm_compute; discriminate|].
  split; [vm_compute; discriminate|].
  split; [reflexivity|]. split; [reflexivity|].
  split; eexists; vm_compute; reflexivity.
Qed.

(** The checked version refuses the same key: after dropping the [04] it
    took for the marker, 126 characters are left. *)
Example checked_version_rejects (packedHash : string -> string -> option string) :
  KeyEncodingChecked.encodeOnChainVRFProvingKey packedHash (x04 ++ y04)
  = Thrown (Error "uncompressed key must be 64 bytes").
Proof. reflexivity. Qed.

End KeyEncodingFacts.

(* ===================================================================== *)
(** ** Properties of the subscription discovery *)
(* ===================================================================== *)

Module ResolverFacts.
Import Resolver.

Lemma mid_between (l r : Z) : l <= r -> l <= (l + r) / 2 <= r.
Proof.
  intros H. split.
  - apply Z.div_le_lower_bound; lia.
  - apply Z.div_le_upper_bound; lia.
Qed.

(** The search ends by its own test: any fuel that covers the width of
    the interval gives the same answer. *)
Lemma maxExistingLoop_fuel (c : Coordinator) (f1 : nat) :
  forall (f2 : nat) (l r m : Z),
    (Z.to_nat (r - l + 1) <= f1)%nat ->
    (Z.to_nat (r - l + 1) <= f2)%nat ->
    maxExistingLoop f1 c l r m = maxExistingLoop f2 c l r m.
Proof.
  induction f1 as [|f1 IH]; intros f2 l r m H1 H2.
  - destruct f2 as [|f2]; [reflexivity|]. simpl.
    destruct (Z.leb_spec l r); [lia|reflexivity].
  - simpl. destruct (Z.leb_spec l r) as [Hle|Hgt].
    + destruct f2 as [|f2]; [lia|]. simpl.
      destruct (Z.leb_spec l r); [|lia].
      pose proof (mid_between l r Hle) as Hm.
      destruct (getSubscription c ((l + r) / 2)); apply IH; lia.
    + destruct f2 as [|f2]; [reflexivity|]. simpl.
      destruct (Z.leb_spec l r); [lia|reflexivity].
Qed.

Lemma maxExisting_any_fuel (c : Coordinator) (fuel : nat) :
  (1000 <= fuel)%nat -> maxExistingLoop fuel c 1 1000 0 = maxExisting c.
Proof.
  intros H. unfold maxExisting. apply maxExistingLoop_fuel; simpl; lia.
Qed.

(** A scan only ever yields an identifier it has just read and
    accepted. *)
Lemma firstMatch_sound (c : Coordinator) (accept : Subscription -> bool)
  (ids : list Z) (id : Z) :
  firstMatch c accept ids = Some id ->
  In id ids /\ exists sub, getSubscription c id = Some sub /\ accept sub = true.
Proof.
  induction ids as [|i ids IH]; simpl; [discriminate|].
  destruct (getSubscription c i) as [sub|] eqn:Eg.
  - destruct (accept sub) eqn:Ea.
    + intros [= <-]. split; [now left|]. now exists sub.
    + intros H. destruct (IH H) as [Hin Hs]. split; [now right|exact Hs].
  - intros H. destruct (IH H) as [Hin Hs]. split; [now right|exact Hs].
Qed.

(** A scan skips every earlier identifier for a reason. *)
Lemma firstMatch_none (c : Coordinator) (accept : Subscription -> bool)
  (ids : list Z) :
  firstMatch c accept ids = None ->
  forall id sub, In id ids -> getSubscription c id = Some sub -> accept sub = false.
Proof.
  induction ids as [|i ids IH]; simpl; intros H id sub Hin Hg; [contradiction|].
  destruct (getSubscription c i) as [s|] eqn:Eg.
  - destruct (accept s) eqn:Ea; [discriminate|].
    destruct Hin as [<-|Hin]; [congruence|now apply (IH H id sub)].
  - destruct Hin as [<-|Hin]; [congruence|now apply (IH H id sub)].
Qed.

Section Run.
Variable env : Env.

(** The identifier names a subscription whose owner, read from the
    coordinator, is the signer (addresses compared without case). *)
Definition ownerConfirmed (id : Z) : Prop :=
  exists sub, getSubscription (after env) id = Some sub
              /\ sameAddress (subOwner sub) (signerAddress env) = true.

(** The identifier is the second topic of a log of [L] that carries
    the v2 creation topic. *)
Definition readFromV2Topic (L : list Log) (id : Z) : Prop :=
  exists log topic0,
    In log L
    /\ nth_error (topics log) 0 = Some topic0
    /\ Js.toLowerCase topic0 = topicV2
    /\ Js.BigIntOf (nth_error (topics log) 1) = Returned id.

(** No strategy found a candidate: neither the comparison with the
    snapshot, nor the fallback methods run on the receipt, nor the scan of
    the identifiers 2 to 5 (none of which is read as a subscription of
    the signer). *)
Definition nothingFound (receipt : Receipt) : Prop :=
  let subId := newlyCreated env (existingSubscriptionIds (before env)) in
  Js.truthyBig subId = false
  /\ (exists subId',
        fallbackMethods env receipt subId = Returned subId'
        /\ Js.truthyBig subId' = false)
  /\ (forall i sub,
        2 <= i <= 5 ->
        getSubscription (after env) i = Some sub ->
        ownedBy (signerAddress env) sub = false).

(** Identifier 1 taken on trust: nothing was found and reading
    subscription 1 failed. *)
Definition assumedFirst (receipt : Receipt) (id : Z) : Prop :=
  id = 1 /\ getSubscription (after env) 1 = None /\ nothingFound receipt.

Definition justified (L : list Log) (subId : option Z) : Prop :=
  forall v, subId = Some v -> ownerConfirmed v \/ readFromV2Topic L v.

Lemma justified_none (L : list Log) : justified L None.
Proof. intros v H. discriminate. Qed.

Lemma ownedBy_confirmed (c := after env) (id : Z) (sub : Subscription) :
  getSubscription c id = Some sub ->
  ownedBy (signerAddress env) sub = true -> ownerConfirmed id.
Proof.
  intros Hg Ho. exists sub. split; [exact Hg|].
  unfold ownedBy in Ho. now apply andb_true_iff in Ho.
Qed.

Lemma scan_justified (L : list Log) (ids : list Z) (subId : option Z) :
  justified L subId ->
  justified L
    (assign subId (firstMatch (after env) (ownedBy (signerAddress env)) ids)).
Proof.
  intros J. unfold assign.
  destruct (firstMatch _ _ ids) as [i|] eqn:E; [|exact J].
  intros v [= <-]. left.
  destruct (firstMatch_sound _ _ _ _ E) as [_ [sub [Hg Ho]]].
  now apply (ownedBy_confirmed i sub).
Qed.

Lemma scan_alone_justified (L : list Log) (ids : list Z) :
  justified L (firstMatch (after env) (ownedBy (signerAddress env)) ids).
Proof.
  pose proof (scan_justified L ids None (justified_none L)) as J.
  unfold assign in J. now destruct (firstMatch _ _ ids).
Qed.

Lemma fresh_scan_justified (L : list Log) (ids : list Z) (subId : option Z) :
  justified L subId ->
  justified L
    (assign subId (firstMatch (after env) (ownedAndFresh (signerAddress env)) ids)).
Proof.
  intros J. unfold assign.
  destruct (firstMatch _ _ ids) as [i|] eqn:E; [|exact J].
  intros v [= <-]. left.
  destruct (firstMatch_sound _ _ _ _ E) as [_ [sub [Hg Ho]]].
  unfold ownedAndFresh in Ho. apply andb_true_iff in Ho as [Ho _].
  now apply (ownedBy_confirmed i sub).
Qed.

Lemma newlyCreated_justified (L : list Log) (existing : list IdValue) :
  justified L (newlyCreated env existing).
Proof.
  unfold newlyCreated.
  destruct (getActiveSubscriptionIds (after env)) as [ids|];
    [|apply justified_none].
  apply scan_alone_justified.
Qed.

Lemma directExtraction_justified (L : list Log) (subId : option Z) :
  justified L subId -> justified L (directExtraction env subId).
Proof.
  intros J. unfold directExtraction.
  set (s1 := match getActiveSubscriptionIds (after env) with
             | Some activeIds => _
             | None => subId
             end).
  assert (J1 : justified L s1).
  { unfold s1. destruct (getActiveSubscriptionIds (after env));
      [now apply scan_justified|exact J]. }
  destruct (negb (Js.truthyBig s1)); [now apply fresh_scan_justified|exact J1].
Qed.

Lemma hexExtraction_justified (L : list Log) (subId : option Z) (log : Log) :
  justified L subId -> justified L (hexExtraction env subId log).
Proof.
  intros J. unfold hexExtraction.
  destruct (sameAddress (address log) (coordinatorAddress env)); [|exact J].
  destruct (66 <=? String.length (data log))%nat; [|exact J].
  destruct (Js.BigInt _) as [possibleId|]; [|exact J].
  destruct ((0 <? possibleId) && (possibleId <? 1000000)); [|exact J].
  destruct (getSubscription (after env) possibleId) as [sub|] eqn:Eg; [|exact J].
  destruct (sameAddress (subOwner sub) (signerAddress env)) eqn:Eo; [|exact J].
  intros v [= <-]. left. now exists sub.
Qed.

Lemma hexExtraction_fold_justified (L logs : list Log) :
  forall subId, justified L subId ->
                justified L (fold_left (hexExtraction env) logs subId).
Proof.
  induction logs as [|log logs IH]; intros subId J; simpl; [exact J|].
  apply IH. now apply hexExtraction_justified.
Qed.

Lemma recentSubscriptions_justified (L : list Log) (subId : option Z) :
  justified L subId -> justified L (recentSubscriptions env subId).
Proof.
  intros J. unfold recentSubscriptions.
  pose proof (scan_alone_justified L (range 1 10)) as J10.
  pose proof (scan_alone_justified L (range 11 30)) as J30.
  destruct (firstMatch _ _ (range 1 10)); [exact J10|].
  destruct (firstMatch _ _ (range 11 30)); [exact J30|].
  destruct (0 <? maxExisting (after env)); [now apply scan_justified|exact J].
Qed.

Lemma fromHashedTopic_justified (L : list Log) (subId : option Z) (log : Log) :
  justified L subId -> justified L (fromHashedTopic env subId log).
Proof.
  intros J. unfold fromHashedTopic.
  pose proof (scan_justified L (range 1 20) subId J) as J20.
  destruct (Js.truthyBig _); [exact J20|].
  destruct (decodeAddress env (data log));
    [now apply recentSubscriptions_justified|exact J20].
Qed.

Lemma topicLoop_justified (L logs : list Log) :
  incl logs L ->
  forall subId result,
    justified L subId ->
    topicLoop env logs subId = Returned result ->
    justified L result.
Proof.
  induction logs as [|log logs IH]; intros Hin subId result J;
    cbn [topicLoop].
  - now intros [= <-].
  - assert (Hlog : In log L) by (apply Hin; now left).
    assert (Hrest : incl logs L) by (intros x Hx; apply Hin; now right).
    destruct (nth_error (topics log) 0) as [topic0|] eqn:E0; [|discriminate].
    destruct (includesStr _ _); [|now apply IH].
    destruct (String.eqb_spec (Js.toLowerCase topic0) (Js.toLowerCase topicV2))
      as [Ev2|_].
    + destruct (Js.BigIntOf (nth_error (topics log) 1)) as [v|e] eqn:Ev;
        cbn [obind Js.truthyBig]; [|discriminate].
      assert (Jv : justified L (Some v)).
      { intros w [= <-]. right. exists log, topic0. repeat split; auto. }
      destruct (negb (v =? 0)); [now intros [= <-]|now apply IH].
    + destruct (Js.toLowerCase topic0 =? Js.toLowerCase topicV2_5)%string;
        cbn [obind].
      * pose proof (fromHashedTopic_justified L subId log J) as Jh.
        destruct (Js.truthyBig _); [now intros [= <-]|now apply IH].
      * destruct (Js.truthyBig subId); [now intros [= <-]|now apply IH].
Qed.

Lemma fallbackMethods_justified (receipt : Receipt) (subId result : option Z) :
  justified (logs receipt) subId ->
  fallbackMethods env receipt subId = Returned result ->
  justified (logs receipt) result.
Proof.
  intros J. unfold fallbackMethods.
  set (s1 := match logs receipt with [] => subId | _ => _ end).
  assert (J1 : justified (logs receipt) s1).
  { unfold s1. destruct (logs receipt) as [|log [|]]; try exact J.
    destruct (List.length (topics log) =? 2)%nat;
      [now apply directExtraction_justified|exact J]. }
  destruct (negb (Js.truthyBig s1)); [|now intros [= <-]].
  apply topicLoop_justified; [apply incl_refl|].
  now apply hexExtraction_fold_justified.
Qed.

Lemma truthyBig_value (subId : option Z) :
  Js.truthyBig subId = true -> subId = Some (valueOf subId).
Proof. destruct subId; simpl; [reflexivity|discriminate]. Qed.

Lemma directApproach_justified (L : list Log) (subId : option Z) (id : Z) :
  justified L subId ->
  directApproach env subId = Returned id ->
  ownerConfirmed id
  \/ readFromV2Topic L id
  \/ (id = 1
      /\ getSubscription (after env) 1 = None
      /\ forall i sub,
           2 <= i <= 5 ->
           getSubscription (after env) i = Some sub ->
           ownedBy (signerAddress env) sub = false).
Proof.
  intros J. unfold directApproach.
  destruct (getSubscription (after env) 1) as [sub|] eqn:Eg.
  - set (p := if ownedBy (signerAddress env) sub then _ else _).
    assert (Jp : justified L (fst p) /\ snd p = true).
    { unfold p. destruct (ownedBy (signerAddress env) sub) eqn:Eo; simpl;
        split; auto.
      intros v [= <-]. left. now apply (ownedBy_confirmed 1 sub). }
    destruct p as [s1 b]. simpl in Jp. destruct Jp as [J1 ->].
    set (s2 := if negb (Js.truthyBig s1) then _ else s1).
    assert (J2 : justified L s2).
    { unfold s2. destruct (negb (Js.truthyBig s1));
        [now apply scan_justified|exact J1]. }
    destruct (Js.truthyBig s2) eqn:Et; simpl; [|discriminate].
    intros [= <-]. destruct (J2 _ (truthyBig_value _ Et)); auto.
  - set (s2 := if negb (Js.truthyBig subId) then _ else subId).
    assert (J2 : justified L s2).
    { unfold s2. destruct (negb (Js.truthyBig subId));
        [now apply scan_justified|exact J]. }
    destruct (Js.truthyBig s2) eqn:Et; simpl.
    + intros [= <-]. destruct (J2 _ (truthyBig_value _ Et)); auto.
    + intros [= <-]. right; right. split; [reflexivity|]. split; [reflexivity|].
      assert (Hscan : firstMatch (after env) (ownedBy (signerAddress env))
                        (range 2 5) = None).
      { unfold s2 in Et.
        destruct (Js.truthyBig subId) eqn:Es; cbn [negb] in Et; [congruence|].
        destruct (firstMatch (after env) (ownedBy (signerAddress env)) (range 2 5))
          as [found|] eqn:Ef; [|reflexivity].
        exfalso. cbn [assign Js.truthyBig] in Et.
        destruct (firstMatch_sound _ _ _ _ Ef) as [Hin _].
        rewrite range_2_5 in Hin. cbn [In] in Hin.
        destruct (Z.eqb_spec found 0) as [->|Hne];
          [|cbn [negb] in Et; discriminate].
        destruct Hin as [H|[H|[H|[H|[]]]]]; discriminate H. }
      intros i sub Hi Hsub.
      apply (firstMatch_none _ _ _ Hscan i sub); [|exact Hsub].
      rewrite range_2_5. cbn [In]. lia.
Qed.

End Run.

End ResolverFacts.

(* ===================================================================== *)
(** ** Discovery runs on concrete ledgers *)
(* ===================================================================== *)

Module ResolverRuns.
Import Resolver ResolverFacts.

Definition signer : string := "0xf39Fd6e51aad88F6F4ce6aB8827279cffFb92266".
Definition stranger : string := "0x70997970C51812dc3A010C7d01b50e0d17dc79C8".
Definition coordinatorAt : string := "0x5FbDB2315678afecb367f032d93F642f64180aa3".

Definition subscriptionOf (owner : string) (requests : Z) : Subscription :=
  {| balance := 0; nativeBalance := 0; reqCount := requests;
     subOwner := owner; consumers := [] |}.

(** The creation log of a v2.5 coordinator: the creation topic, a hash
    in the second topic, the owner in the data word. *)
Definition hashedCreationLog : Log :=
  {| address := coordinatorAt;
     topics := [ topicV2_5;
                 "0x9c3a1f0e5d7b2a4c6e8f00112233445566778899aabbccddeeff001122334455" ];
     data := "0x000000000000000000000000f39fd6e51aad88f6f4ce6ab8827279cfffb92266" |}.

(** An address word decodes to its low twenty bytes. *)
Definition decodeAddressWord (d : string) : option string :=
  if (66 <=? String.length d)%nat then Some ("0x" ++ Js.slice 26 66 d) else None.

(** *** A coordinator that enumerates its subscriptions *)

Definition enumerating (ids : list Z) (subs : Z -> option Subscription)
  : Coordinator :=
  {| getSubscription := subs; getActiveSubscriptionIds := Some ids |}.

Definition scenarioA : Env :=
  {| signerAddress := signer;
     coordinatorAddress := coordinatorAt;
     before := enumerating [1; 2]
                 (fun id => if (id =? 1) || (id =? 2)
                            then Some (subscriptionOf stranger 4) else None);
     createSubscription := Returned (Some {| blockNumber := 12; logs := [hashedCreationLog] |});
     after := enumerating [1; 2; 3]
                (fun id => if (id =? 1) || (id =? 2)
                           then Some (subscriptionOf stranger 4)
                           else if id =? 3 then Some (subscriptionOf signer 0)
                           else None);
     decodeAddress := decodeAddressWord |}.

Example scenarioA_run : resolveSubscription scenarioA = Returned 3.
Proof. vm_compute. reflexivity. Qed.

(** *** A coordinator that cannot enumerate, with identifiers that are
    not small integers *)

Definition opaque (subs : Z -> option Subscription) : Coordinator :=
  {| getSubscription := subs; getActiveSubscriptionIds := None |}.

Definition hashedId : Z := 2 ^ 200 + 17.

Definition hashedIds : Env :=
  {| signerAddress := signer;
     coordinatorAddress := coordinatorAt;
     before := opaque (fun _ => None);
     createSubscription := Returned (Some {| blockNumber := 12; logs := [hashedCreationLog] |});
     after := opaque (fun id => if id =? hashedId
                                then Some (subscriptionOf signer 0) else None);
     decodeAddress := decodeAddressWord |}.

(** *** A v2 coordinator: the identifier is the second topic *)

Definition v2CreationLog : Log :=
  {| address := coordinatorAt;
     topics := [ topicV2;
                 "0x0000000000000000000000000000000000000000000000000000000000000009" ];
     data := "0x000000000000000000000000f39fd6e51aad88f6f4ce6ab8827279cfffb92266" |}.

Definition v2Coordinator : Env :=
  {| signerAddress := signer;
     coordinatorAddress := coordinatorAt;
     before := opaque (fun _ => None);
     createSubscription :=
       Returned (Some {| blockNumber := 12; logs := [v2CreationLog] |});
     after := opaque (fun id => if id =? 9
                                then Some (subscriptionOf stranger 0) else None);
     decodeAddress := decodeAddressWord |}.

(** The topic is taken as it is: here subscription 9 belongs to someone
    else. *)
Example v2_topic_run : resolveSubscription v2Coordinator = Returned 9.
Proof. vm_compute. reflexivity. Qed.

(** *** Scenario B: an old subscription of the signer at 25 *)

Definition scenarioB : Env :=
  {| signerAddress := signer;
     coordinatorAddress := coordinatorAt;
     before := opaque (fun id => if (1 <=? id) && (id <=? 5)
                                 then Some (subscriptionOf stranger 2)
                                 else if id =? 25 then Some (subscriptionOf signer 7)
                                 else None);
     createSubscription := Returned (Some {| blockNumber := 12; logs := [hashedCreationLog] |});
     after := opaque (fun id => if (1 <=? id) && (id <=? 5)
                                then Some (subscriptionOf stranger 2)
                                else if id =? 25 then Some (subscriptionOf signer 7)
                                else if id =? 101 then Some (subscriptionOf signer 0)
                                else None);
     decodeAddress := decodeAddressWord |}.

End ResolverRuns.

Module ResolverClaims.
Import Resolver ResolverFacts ResolverRuns.

(** C1 (as amended): an identifier returned by the discovery is one
    whose owner, read from the coordinator, is the signer, or it is the
    second topic of a v2 creation log of the receipt (taken without an
    ownership read), or it is the last-resort value 1, taken when no
    strategy found a candidate (the comparison with the snapshot, the
    fallback methods and the scan of 2..5 all came back empty) and
    reading subscription 1 failed. *)
Theorem resolved_id_provenance (env : Env) (id : Z) :
  resolveSubscription env = Returned id ->
  ownerConfirmed env id
  \/ (exists receipt,
         createSubscription env = Returned (Some receipt)
         /\ readFromV2Topic (logs receipt) id)
  \/ (exists receipt,
         createSubscription env = Returned (Some receipt)
         /\ assumedFirst env receipt id).
Proof.
  unfold resolveSubscription, assumedFirst, nothingFound.
  destruct (createSubscription env) as [[receipt|]|e]; cbn [obind];
    try discriminate.
  set (s0 := newlyCreated env _).
  assert (J0 : justified env (logs receipt) s0)
    by apply newlyCreated_justified.
  destruct (Js.truthyBig s0) eqn:E0; cbn [negb obind].
  - rewrite E0. cbn [negb]. intros [= <-].
    destruct (J0 _ (truthyBig_value _ E0)) as [H|H]; [now left|].
    right; left. now exists receipt.
  - destruct (fallbackMethods env receipt s0) as [s1|e] eqn:Ef; cbn [obind];
      [|discriminate].
    pose proof (fallbackMethods_justified env receipt s0 s1 J0 Ef) as J1.
    destruct (Js.truthyBig s1) eqn:E1; cbn [negb].
    + intros [= <-].
      destruct (J1 _ (truthyBig_value _ E1)) as [H|H]; [now left|].
      right; left. now exists receipt.
    + intros H.
      destruct (directApproach_justified env _ _ _ J1 H)
        as [H1|[H1|[-> [Hone Hscan]]]]; [now left| |].
      * right; left. now exists receipt.
      * right; right. exists receipt. split; [reflexivity|].
        split; [reflexivity|]. split; [exact Hone|].
        cbv zeta. split; [reflexivity|]. split; [|exact Hscan].
        exists s1. split; [exact Ef|exact E1].
Qed.

Lemma resolved_id_provenance_witness :
  resolveSubscription hashedIds = Returned 1
  /\ exists receipt,
       createSubscription hashedIds = Returned (Some receipt)
       /\ assumedFirst hashedIds receipt 1.
Proof.
  assert (Hrun : resolveSubscription hashedIds = Returned 1)
    by (vm_compute; reflexivity).
  split; [exact Hrun|].
  destruct (resolved_id_provenance hashedIds 1 Hrun)
    as [[sub [Hsub _]]|[[receipt [Hr [log [topic0 [Hin [H0 [Hv2 _]]]]]]]|H]].
  - vm_compute in Hsub. discriminate Hsub.
  - exfalso. injection Hr as <-. cbn [logs] in Hin.
    destruct Hin as [<-|[]]. injection H0 as <-.
    vm_compute in Hv2. discriminate Hv2.
  - exact H.
Defined.

(** C1 (as stated, refuted): on a coordinator that cannot enumerate and
    whose new subscription is not a small integer, every scan comes back
    empty, reading subscription 1 fails, and the discovery returns 1: an
    identifier with no owner on the coordinator and no check behind it. *)
Lemma last_resort_id_is_unverified :
  resolveSubscription hashedIds = Returned 1
  /\ getSubscription (after hashedIds) 1 = None
  /\ ~ ownerConfirmed hashedIds 1.
Proof.
  split; [vm_compute; reflexivity|].
  split; [reflexivity|].
  intros [sub [Hg _]]. vm_compute in Hg. discriminate.
Qed.

(** C6 (the code departs from it): in scenario B the scan of 1..100
    turns subscription 25 down because its request counter is 7, and the
    later scan of 11..30, which reads the owner only, selects that same
    subscription; the subscription just created (101) is not found. *)
Theorem stale_subscription_selected :
  resolveSubscription scenarioB = Returned 25
  /\ getSubscription (before scenarioB) 25 = Some (subscriptionOf signer 7)
  /\ getSubscription (after scenarioB) 25 = Some (subscriptionOf signer 7)
  /\ firstMatch (after scenarioB) (ownedAndFresh signer) (range 1 100) = None
  /\ firstMatch (after scenarioB) (ownedBy signer) (range 1 10) = None
  /\ firstMatch (after scenarioB) (ownedBy signer) (range 11 30) = Some 25.
Proof. repeat split; vm_compute; reflexivity. Qed.

End ResolverClaims.

(* ===================================================================== *)
(** ** Properties of STEP 4 *)
(* ===================================================================== *)

Module RegistrationClaims.
Import Registration.

Lemma dataIs_hasData (e : Exn) :
  dataIs e nonExistentSubscription = true -> hasData e = true.
Proof.
  unfold dataIs, hasData. destruct (dataOf e) as [d|]; [|discriminate].
  intros H. apply String.eqb_eq in H. now subst d.
Qed.

(** The recovery branch is never reached: whatever the first call
    answers, the step sends one [addConsumer] and nothing else. *)
Lemma recovery_unreachable (env : Env) (subId : Z) (consumer : string) :
  Task.calls (addConsumerStep env subId consumer) = [AddConsumer subId consumer].
Proof.
  unfold addConsumerStep, Task.call, Task.catch, Task.calls.
  destruct (addConsumer env) as [[]|e]; [reflexivity|].
  destruct (dataIs e nonExistentSubscription) eqn:Ed.
  - rewrite (dataIs_hasData e Ed). reflexivity.
  - destruct (hasData e); reflexivity.
Qed.

(** C3 (the code departs from it): when [addConsumer] rejects with the
    data [0x1f6a65b6], the step throws "Subscription ... does not exist"
    at once; it sends no [createSubscription] and does not retry, even
    where both would have succeeded. *)
Theorem nonexistent_subscription_not_recovered
  (message : string) (subId : Z) (consumer : string) :
  addConsumerStep
    {| addConsumer := Thrown (CallError message (Some "0x1f6a65b6"));
       createSubscription := Returned tt;
       retryAddConsumer := Returned tt |} subId consumer
  = ([AddConsumer subId consumer],
     Thrown (Error ("Subscription " ++ Js.toString subId ++ " does not exist"))).
Proof. reflexivity. Qed.

End RegistrationClaims.

(* ===================================================================== *)
(** ** Properties of STEP 5 *)
(* ===================================================================== *)

Module FundingClaims.
Import Funding.

Definition allGood : Env :=
  {| approve := Returned tt; approveWait := Returned tt;
     transferAndCall := Returned tt; transferWait := Returned tt |}.

Example funding_run :
  Task.calls (fundSubscription allGood "0xC0" 7) =
    [ Approve "0xC0" twoLink; ApproveWait;
      TransferAndCall "0xC0" twoLink
        "0x0000000000000000000000000000000000000000000000000000000000000007";
      TransferWait ].
Proof. vm_compute. reflexivity. Qed.

(** C7: whenever the funding step (of either task) issues
    [transferAndCall], the calls before it are exactly the approval and
    the wait for its receipt, both of which returned without rejecting;
    the transfer goes to the coordinator and carries the encoded
    subscription identifier. *)
Theorem transfer_only_after_approval
  (transferAmount : Z) (env : Env) (coordinator : string) (subId : Z)
  (earlier later : list Call) (to : string) (amount : Z) (payload : string) :
  Task.calls (fundSubscriptionWith transferAmount env coordinator subId)
    = (earlier ++ TransferAndCall to amount payload :: later)%list ->
  earlier = [Approve coordinator twoLink; ApproveWait]
  /\ approve env = Returned tt
  /\ approveWait env = Returned tt
  /\ to = coordinator
  /\ amount = transferAmount
  /\ exists width, encodeSubId subId = Returned (width, payload).
Proof.
  unfold fundSubscriptionWith, Task.calls, Task.bind, Task.call, Task.local.
  destruct (approve env) as [[]|e1]; cbn [fst app];
    [destruct (approveWait env) as [[]|e2]; cbn [fst app];
     [destruct (encodeSubId subId) as [[width enc]|e3]; cbn [fst app];
      [destruct (transferAndCall env) as [[]|e4]; cbn [fst app snd]|]|]|];
    intros H;
    destruct earlier as [|c1 [|c2 [|c3 [|c4 [|c5 earlier]]]]];
    cbn [app] in H; try congruence;
    (repeat split; try congruence; exists width; congruence).
Qed.

Lemma transfer_only_after_approval_witness :
  Task.calls (fundSubscription allGood "0xC0" 7)
    = ([Approve "0xC0" twoLink; ApproveWait]
         ++ TransferAndCall "0xC0" twoLink
              "0x0000000000000000000000000000000000000000000000000000000000000007"
         :: [TransferWait])%list
  /\ approve allGood = Returned tt
  /\ approveWait allGood = Returned tt
  /\ exists width,
       encodeSubId 7 =
         Returned (width,
                   "0x0000000000000000000000000000000000000000000000000000000000000007").
Proof.
  split; [vm_compute; reflexivity|].
  destruct (transfer_only_after_approval twoLink allGood "0xC0" 7
              [Approve "0xC0" twoLink; ApproveWait] [TransferWait]
              "0xC0" twoLink
              "0x0000000000000000000000000000000000000000000000000000000000000007")
    as [_ [Ha [Hw [_ [_ He]]]]].
  - vm_compute. reflexivity.
  - repeat split; assumption.
Defined.

End FundingClaims.

Module EncodingClaims.
Import Funding.

(** C8 (as amended): the encoder tries the [uint64] coder first; that
    attempt throws exactly when the identifier does not fit 64 bits, and
    the [catch] handler then encodes it as [uint256].  For every
    identifier of at most 256 bits the step returns, and what it returns
    is the same 32-byte word whichever coder produced it: 66 characters
    that read back as the identifier. *)
Theorem encodeSubId_total (subId : Z) :
  0 <= subId < 2 ^ 256 ->
  let encoded := "0x" ++ Js.padStart 64 "0" (Js.toString16 subId) in
  encodeSubId subId =
    Returned (if subId <? 2 ^ 64 then Uint64 else Uint256, encoded)
  /\ (abiEncodeUint 64 subId = None <-> 2 ^ 64 <= subId)
  /\ String.length encoded = 66%nat
  /\ Js.BigInt encoded = Some subId.
Proof.
  intros [Hlo Hhi] encoded. unfold encodeSubId, abiEncodeUint, tryCatch.
  assert (E0 : (0 <=? subId) = true) by now apply Z.leb_le.
  assert (E256 : (subId <? 2 ^ 256) = true) by now apply Z.ltb_lt.
  rewrite E0, E256. cbn [andb].
  pose proof (HexFacts.word_roundtrip subId (conj Hlo Hhi)) as Hword.
  destruct (Z.ltb_spec subId (2 ^ 64)) as [Hs|Hs].
  - split; [reflexivity|]. split; [|exact Hword]. split; [discriminate|lia].
  - split; [reflexivity|]. split; [|exact Hword].
    split; [intros _; exact Hs|reflexivity].
Qed.

Lemma encodeSubId_total_witness :
  0 <= 2 ^ 64 < 2 ^ 256
  /\ let encoded := "0x" ++ Js.padStart 64 "0" (Js.toString16 (2 ^ 64)) in
     encodeSubId (2 ^ 64) =
       Returned (if 2 ^ 64 <? 2 ^ 64 then Uint64 else Uint256, encoded)
     /\ (abiEncodeUint 64 (2 ^ 64) = None <-> 2 ^ 64 <= 2 ^ 64)
     /\ String.length encoded = 66%nat
     /\ Js.BigInt encoded = Some (2 ^ 64).
Proof.
  split; [lia|]. apply (encodeSubId_total (2 ^ 64)). lia.
Defined.

(** C8 (as stated, refuted): for the identifier [2^64] the first
    attempt does fail at run time, and the [uint256] encoding is produced
    by the handler that catches that failure. *)
Lemma narrow_encoding_fails_and_is_caught :
  abiEncodeUint 64 (2 ^ 64) = None
  /\ encodeSubId (2 ^ 64) =
       Returned (Uint256,
                 "0x0000000000000000000000000000000000000000000000010000000000000000").
Proof. split; vm_compute; reflexivity. Qed.

End EncodingClaims.

(* ===================================================================== *)
(** ** Properties of STEP 6 *)
(* ===================================================================== *)

Module SubmissionClaims.
Import Submission.

Definition coordinatorAt : string := "0x5FbDB2315678afecb367f032d93F642f64180aa3".

(** The contract reads 5 while the receipt's event carries 7. *)
Definition disagreeing : Env :=
  {| coordinatorAddress := coordinatorAt;
     requestRandomness := Returned tt;
     requestWait := Returned tt;
     s_requestId := Returned 5;
     getTransactionReceipt :=
       Returned (Some
         [ {| address := coordinatorAt;
              topics := [ randomWordsRequested;
                          "0x0000000000000000000000000000000000000000000000000000000000000007" ];
              data := "0x" |} ]) |}.

(** C2 (as amended): once the request is mined and [s_requestId()]
    returns, the step returns that value, also when the receipt holds a
    "request submitted" event of the coordinator: the identifier of that
    event is printed and compared with nothing, so a disagreement raises
    no error. *)
Theorem direct_read_wins
  (env : Env) (requestId : Z) (receiptLogs : list Log) (log : Log) :
  requestRandomness env = Returned tt ->
  requestWait env = Returned tt ->
  s_requestId env = Returned requestId ->
  getTransactionReceipt env = Returned (Some receiptLogs) ->
  In log receiptLogs ->
  sameAddress (address log) (coordinatorAddress env) = true ->
  firstTopicIs log randomWordsRequested = true ->
  snd (submitRequest env) = Returned requestId
  /\ In (RequestIdFromEvent (nth_error (topics log) 1)) (fst (submitRequest env)).
Proof.
  intros H1 H2 H3 Hr Hin Ha Ht. unfold submitRequest.
  rewrite H1, H2, H3, Hr. split; [reflexivity|].
  cbn [fst]. right. apply in_flat_map. exists log. split; [exact Hin|].
  unfold requestedEvent. rewrite Ha, Ht. now left.
Qed.

Definition requestedLog : Log :=
  {| address := coordinatorAt;
     topics := [ randomWordsRequested;
                 "0x0000000000000000000000000000000000000000000000000000000000000007" ];
     data := "0x" |}.

Lemma direct_read_wins_witness :
  s_requestId disagreeing = Returned 5
  /\ getTransactionReceipt disagreeing = Returned (Some [requestedLog])
  /\ snd (submitRequest disagreeing) = Returned 5
  /\ In (RequestIdFromEvent (nth_error (topics requestedLog) 1))
        (fst (submitRequest disagreeing)).
Proof.
  split; [reflexivity|]. split; [reflexivity|].
  apply (direct_read_wins disagreeing 5 [requestedLog] requestedLog);
    try reflexivity.
  now left.
Defined.

(** In the second task a receipt without either event yields the
    identifier [0n]. *)
Example request_id_defaults_to_zero (consumer coordinator : string) :
  requestIdFromReceipt consumer coordinator (Some []) = Returned 0.
Proof. reflexivity. Qed.

(** C2 (as stated, refuted): the direct read (5) and the identifier of
    the receipt's event (7) are both available and differ, and the step
    returns 5 instead of raising an error. *)
Lemma mismatch_is_not_raised :
  s_requestId disagreeing = Returned 5
  /\ In (RequestIdFromEvent
           (Some "0x0000000000000000000000000000000000000000000000000000000000000007"))
        (fst (submitRequest disagreeing))
  /\ Js.BigInt "0x0000000000000000000000000000000000000000000000000000000000000007"
     = Some 7
  /\ snd (submitRequest disagreeing) = Returned 5
  /\ (forall e, snd (submitRequest disagreeing) <> Thrown e).
Proof.
  split; [reflexivity|].
  split; [vm_compute; right; left; reflexivity|].
  split; [vm_compute; reflexivity|].
  split; [vm_compute; reflexivity|].
  intros e H. vm_compute in H. discriminate H.
Qed.

End SubmissionClaims.

(* ===================================================================== *)
(** ** Properties of the wait loop *)
(* ===================================================================== *)

Module WatcherFacts.
Import Watcher.

(** What the turn [n] hands to a [return], if it reaches one. *)
Definition evidenceAt (env : Env) (n : nat) : option Evidence :=
  match tickBody env (ticks env n) with
  | Returned (Some e) => Some e
  | _ => None
  end.

(** The first of the turns [from], [from + 1], ... (at most [count] of
    them) that reaches a [return]. *)
Fixpoint firstEvidence (env : Env) (from count : nat) : option (nat * Evidence) :=
  match count with
  | O => None
  | S c =>
      match evidenceAt env from with
      | Some e => Some (from, e)
      | None => firstEvidence env (S from) c
      end
  end.

Definition verdict (env : Env) (from count : nat) : Watch :=
  match firstEvidence env from count with
  | Some (k, e) => Fulfilled (S k) e
  | None => TimedOut (from + count)
  end.

Lemma caught_tick (env : Env) (n : nat) :
  tryCatch (tickBody env (ticks env n)) (fun _ => Returned None)
  = Returned (evidenceAt env n).
Proof.
  unfold evidenceAt, tryCatch.
  destruct (tickBody env (ticks env n)) as [[e|]|x]; reflexivity.
Qed.

(** The loop, entered for its turn [turn] with [remaining] turns left
    before the deadline, ends the way [verdict] says, whatever fuel above
    [remaining] it is given. *)
Lemma waitLoop_verdict (env : Env) (remaining : nat) :
  forall (turn fuel : nat),
    (turn + remaining = 60)%nat ->
    (remaining <= fuel)%nat ->
    waitLoop fuel env (waitInterval * Z.of_nat turn) turn
    = Done (Returned (verdict env turn remaining)).
Proof.
  unfold waitInterval.
  induction remaining as [|r IH]; intros turn fuel Hsum Hfuel.
  - assert (E : (5000 * Z.of_nat turn <? timeout) = false)
      by (apply Z.ltb_ge; unfold timeout; lia).
    destruct fuel; cbn [waitLoop]; rewrite E; unfold verdict;
      cbn [firstEvidence]; now rewrite Nat.add_0_r.
  - assert (E : (5000 * Z.of_nat turn <? timeout) = true)
      by (apply Z.ltb_lt; unfold timeout; lia).
    destruct fuel as [|f]; [lia|].
    cbn [waitLoop]. rewrite E, caught_tick.
    unfold verdict. cbn [firstEvidence].
    destruct (evidenceAt env turn) as [e|]; [reflexivity|].
    replace (5000 * Z.of_nat turn + waitInterval) with (5000 * Z.of_nat (S turn))
      by (unfold waitInterval; lia).
    rewrite (IH (S turn) f) by lia.
    unfold verdict. now rewrite Nat.add_succ_r.
Qed.

Lemma waitForFulfillment_verdict (env : Env) (fuel : nat) :
  (60 <= fuel)%nat ->
  waitForFulfillment fuel env = Done (Returned (verdict env 0 60)).
Proof.
  intros H. unfold waitForFulfillment.
  change 0 with (waitInterval * Z.of_nat 0).
  now apply waitLoop_verdict.
Qed.

Lemma firstEvidence_none (env : Env) (count : nat) :
  forall from,
    (forall n, (from <= n < from + count)%nat -> evidenceAt env n = None) ->
    firstEvidence env from count = None.
Proof.
  induction count as [|c IH]; intros from H; simpl; [reflexivity|].
  rewrite (H from) by lia. apply IH. intros n Hn. apply H. lia.
Qed.


Lemma firstEvidence_bound (env : Env) (count : nat) :
  forall from k e,
    firstEvidence env from count = Some (k, e) -> (from <= k < from + count)%nat.
Proof.
  induction count as [|c IH]; intros from k e; simpl; [discriminate|].
  destruct (evidenceAt env from).
  - intros [= <- _]. lia.
  - intros H. apply IH in H. lia.
Qed.



Lemma evidenceAt_none (env : Env) (n : nat) :
  (forall e, tickBody env (ticks env n) <> Returned (Some e)) ->
  evidenceAt env n = None.
Proof.
  intros H. unfold evidenceAt.
  destruct (tickBody env (ticks env n)) as [[e|]|x]; try reflexivity.
  now destruct (H e).
Qed.

(** *** One turn whose reads are all answered *)




Definition answered (stored len word gas block : string) (logs : list Log) : Tick :=
  {| storedRequestId := Returned stored;
     randomWordsLength := Returned len;
     firstRandomWord := Returned word;
     gasAvailable := Returned gas;
     currentBlock := Returned block;
     fulfillmentLogs := Returned logs |}.


End WatcherFacts.

Module WatcherClaims.
Import Watcher WatcherFacts.




(** *** Concrete nodes *)

Definition word (n : Z) : string := "0x" ++ Js.padStart 64 "0" (Js.toString16 n).

Definition quiet (t : Tick) : Env :=
  {| requestId := 5; decodeFulfillment := fun _ => None; ticks := fun _ => t |}.


(** Every read is rejected. *)
Definition unreachableTick : Tick :=
  {| storedRequestId := Thrown (CallError "timeout" None);
     randomWordsLength := Thrown (CallError "timeout" None);
     firstRandomWord := Thrown (CallError "timeout" None);
     gasAvailable := Thrown (CallError "timeout" None);
     currentBlock := Thrown (CallError "timeout" None);
     fulfillmentLogs := Thrown (CallError "timeout" None) |}.

(** Nothing is stored yet. *)
Definition pendingTick : Tick :=
  answered (word 5) zeroWord zeroWord zeroWord "0x10" [].

(** Scenario C: the third turn finds one word. *)
Definition scenarioC : Env :=
  {| requestId := 5;
     decodeFulfillment := fun _ => None;
     ticks := fun n => if (n <? 2)%nat then pendingTick
                       else answered (word 5) (word 1) (word 77) zeroWord "0x10" [] |}.

(** The node drops every read of the odd turns. *)
Definition flaky : Env :=
  {| requestId := 5;
     decodeFulfillment := fun _ => None;
     ticks := fun n => if Nat.even n then pendingTick else unreachableTick |}.

Example scenarioC_run :
  waitForFulfillment 60 scenarioC = Done (Returned (Fulfilled 3 (RandomWord 77))).
Proof. vm_compute. reflexivity. Qed.

(** A payload that decodes to a payment and one word. *)
Definition payload77 : string :=
  "0x00000000000000000000000000000000000000000000000000000000000003e8".

(** Scenario E: the word is never stored; from the third turn on
    [s_gasAvailable] reads 100000 and the node returns two fulfillment
    logs, the second of which is the one of request 5. *)
Definition recentFulfillments : list Log :=
  [ {| address := "0x5FbDB2315678afecb367f032d93F642f64180aa3";
       topics := [ "0x7dffc5ae5ee4e2e4df1651cf6ad329a73cebdb728f38e8f424e4c59c26a345e5";
                   word 4 ];
       data := "0x" |};
    {| address := "0x5FbDB2315678afecb367f032d93F642f64180aa3";
       topics := [ "0x7dffc5ae5ee4e2e4df1651cf6ad329a73cebdb728f38e8f424e4c59c26a345e5";
                   word 5 ];
       data := payload77 |} ].

Definition scenarioE : Env :=
  {| requestId := 5;
     decodeFulfillment :=
       fun d => if (d =? payload77)%string then Some (1000, [77]) else None;
     ticks := fun n =>
       if (n <? 2)%nat then pendingTick
       else answered (word 5) zeroWord zeroWord (word 100000) "0x10"
              recentFulfillments |}.

Example scenarioE_run :
  waitForFulfillment 60 scenarioE
  = Done (Returned (Fulfilled 3 (FulfilledEvent (Some (1000, [77]))))).
Proof. vm_compute. reflexivity. Qed.

(** The test on the first element compares texts: a node that answers
    the unpadded [0x0] for it ends the watch at once, with the word 0. *)
Example unpadded_zero_ends_watch :
  waitForFulfillment 60
    (quiet (answered (word 5) (word 1) "0x0" zeroWord "0x10" []))
  = Done (Returned (Fulfilled 1 (RandomWord 0))).
Proof. vm_compute. reflexivity. Qed.




(** C5: when no turn before the deadline reaches a [return] (it falls
    through, or one of its reads is rejected), the loop makes its 60 turns
    and the wait ends normally with the time-out report; nothing is
    thrown.  A turn in which a read is rejected is caught on the spot: the
    loop goes on to the next turn. *)
Theorem deadline_reports_timeout (env : Env) (fuel : nat) :
  (60 <= fuel)%nat ->
  (forall n, (n < 60)%nat ->
             forall e, tickBody env (ticks env n) <> Returned (Some e)) ->
  waitForFulfillment fuel env = Done (Returned (TimedOut 60))
  /\ (forall (n f : nat) (elapsed : Z) (x : Exn),
        tickBody env (ticks env n) = Thrown x ->
        elapsed < timeout ->
        waitLoop (S f) env elapsed n = waitLoop f env (elapsed + waitInterval) (S n)).
Proof.
  intros Hfuel Hnone. split.
  - rewrite (waitForFulfillment_verdict env fuel Hfuel). unfold verdict.
    rewrite firstEvidence_none; [reflexivity|].
    intros n Hn. apply evidenceAt_none. apply Hnone. lia.
  - intros n f elapsed x Hx Hlt. cbn [waitLoop].
    apply Z.ltb_lt in Hlt. rewrite Hlt, Hx. reflexivity.
Qed.

Lemma flaky_never_returns (n : nat) (e : Evidence) :
  tickBody flaky (ticks flaky n) <> Returned (Some e).
Proof.
  cbn [ticks flaky]. destruct (Nat.even n); vm_compute; discriminate.
Qed.

Lemma deadline_reports_timeout_witness :
  (60 <= 60)%nat
  /\ tickBody flaky (ticks flaky 1) = Thrown (CallError "timeout" None)
  /\ waitForFulfillment 60 flaky = Done (Returned (TimedOut 60))
  /\ waitLoop 59 flaky 5000 1 = waitLoop 58 flaky (5000 + waitInterval) 2.
Proof.
  split; [lia|]. split; [vm_compute; reflexivity|].
  destruct (deadline_reports_timeout flaky 60) as [Hend Hskip].
  - lia.
  - intros n _ e. apply flaky_never_returns.
  - split; [exact Hend|].
    apply (Hskip 1%nat 58%nat 5000 (CallError "timeout" None)).
    + vm_compute. reflexivity.
    + reflexivity.
Defined.

(** C9: for every sequence of answers, rejected reads included, the
    loop ends after at least one and at most 60 turns, by a [return] or
    by its own test on the elapsed time: fuel beyond 60 is never used. *)
Theorem wait_loop_terminates (env : Env) (fuel : nat) :
  (60 <= fuel)%nat ->
  exists w,
    waitForFulfillment fuel env = Done (Returned w)
    /\ (1 <= turnsOf w <= 60)%nat
    /\ waitForFulfillment 60 env = Done (Returned w).
Proof.
  intros Hfuel. exists (verdict env 0 60).
  split; [now apply waitForFulfillment_verdict|].
  split; [|apply waitForFulfillment_verdict; lia].
  unfold verdict.
  destruct (firstEvidence env 0 60) as [[k e]|] eqn:E; cbn [turnsOf]; [|lia].
  apply firstEvidence_bound in E. lia.
Qed.

Lemma wait_loop_terminates_witness :
  (60 <= 1000)%nat
  /\ exists w,
       waitForFulfillment 1000 (quiet unreachableTick) = Done (Returned w)
       /\ (1 <= turnsOf w <= 60)%nat
       /\ waitForFulfillment 60 (quiet unreachableTick) = Done (Returned w).
Proof.
  split; [lia|]. apply (wait_loop_terminates (quiet unreachableTick) 1000). lia.
Defined.

End WatcherClaims.

(* ===================================================================== *)
(** ** More on the subscription discovery *)
(* ===================================================================== *)

Module DiscoveryFacts.
Import Resolver ResolverFacts ResolverRuns.

(** *** The search for the highest identifier *)

(** What the loop keeps true when the subscriptions that exist are exactly
    [1 .. m]. *)
Lemma maxExistingLoop_contiguous (c : Coordinator) (m : Z) (fuel : nat) :
  (forall id, 1 <= id <= 1000 ->
              (Resolver.isSome (getSubscription c id) = true <-> id <= m)) ->
  forall left right maxExistingId,
    1 <= left -> right <= 1000 ->
    maxExistingId = left - 1 -> left - 1 <= m <= right ->
    (Z.to_nat (right - left + 1) <= fuel)%nat ->
    maxExistingLoop fuel c left right maxExistingId = m.
Proof.
  intros Hex. induction fuel as [|f IH];
    intros l r mx Hl Hr Hmx Hm Hfuel; cbn [maxExistingLoop].
  - lia.
  - destruct (Z.leb_spec l r) as [Hle|Hgt]; [|lia].
    pose proof (mid_between l r Hle) as Hmid.
    specialize (Hex ((l + r) / 2) ltac:(lia)).
    destruct (getSubscription c ((l + r) / 2)) as [s|]; cbn [isSome] in Hex.
    + assert ((l + r) / 2 <= m) by now apply Hex.
      apply IH; lia.
    + assert (~ (l + r) / 2 <= m) by (intros H; apply Hex in H; discriminate).
      apply IH; lia.
Qed.

Lemma maxExistingLoop_sound (c : Coordinator) (fuel : nat) :
  forall left right maxExistingId,
    1 <= left -> right <= 1000 ->
    (maxExistingId = 0
     \/ (1 <= maxExistingId <= 1000
         /\ Resolver.isSome (getSubscription c maxExistingId) = true)) ->
    let m := maxExistingLoop fuel c left right maxExistingId in
    m = 0 \/ (1 <= m <= 1000 /\ Resolver.isSome (getSubscription c m) = true).
Proof.
  induction fuel as [|f IH]; intros l r mx Hl Hr Hmx; cbn [maxExistingLoop];
    [exact Hmx|].
  destruct (Z.leb_spec l r) as [Hle|Hgt]; [|exact Hmx].
  pose proof (mid_between l r Hle) as Hmid.
  destruct (getSubscription c ((l + r) / 2)) as [s|] eqn:Eg.
  - apply IH; [lia|lia|]. right.
    destruct (Z.max_spec mx ((l + r) / 2)) as [[Hlt ->]|[Hge ->]].
    + split; [lia|]. now rewrite Eg.
    + destruct Hmx as [->|Hmx]; [lia|exact Hmx].
  - apply IH; [lia|lia|exact Hmx].
Qed.

Lemma maxExistingLoop_upper (c : Coordinator) (fuel : nat) :
  forall left right maxExistingId,
    maxExistingLoop fuel c left right maxExistingId <= Z.max maxExistingId right.
Proof.
  induction fuel as [|f IH]; intros l r mx; cbn [maxExistingLoop]; [lia|].
  destruct (Z.leb_spec l r) as [Hle|Hgt]; [|lia].
  pose proof (mid_between l r Hle) as Hmid.
  destruct (getSubscription c ((l + r) / 2)).
  - specialize (IH ((l + r) / 2 + 1) r (Z.max mx ((l + r) / 2))). lia.
  - specialize (IH l ((l + r) / 2 - 1) mx). lia.
Qed.

(** X1: When the subscriptions that exist below 1001 are exactly [1 .. m],
    the search returns [m] (0 when there is none). *)
Theorem maxExisting_contiguous (c : Coordinator) (m : Z) :
  0 <= m <= 1000 ->
  (forall id, 1 <= id <= 1000 ->
              (Resolver.isSome (getSubscription c id) = true <-> id <= m)) ->
  maxExisting c = m.
Proof.
  intros Hm Hex. unfold maxExisting.
  apply (maxExistingLoop_contiguous c m 1000 Hex); lia.
Qed.

Definition firstSeven : Coordinator :=
  opaque (fun id => if (1 <=? id) && (id <=? 7)
                    then Some (subscriptionOf stranger 0) else None).

Lemma maxExisting_contiguous_witness :
  0 <= 7 <= 1000 /\ maxExisting firstSeven = 7.
Proof.
  split; [lia|]. apply (maxExisting_contiguous firstSeven 7); [lia|].
  intros id Hid. cbn [firstSeven opaque getSubscription].
  destruct (Z.leb_spec 1 id); [|lia].
  destruct (Z.leb_spec id 7); cbn [andb isSome]; split; intros; try lia;
    try reflexivity; discriminate.
Defined.

(** X2: Whatever the coordinator holds, the search returns 0 or an identifier
    between 1 and 1000 that it has read successfully. *)
Theorem maxExisting_sound (c : Coordinator) :
  maxExisting c = 0
  \/ (1 <= maxExisting c <= 1000
      /\ exists sub, getSubscription c (maxExisting c) = Some sub).
Proof.
  unfold maxExisting.
  destruct (maxExistingLoop_sound c 1000 1 1000 0 (Z.le_refl 1) (Z.le_refl 1000)
              (or_introl eq_refl)) as [H|[Hb Hs]]; [left; exact H|].
  right. split; [exact Hb|].
  destruct (getSubscription c (maxExistingLoop 1000 c 1 1000 0)) as [sub|];
    [now exists sub|discriminate Hs].
Qed.

Lemma maxExistingLoop_unfold (c : Coordinator) (f : nat) (l r mx : Z) :
  maxExistingLoop (S f) c l r mx =
    if l <=? r then
      match getSubscription c ((l + r) / 2) with
      | Some _ => maxExistingLoop f c ((l + r) / 2 + 1) r (Z.max mx ((l + r) / 2))
      | None => maxExistingLoop f c l ((l + r) / 2 - 1) mx
      end
    else mx.
Proof. reflexivity. Qed.

(** X3: The search starts at 500: when subscription 500 cannot be read, the
    result is below 500, so no subscription above it is ever reached. *)
Theorem maxExisting_blind_above_gap (c : Coordinator) :
  getSubscription c 500 = None -> maxExisting c < 500.
Proof.
  intros H. unfold maxExisting. rewrite maxExistingLoop_unfold.
  replace ((1 + 1000) / 2) with 500 by reflexivity.
  rewrite H.
  replace (1 <=? 1000) with true by reflexivity.
  pose proof (maxExistingLoop_upper c 999 1 (500 - 1) 0) as HH. lia.
Qed.

Definition only700 : Coordinator :=
  opaque (fun id => if id =? 700 then Some (subscriptionOf signer 0) else None).

Lemma maxExisting_blind_above_gap_witness :
  getSubscription only700 500 = None
  /\ getSubscription only700 700 = Some (subscriptionOf signer 0)
  /\ maxExisting only700 < 500.
Proof.
  split; [reflexivity|]. split; [reflexivity|].
  apply (maxExisting_blind_above_gap only700). reflexivity.
Defined.

End DiscoveryFacts.

Module DiscoveryOutcomes.
Import Resolver ResolverFacts ResolverRuns.

Lemma truthy_nonzero (subId : option Z) :
  Js.truthyBig subId = true -> valueOf subId <> 0.
Proof.
  destruct subId as [v|]; cbn [Js.truthyBig valueOf]; [|discriminate].
  destruct (Z.eqb_spec v 0); [discriminate|auto].
Qed.

(** X4: The discovery never hands 0 to the later steps: a zero identifier
    counts as "not found" at every test of [subId]. *)
Theorem resolved_id_nonzero (env : Env) (id : Z) :
  resolveSubscription env = Returned id -> id <> 0.
Proof.
  unfold resolveSubscription.
  destruct (createSubscription env) as [[receipt|]|e]; cbn [obind];
    try discriminate.
  set (s0 := newlyCreated env _).
  assert (Hlast : forall s, directApproach env s = Returned id -> id <> 0).
  { intros s. unfold directApproach.
    destruct (match getSubscription (after env) 1 with
              | Some sub => _
              | None => _
              end) as [s1 b].
    set (s2 := if negb (Js.truthyBig s1) then _ else s1).
    destruct (Js.truthyBig s2) eqn:Et; cbn [negb].
    - intros [= <-]. now apply truthy_nonzero.
    - destruct b; cbn [negb]; [discriminate|]. intros [= <-]. lia. }
  destruct (Js.truthyBig s0) eqn:E0; cbn [negb obind].
  - rewrite E0. cbn [negb]. intros [= <-]. now apply truthy_nonzero.
  - destruct (fallbackMethods env receipt s0) as [s1|e]; cbn [obind];
      [|discriminate].
    destruct (Js.truthyBig s1) eqn:E1; cbn [negb].
    + intros [= <-]. now apply truthy_nonzero.
    + apply Hlast.
Qed.

Lemma resolved_id_nonzero_witness :
  resolveSubscription scenarioA = Returned 3 /\ 3 <> 0.
Proof.
  split; [vm_compute; reflexivity|].
  apply (resolved_id_nonzero scenarioA 3). vm_compute. reflexivity.
Defined.

(** *** The snapshot comparison *)

Lemma includes_big (old : list Z) (id : Z) :
  includes (map Big old) (Big id) = true <-> In id old.
Proof.
  unfold includes. rewrite existsb_exists. split.
  - intros [x [Hin Hx]]. apply in_map_iff in Hin as [y [<- Hy]].
    cbn [sameValueZero] in Hx. apply Z.eqb_eq in Hx. now subst.
  - intros Hin. exists (Big id). split; [now apply in_map|].
    cbn [sameValueZero]. apply Z.eqb_refl.
Qed.

Lemma includes_num_big (l : list Z) (id : Z) :
  includes (map Num l) (Big id) = false.
Proof.
  unfold includes. induction l as [|x l IH]; [reflexivity|].
  cbn [map existsb sameValueZero orb]. exact IH.
Qed.

Lemma filter_all {A} (f : A -> bool) (l : list A) :
  (forall x, In x l -> f x = true) -> filter f l = l.
Proof.
  induction l as [|x l IH]; intros H; [reflexivity|].
  cbn [filter]. rewrite (H x) by now left.
  f_equal. apply IH. intros y Hy. apply H. now right.
Qed.

(** A list that holds nothing but [n] yields [n] as soon as [n] is
    accepted. *)
Lemma firstMatch_single (c : Coordinator) (accept : Subscription -> bool)
  (n : Z) (sub : Subscription) (ids : list Z) :
  ids <> [] -> (forall id, In id ids -> id = n) ->
  getSubscription c n = Some sub -> accept sub = true ->
  firstMatch c accept ids = Some n.
Proof.
  intros Hne Hall Hg Ha. destruct ids as [|i ids]; [congruence|].
  cbn [firstMatch]. rewrite (Hall i) by now left.
  now rewrite Hg, Ha.
Qed.

Lemma resolved_by_snapshot (env : Env) (receipt : Receipt) (n : Z) :
  createSubscription env = Returned (Some receipt) ->
  newlyCreated env (existingSubscriptionIds (before env)) = Some n ->
  n <> 0 ->
  resolveSubscription env = Returned n.
Proof.
  intros Hcreate E Hnz. unfold resolveSubscription.
  rewrite Hcreate. cbn [obind]. rewrite E.
  assert (T : Js.truthyBig (Some n) = true).
  { cbn [Js.truthyBig]. destruct (Z.eqb_spec n 0); [contradiction|reflexivity]. }
  rewrite T. cbn [negb obind]. rewrite T. reflexivity.
Qed.

(** X5: Scenario A in general: the coordinator enumerates its subscriptions
    before and after the creation, the only identifier that is new is [n],
    and [n] is not 0 and belongs to the signer.  Then the discovery returns
    [n], whatever the receipt and the other subscriptions are. *)
Theorem new_id_selected
  (env : Env) (old new : list Z) (receipt : Receipt) (n : Z) (sub : Subscription) :
  getActiveSubscriptionIds (before env) = Some old ->
  createSubscription env = Returned (Some receipt) ->
  getActiveSubscriptionIds (after env) = Some new ->
  In n new -> ~ In n old -> n <> 0 ->
  (forall id, In id new -> id <> n -> In id old) ->
  getSubscription (after env) n = Some sub ->
  ownedBy (signerAddress env) sub = true ->
  resolveSubscription env = Returned n.
Proof.
  intros Hold Hcreate Hnew Hin Hnot Hnz Hothers Hg Ho.
  apply (resolved_by_snapshot env receipt n Hcreate); [|exact Hnz].
  assert (E : newlyCreated env (existingSubscriptionIds (before env)) = Some n).
  { unfold newlyCreated, existingSubscriptionIds. rewrite Hnew, Hold.
    apply (firstMatch_single _ _ n sub); auto.
    - intros Hnil.
      assert (Hf : In n (filter (fun id => negb (includes (map Big old) (Big id))) new)).
      { apply filter_In. split; [exact Hin|].
        destruct (includes (map Big old) (Big n)) eqn:Ei; [|reflexivity].
        apply includes_big in Ei. contradiction. }
      rewrite Hnil in Hf. contradiction.
    - intros id Hid. apply filter_In in Hid as [Hid Hf].
      destruct (Z.eq_dec id n) as [|Hne]; [assumption|].
      apply (Hothers id Hid) in Hne. apply includes_big in Hne.
      rewrite Hne in Hf. discriminate. }
  exact E.
Qed.

Lemma new_id_selected_witness :
  getActiveSubscriptionIds (before scenarioA) = Some [1; 2]
  /\ getActiveSubscriptionIds (after scenarioA) = Some [1; 2; 3]
  /\ resolveSubscription scenarioA = Returned 3.
Proof.
  split; [reflexivity|]. split; [reflexivity|].
  apply (new_id_selected scenarioA [1; 2] [1; 2; 3]
           {| blockNumber := 12; logs := [hashedCreationLog] |} 3
           (subscriptionOf signer 0)); try reflexivity.
  - right; right; left; reflexivity.
  - intros [H|[H|[]]]; discriminate H.
  - discriminate.
  - intros id [<-|[<-|[<-|[]]]] Hne; [now left|right; now left|congruence].
Defined.

(** X6: When the enumeration fails before the creation and works after it,
    the snapshot holds [number]s and the enumeration [bigint]s, so the
    comparison removes nothing: every active identifier counts as new, and
    the first one owned by the signer is selected, old or not. *)
Theorem failed_snapshot_filters_nothing
  (env : Env) (ids : list Z) (receipt : Receipt) :
  getActiveSubscriptionIds (before env) = None ->
  getActiveSubscriptionIds (after env) = Some ids ->
  createSubscription env = Returned (Some receipt) ->
  newlyCreated env (existingSubscriptionIds (before env))
  = firstMatch (after env) (ownedBy (signerAddress env)) ids
  /\ (forall n, firstMatch (after env) (ownedBy (signerAddress env)) ids = Some n ->
                n <> 0 -> resolveSubscription env = Returned n).
Proof.
  intros Hold Hnew Hcreate.
  assert (E : newlyCreated env (existingSubscriptionIds (before env))
              = firstMatch (after env) (ownedBy (signerAddress env)) ids).
  { unfold newlyCreated, existingSubscriptionIds. rewrite Hnew, Hold.
    f_equal. apply filter_all. intros id _. now rewrite includes_num_big. }
  split; [exact E|].
  intros n Hn Hnz.
  apply (resolved_by_snapshot env receipt n Hcreate); [|exact Hnz].
  now rewrite E.
Qed.

(** Subscription 2 is an old subscription of the signer; the creation
    added 3; the enumeration failed once, before the creation. *)
Definition snapshotFailed : Env :=
  let subs := fun id => if id =? 1 then Some (subscriptionOf stranger 4)
                        else if id =? 2 then Some (subscriptionOf signer 9)
                        else if id =? 3 then Some (subscriptionOf signer 0)
                        else None in
  {| signerAddress := signer;
     coordinatorAddress := coordinatorAt;
     before := opaque (fun id => if id =? 3 then None else subs id);
     createSubscription :=
       Returned (Some {| blockNumber := 12; logs := [hashedCreationLog] |});
     after := enumerating [1; 2; 3] subs;
     decodeAddress := decodeAddressWord |}.

Lemma failed_snapshot_filters_nothing_witness :
  existingSubscriptionIds (before snapshotFailed) = [Num 1; Num 2]
  /\ newlyCreated snapshotFailed (existingSubscriptionIds (before snapshotFailed))
     = Some 2
  /\ resolveSubscription snapshotFailed = Returned 2.
Proof.
  split; [vm_compute; reflexivity|].
  destruct (failed_snapshot_filters_nothing snapshotFailed [1; 2; 3]
              {| blockNumber := 12; logs := [hashedCreationLog] |}
              eq_refl eq_refl eq_refl) as [E H].
  split.
  - rewrite E. vm_compute. reflexivity.
  - apply (H 2); [vm_compute; reflexivity|discriminate].
Defined.

(** *** The scan of 1..100 *)

Lemma range_cons (lo hi : Z) :
  lo <= hi -> range lo hi = lo :: range (lo + 1) hi.
Proof.
  intros H. unfold range.
  replace (Z.to_nat (hi - lo + 1)) with (S (Z.to_nat (hi - (lo + 1) + 1))) by lia.
  cbn [seq map]. f_equal; [lia|].
  rewrite <- seq_shift, map_map. apply map_ext. intros k. lia.
Qed.

Lemma firstMatch_range (c : Coordinator) (accept : Subscription -> bool)
  (hi n : Z) (sub : Subscription) (d : nat) :
  forall lo,
    n = lo + Z.of_nat d -> n <= hi ->
    (forall id s, lo <= id < n -> getSubscription c id = Some s -> accept s = false) ->
    getSubscription c n = Some sub -> accept sub = true ->
    firstMatch c accept (range lo hi) = Some n.
Proof.
  induction d as [|d IH]; intros lo Hn Hhi Hbefore Hg Ha.
  - assert (lo = n) by lia. subst lo.
    rewrite range_cons by lia. cbn [firstMatch]. now rewrite Hg, Ha.
  - rewrite range_cons by lia. cbn [firstMatch].
    assert (Hrest : firstMatch c accept (range (lo + 1) hi) = Some n).
    { apply IH; auto; [lia|]. intros id s Hid. apply Hbefore. lia. }
    destruct (getSubscription c lo) as [s|] eqn:El; [|exact Hrest].
    rewrite (Hbefore lo s) by (auto; lia). exact Hrest.
Qed.

(** X7: Scenario B as the code does resolve it: the coordinator cannot
    enumerate, the receipt holds one log with two topics, and [n] is the
    least identifier in 1..100 that belongs to the signer with a request
    counter of zero.  Then the scan of 1..100 finds [n] and the discovery
    returns it; subscriptions of the signer below [n] that have served
    requests are passed over. *)
Theorem fresh_id_in_window
  (env : Env) (receipt : Receipt) (log : Log) (n : Z) (sub : Subscription) :
  createSubscription env = Returned (Some receipt) ->
  getActiveSubscriptionIds (after env) = None ->
  logs receipt = [log] -> List.length (topics log) = 2%nat ->
  1 <= n <= 100 ->
  getSubscription (after env) n = Some sub ->
  ownedAndFresh (signerAddress env) sub = true ->
  (forall id s, 1 <= id < n -> getSubscription (after env) id = Some s ->
                ownedAndFresh (signerAddress env) s = false) ->
  resolveSubscription env = Returned n.
Proof.
  intros Hcreate Hnone Hlogs Htopics Hn Hg Hfresh Hbelow.
  assert (Hscan : firstMatch (after env) (ownedAndFresh (signerAddress env))
                    (range 1 100) = Some n).
  { apply (firstMatch_range _ _ 100 n sub (Z.to_nat (n - 1))); auto; lia. }
  assert (T : Js.truthyBig (Some n) = true).
  { cbn [Js.truthyBig]. destruct (Z.eqb_spec n 0); [lia|reflexivity]. }
  unfold resolveSubscription. rewrite Hcreate. cbn [obind].
  unfold newlyCreated. rewrite Hnone. cbn [Js.truthyBig negb].
  unfold fallbackMethods. rewrite Hlogs, Htopics. cbn [Nat.eqb].
  unfold directExtraction. rewrite Hnone. cbn [Js.truthyBig negb].
  rewrite Hscan. cbn [assign]. rewrite T. cbn [negb obind].
  rewrite T. reflexivity.
Qed.

(** Subscriptions 1-5 belong to others, 6 is an old one of the signer,
    7 is the one just created. *)
Definition sequentialIds : Env :=
  let subs := fun id => if (1 <=? id) && (id <=? 5)
                        then Some (subscriptionOf stranger 2)
                        else if id =? 6 then Some (subscriptionOf signer 3)
                        else if id =? 7 then Some (subscriptionOf signer 0)
                        else None in
  {| signerAddress := signer;
     coordinatorAddress := coordinatorAt;
     before := opaque (fun id => if id =? 7 then None else subs id);
     createSubscription :=
       Returned (Some {| blockNumber := 12; logs := [hashedCreationLog] |});
     after := opaque subs;
     decodeAddress := decodeAddressWord |}.

Lemma fresh_id_in_window_witness :
  getSubscription (after sequentialIds) 6 = Some (subscriptionOf signer 3)
  /\ resolveSubscription sequentialIds = Returned 7.
Proof.
  split; [reflexivity|].
  apply (fresh_id_in_window sequentialIds
           {| blockNumber := 12; logs := [hashedCreationLog] |}
           hashedCreationLog 7 (subscriptionOf signer 0));
    try reflexivity; [lia|].
  intros id s Hid.
  assert (C : id = 1 \/ id = 2 \/ id = 3 \/ id = 4 \/ id = 5 \/ id = 6) by lia.
  destruct C as [->|[->|[->|[->|[->| ->]]]]]; intros [= <-]; reflexivity.
Defined.

(** *** How the discovery fails *)

Definition noUsableSubscription : Exn :=
  Error "Could not find a usable subscription and subscription 1 belongs to someone else".

Lemma topicLoop_thrown (env : Env) (logs : list Log) :
  forall subId e,
    topicLoop env logs subId = Thrown e ->
    exists log,
      In log logs
      /\ ((nth_error (topics log) 0 = None /\ e = TypeError)
          \/ (exists topic0,
                 nth_error (topics log) 0 = Some topic0
                 /\ Js.toLowerCase topic0 = topicV2
                 /\ Js.BigIntOf (nth_error (topics log) 1) = Thrown e)).
Proof.
  induction logs as [|log logs IH]; intros subId e; cbn [topicLoop];
    [discriminate|].
  assert (Hrest : forall s, topicLoop env logs s = Thrown e ->
                  exists l, In l (log :: logs)
                    /\ ((nth_error (topics l) 0 = None /\ e = TypeError)
                        \/ (exists topic0,
                               nth_error (topics l) 0 = Some topic0
                               /\ Js.toLowerCase topic0 = topicV2
                               /\ Js.BigIntOf (nth_error (topics l) 1) = Thrown e))).
  { intros s H. destruct (IH s e H) as [l [Hin Hl]].
    exists l. split; [now right|exact Hl]. }
  destruct (nth_error (topics log) 0) as [topic0|] eqn:E0.
  - destruct (includesStr _ _); [|apply Hrest].
    destruct (String.eqb_spec (Js.toLowerCase topic0) (Js.toLowerCase topicV2))
      as [Ev2|_].
    + destruct (Js.BigIntOf (nth_error (topics log) 1)) as [v|x] eqn:Ev;
        cbn [obind Js.truthyBig].
      * destruct (negb (v =? 0)); [discriminate|apply Hrest].
      * intros [= <-]. exists log. split; [now left|]. right.
        exists topic0. repeat split; auto.
    + destruct (Js.toLowerCase topic0 =? Js.toLowerCase topicV2_5)%string;
        cbn [obind];
        (destruct (Js.truthyBig _); [discriminate|apply Hrest]).
  - intros [= <-]. exists log. split; [now left|]. left. now split.
Qed.

(** X8: The discovery ends the task with an exception in four cases only: the
    creation was rejected; its receipt was [null]; a log of the receipt
    has no topic, or carries the v2 creation topic with a second topic
    that is missing or is no number; or no subscription was found while
    subscription 1 exists and belongs to someone else. *)
Theorem discovery_failures (env : Env) (e : Exn) :
  resolveSubscription env = Thrown e ->
  createSubscription env = Thrown e
  \/ (createSubscription env = Returned None /\ e = Error "Transaction failed")
  \/ (exists receipt log,
         createSubscription env = Returned (Some receipt)
         /\ In log (logs receipt)
         /\ ((nth_error (topics log) 0 = None /\ e = TypeError)
             \/ (exists topic0,
                    nth_error (topics log) 0 = Some topic0
                    /\ Js.toLowerCase topic0 = topicV2
                    /\ Js.BigIntOf (nth_error (topics log) 1) = Thrown e)))
  \/ (e = noUsableSubscription
      /\ exists sub, getSubscription (after env) 1 = Some sub
                     /\ ownedBy (signerAddress env) sub = false).
Proof.
  unfold resolveSubscription.
  destruct (createSubscription env) as [[receipt|]|x]; cbn [obind].
  - set (s0 := newlyCreated env _).
    assert (Hlast : forall s, directApproach env s = Thrown e ->
              e = noUsableSubscription
              /\ exists sub, getSubscription (after env) 1 = Some sub
                             /\ ownedBy (signerAddress env) sub = false).
    { intros s. unfold directApproach.
      destruct (getSubscription (after env) 1) as [sub|].
      - destruct (ownedBy (signerAddress env) sub) eqn:Eo.
        + cbn [Js.truthyBig Z.eqb negb]. discriminate.
        + destruct (Js.truthyBig (if negb (Js.truthyBig s) then _ else s));
            cbn [negb]; [discriminate|].
          intros [= <-]. split; [reflexivity|]. now exists sub.
      - destruct (Js.truthyBig (if negb (Js.truthyBig s) then _ else s));
          cbn [negb]; discriminate. }
    destruct (Js.truthyBig s0) eqn:E0; cbn [negb obind].
    + rewrite E0. discriminate.
    + destruct (fallbackMethods env receipt s0) as [s1|x] eqn:Ef; cbn [obind].
      * destruct (Js.truthyBig s1); cbn [negb]; [discriminate|].
        intros H. right; right; right. now apply (Hlast s1).
      * intros [= <-]. right; right; left.
        unfold fallbackMethods in Ef.
        destruct (negb (Js.truthyBig _)); [|discriminate Ef].
        destruct (topicLoop_thrown _ _ _ _ Ef) as [log [Hin Hl]].
        now exists receipt, log.
  - intros [= <-]. right; left. now split.
  - intros [= <-]. now left.
Qed.

(** Nothing is found and subscription 1 belongs to someone else. *)
Definition takenFirst : Env :=
  {| signerAddress := signer;
     coordinatorAddress := coordinatorAt;
     before := opaque (fun id => if id =? 1
                                 then Some (subscriptionOf stranger 1) else None);
     createSubscription :=
       Returned (Some {| blockNumber := 12; logs := [hashedCreationLog] |});
     after := opaque (fun id => if id =? 1 then Some (subscriptionOf stranger 1)
                                else if id =? hashedId
                                     then Some (subscriptionOf signer 0)
                                     else None);
     decodeAddress := decodeAddressWord |}.

Lemma discovery_failures_witness :
  resolveSubscription takenFirst = Thrown noUsableSubscription
  /\ exists sub, getSubscription (after takenFirst) 1 = Some sub
                 /\ ownedBy (signerAddress takenFirst) sub = false.
Proof.
  assert (H : resolveSubscription takenFirst = Thrown noUsableSubscription)
    by (vm_compute; reflexivity).
  split; [exact H|].
  destruct (discovery_failures takenFirst noUsableSubscription H)
    as [C|[[C _]|[[r [l [C [Hin Hl]]]]|[_ C]]]];
    [discriminate C|discriminate C| |exact C].
  exfalso. injection C as <-.
  destruct Hin as [<-|[]].
  destruct Hl as [[_ Ht]|[t0 [H0 [Hv2 _]]]]; [discriminate Ht|].
  injection H0 as <-. vm_compute in Hv2. discriminate Hv2.
Defined.

End DiscoveryOutcomes.

(* ===================================================================== *)
(** ** More on [encodeOnChainVRFProvingKey] *)
(* ===================================================================== *)

Module KeyEncodingMore.
Import KeyEncoding HexFacts KeyEncodingFacts.

Lemma substring_past_end (s : string) (n m : nat) :
  (String.length s <= n)%nat -> substring n m s = "".
Proof.
  revert n; induction s as [|c s IH]; intros [|n] H; simpl in *;
    try reflexivity; try lia.
  - destruct m; reflexivity.
  - apply IH. lia.
Qed.

Lemma BigIntOf_string (s : string) :
  (exists v, Js.BigIntOf (Some s) = Returned v)
  \/ Js.BigIntOf (Some s) = Thrown SyntaxError.
Proof.
  unfold Js.BigIntOf. destruct (Js.BigInt s) as [v|]; [left; now exists v|now right].
Qed.

Section WithKeccak.
Variable keccak256 : string -> option string.

(** X9: The function has no length check of its own: a key too short to hold
    a [y] coordinate (at most 64 characters after the optional [0x]) makes
    it throw the [SyntaxError] of [BigInt("0x")]. *)
Theorem short_key_is_syntax_error (key : string) :
  (String.length (if Js.startsWith "0x" key then Js.sliceFrom 2 key else key)
   <= 64)%nat ->
  encodeOnChainVRFProvingKey keccak256 key = Thrown SyntaxError.
Proof.
  intros Hlen. unfold encodeOnChainVRFProvingKey.
  set (k := if Js.startsWith "0x" key then Js.sliceFrom 2 key else key) in *.
  set (p := if negb (Js.startsWith "04" k) then "04" ++ k else k).
  assert (Hp : (String.length p <= 66)%nat).
  { unfold p. destruct (negb (Js.startsWith "04" k)); simpl; lia. }
  assert (Hy : Js.slice 66 130 p = "").
  { unfold Js.slice. now apply substring_past_end. }
  rewrite Hy.
  assert (Hempty : Js.BigIntOf (Some ("0x" ++ "")) = Thrown SyntaxError)
    by reflexivity.
  destruct (BigIntOf_string ("0x" ++ Js.slice 2 66 p)) as [[v ->]| ->];
    cbn [obind]; [now rewrite Hempty|reflexivity].
Qed.

(** X10: The function does not reject a key that is too long either:
    whatever follows the two coordinates of a marked key is ignored. *)
Theorem trailing_characters_ignored
  (x y tail : string) (xv yv : Z) (with0x : bool) :
  String.length x = 64%nat -> String.length y = 64%nat ->
  Js.allDigits 16 0 x = Some xv -> Js.allDigits 16 0 y = Some yv ->
  encodeOnChainVRFProvingKey keccak256
    ((if with0x then "0x" else "") ++ "04" ++ x ++ y ++ tail)
  = encodeOnChainVRFProvingKey keccak256
      ((if with0x then "0x" else "") ++ "04" ++ x ++ y).
Proof.
  intros Hx Hy Hxv Hyv.
  rewrite (encode_marked_key keccak256 x y xv yv with0x Hx Hy Hxv Hyv).
  unfold encodeOnChainVRFProvingKey.
  assert (Hk : (if Js.startsWith "0x"
                     ((if with0x then "0x" else "") ++ "04" ++ x ++ y ++ tail)
                then Js.sliceFrom 2
                       ((if with0x then "0x" else "") ++ "04" ++ x ++ y ++ tail)
                else (if with0x then "0x" else "") ++ "04" ++ x ++ y ++ tail)
               = "04" ++ x ++ y ++ tail)
    by (destruct with0x; reflexivity).
  rewrite Hk.
  assert (Hp : (if negb (Js.startsWith "04" ("04" ++ x ++ y ++ tail))
                then "04" ++ "04" ++ x ++ y ++ tail
                else "04" ++ x ++ y ++ tail) = "04" ++ x ++ y ++ tail)
    by reflexivity.
  rewrite Hp.
  assert (Hsx : Js.slice 2 66 ("04" ++ x ++ y ++ tail) = x).
  { unfold Js.slice. simpl. now apply substring_app_left. }
  assert (Hsy : Js.slice 66 130 ("04" ++ x ++ y ++ tail) = y).
  { unfold Js.slice.
    change (substring 66 (130 - 66) ("04" ++ x ++ y ++ tail))
      with (substring 64 64 (x ++ y ++ tail)).
    rewrite (substring_app_right x (y ++ tail) 64 64 Hx).
    now apply substring_app_left. }
  rewrite Hsx, Hsy. unfold Js.BigIntOf.
  rewrite (BigInt_hex_literal x xv (length_nonempty _ _ Hx) Hxv).
  rewrite (BigInt_hex_literal y yv (length_nonempty _ _ Hy) Hyv).
  reflexivity.
Qed.

End WithKeccak.

Definition x11 : string :=
  "1111111111111111111111111111111111111111111111111111111111111111".

Lemma short_key_is_syntax_error_witness :
  (String.length x11 <= 64)%nat
  /\ encodeOnChainVRFProvingKey (fun _ => Some "0xhash") ("0x" ++ x11)
     = Thrown SyntaxError.
Proof.
  split; [vm_compute; lia|].
  apply (short_key_is_syntax_error (fun _ => Some "0xhash") ("0x" ++ x11)).
  vm_compute. lia.
Defined.

Lemma trailing_characters_ignored_witness :
  encodeOnChainVRFProvingKey (fun _ => Some "0xhash")
    ("0x" ++ "04" ++ x11 ++ y04 ++ "ffff")
  = encodeOnChainVRFProvingKey (fun _ => Some "0xhash")
      ("0x" ++ "04" ++ x11 ++ y04).
Proof.
  assert (Hx : exists v, Js.allDigits 16 0 x11 = Some v)
    by (eexists; vm_compute; reflexivity).
  assert (Hy : exists v, Js.allDigits 16 0 y04 = Some v)
    by (eexists; vm_compute; reflexivity).
  destruct Hx as [xv Hx], Hy as [yv Hy].
  exact (trailing_characters_ignored (fun _ => Some "0xhash")
           x11 y04 "ffff" xv yv true eq_refl eq_refl Hx Hy).
Defined.

(** *** The two versions of the function *)

Lemma land_one_parity (y : Z) : (Z.land y 1 =? 0) = (y mod 2 =? 0).
Proof.
  change 1 with (Z.ones 1). rewrite Z.land_ones by lia. reflexivity.
Qed.

(** X11: On a marked key with two well-formed coordinates, the version that
    hashes the compressed key and the checked version return the same
    coordinates and the same compressed key; they differ in what they
    hash. *)
Theorem versions_agree_on_marked_keys
  (keccak256 : string -> option string)
  (packedHash : string -> string -> option string)
  (x y : string) (xv yv : Z) (with0x : bool) (k1 k2 : EncodedKey) :
  String.length x = 64%nat -> String.length y = 64%nat ->
  Js.allDigits 16 0 x = Some xv -> Js.allDigits 16 0 y = Some yv ->
  encodeOnChainVRFProvingKey keccak256
    ((if with0x then "0x" else "") ++ "04" ++ x ++ y) = Returned k1 ->
  KeyEncodingChecked.encodeOnChainVRFProvingKey packedHash
    ((if with0x then "0x" else "") ++ "04" ++ x ++ y) = Returned k2 ->
  coordinates k1 = ("0x" ++ x, "0x" ++ y)
  /\ coordinates k2 = coordinates k1
  /\ compressed k2 = compressed k1
  /\ keccak256 (compressed k1) = Some (keyHash k1)
  /\ packedHash ("0x" ++ x) ("0x" ++ y) = Some (keyHash k2).
Proof.
  intros Hx Hy Hxv Hyv H1 H2.
  rewrite (encode_marked_key keccak256 x y xv yv with0x Hx Hy Hxv Hyv) in H1.
  unfold expected in H1.
  destruct (keccak256 _) as [h1|] eqn:Ek; [|discriminate H1].
  injection H1 as <-. cbn [coordinates compressed keyHash].
  unfold KeyEncodingChecked.encodeOnChainVRFProvingKey in H2.
  assert (Hk : (if Js.startsWith "0x" ((if with0x then "0x" else "") ++ "04" ++ x ++ y)
                then Js.sliceFrom 2 ((if with0x then "0x" else "") ++ "04" ++ x ++ y)
                else (if with0x then "0x" else "") ++ "04" ++ x ++ y)
               = "04" ++ x ++ y)
    by (destruct with0x; reflexivity).
  rewrite Hk in H2.
  change (if Js.startsWith "04" ("04" ++ x ++ y)
          then Js.sliceFrom 2 ("04" ++ x ++ y) else "04" ++ x ++ y)
    with (x ++ y) in H2.
  assert (Hl : (String.length (x ++ y) =? 128)%nat = true).
  { rewrite length_app, Hx, Hy. reflexivity. }
  rewrite Hl in H2. cbn [negb] in H2.
  assert (Hsx : Js.slice 0 64 (x ++ y) = x)
    by (unfold Js.slice; now apply substring_app_left).
  assert (Hsy : Js.slice 64 128 (x ++ y) = y).
  { unfold Js.slice. change (128 - 64)%nat with 64%nat.
    rewrite (substring_app_right x y 64 64 Hx). now apply substring_whole. }
  rewrite Hsx, Hsy in H2. unfold Js.BigIntOf in H2.
  rewrite (BigInt_hex_literal y yv (length_nonempty _ _ Hy) Hyv) in H2.
  cbn [obind] in H2. rewrite land_one_parity in H2.
  destruct (packedHash _ _) as [h2|] eqn:Ep; [|discriminate H2].
  injection H2 as <-. cbn [coordinates compressed keyHash].
  repeat split; auto.
  destruct (yv mod 2 =? 0); reflexivity.
Qed.

Lemma versions_agree_on_marked_keys_witness :
  exists k1 k2,
    encodeOnChainVRFProvingKey (fun _ => Some "0xaa") ("0x" ++ "04" ++ x11 ++ y04)
    = Returned k1
    /\ KeyEncodingChecked.encodeOnChainVRFProvingKey (fun _ _ => Some "0xbb")
         ("0x" ++ "04" ++ x11 ++ y04) = Returned k2
    /\ coordinates k2 = coordinates k1
    /\ compressed k2 = compressed k1.
Proof.
  assert (Hx : exists v, Js.allDigits 16 0 x11 = Some v)
    by (eexists; vm_compute; reflexivity).
  assert (Hy : exists v, Js.allDigits 16 0 y04 = Some v)
    by (eexists; vm_compute; reflexivity).
  destruct Hx as [xv Hx], Hy as [yv Hy].
  eexists. eexists.
  split; [vm_compute; reflexivity|]. split; [vm_compute; reflexivity|].
  destruct (versions_agree_on_marked_keys
              (fun _ => Some "0xaa") (fun _ _ => Some "0xbb")
              x11 y04 xv yv true _ _ eq_refl eq_refl Hx Hy eq_refl eq_refl)
    as [_ [Hc [Hk _]]].
  split; [exact Hc|exact Hk].
Defined.

End KeyEncodingMore.

(* ===================================================================== *)
(** ** More on the steps after the discovery *)
(* ===================================================================== *)

Module StepFacts.

(** *** STEP 4 *)

Lemma addConsumerStep_cases
  (env : Registration.Env) (subId : Z) (consumer : string) :
  Registration.addConsumerStep env subId consumer =
    ([Registration.AddConsumer subId consumer],
     match Registration.addConsumer env with
     | Returned _ => Returned tt
     | Thrown error =>
         if dataIs error Registration.nonExistentSubscription
         then Thrown (Error ("Subscription " ++ Js.toString subId ++ " does not exist"))
         else Thrown error
     end).
Proof.
  unfold Registration.addConsumerStep, Task.call, Task.catch.
  destruct (Registration.addConsumer env) as [[]|e]; [reflexivity|].
  destruct (dataIs e Registration.nonExistentSubscription) eqn:Ed.
  - rewrite (RegistrationClaims.dataIs_hasData e Ed). reflexivity.
  - destruct (hasData e); reflexivity.
Qed.

(** X12: STEP 4 sends [addConsumer] once and nothing else, whatever
    the coordinator answers: it never creates a subscription and never
    retries.  It returns exactly when that call returned; a rejection
    whose data is [0x1f6a65b6] is replaced by the error "Subscription
    <id> does not exist", and every other exception is thrown again as it
    came. *)
Theorem addConsumer_outcomes
  (env : Registration.Env) (subId : Z) (consumer : string) :
  Task.calls (Registration.addConsumerStep env subId consumer)
    = [Registration.AddConsumer subId consumer]
  /\ (Task.outcome (Registration.addConsumerStep env subId consumer) = Returned tt
      <-> Registration.addConsumer env = Returned tt)
  /\ (forall error,
        Registration.addConsumer env = Thrown error ->
        Task.outcome (Registration.addConsumerStep env subId consumer)
        = if dataIs error Registration.nonExistentSubscription
          then Thrown (Error ("Subscription " ++ Js.toString subId
                                ++ " does not exist"))
          else Thrown error).
Proof.
  rewrite addConsumerStep_cases. unfold Task.calls, Task.outcome.
  cbn [fst snd]. split; [reflexivity|]. split.
  - destruct (Registration.addConsumer env) as [[]|e]; [tauto|].
    destruct (dataIs e Registration.nonExistentSubscription);
      split; discriminate.
  - intros error ->. reflexivity.
Qed.

(** *** The request identifier of [request-randomness-2] *)

Import Submission.

Definition isEvent (from topic : string) (log : Log) : bool :=
  sameAddress (address log) from && firstTopicIs log topic.

Lemma find_none_iff {A} (f : A -> bool) (l : list A) :
  find f l = None <-> forall x, In x l -> f x = false.
Proof.
  split; [apply find_none|].
  induction l as [|x l IH]; intros H; [reflexivity|].
  cbn [find]. rewrite (H x) by now left.
  apply IH. intros y Hy. apply H. now right.
Qed.

Lemma find_first {A} (f : A -> bool) (pre post : list A) (x : A) :
  (forall y, In y pre -> f y = false) -> f x = true ->
  find f (pre ++ x :: post)%list = Some x.
Proof.
  induction pre as [|p pre IH]; intros Hpre Hx; cbn [app find].
  - now rewrite Hx.
  - rewrite (Hpre p) by now left. apply IH; [|exact Hx].
    intros y Hy. apply Hpre. now right.
Qed.

(** X13: A receipt in which no log is the consumer's [DiceRolled] event or the
    coordinator's "request submitted" event yields the identifier 0, and
    so does a [null] receipt: the step goes on with an identifier that no
    event carried. *)
Theorem request_id_without_event
  (consumer coordinator : string) (receiptLogs : list Log) :
  (forall log, In log receiptLogs ->
               isEvent consumer diceRolled log = false
               /\ isEvent coordinator randomWordsRequested log = false) ->
  requestIdFromReceipt consumer coordinator (Some receiptLogs) = Returned 0
  /\ requestIdFromReceipt consumer coordinator None = Returned 0.
Proof.
  intros H. split; [|reflexivity].
  unfold requestIdFromReceipt, findEvent.
  assert (E1 : find (isEvent consumer diceRolled) receiptLogs = None)
    by (apply find_none_iff; intros x Hx; now apply H).
  assert (E2 : find (isEvent coordinator randomWordsRequested) receiptLogs = None)
    by (apply find_none_iff; intros x Hx; now apply H).
  unfold isEvent in E1, E2. now rewrite E1, E2.
Qed.

Definition otherLog : Log :=
  {| address := "0x70997970C51812dc3A010C7d01b50e0d17dc79C8";
     topics := [ randomWordsRequested;
                 "0x0000000000000000000000000000000000000000000000000000000000000007" ];
     data := "0x" |}.

Lemma request_id_without_event_witness :
  requestIdFromReceipt "0xC0" "0xC1" (Some [otherLog; otherLog]) = Returned 0
  /\ requestIdFromReceipt "0xC0" "0xC1" None = Returned 0.
Proof.
  apply (request_id_without_event "0xC0" "0xC1" [otherLog; otherLog]).
  intros log [<-|[<-|[]]]; split; reflexivity.
Defined.

(** X14: The consumer's [DiceRolled] event takes precedence: the identifier is
    the second topic of the first such log, whatever the coordinator's
    events in the same receipt say. *)
Theorem dice_event_takes_precedence
  (consumer coordinator : string) (pre post : list Log) (dice : Log) :
  (forall log, In log pre -> isEvent consumer diceRolled log = false) ->
  isEvent consumer diceRolled dice = true ->
  requestIdFromReceipt consumer coordinator (Some (pre ++ dice :: post)%list)
  = Js.BigIntOf (nth_error (topics dice) 1).
Proof.
  intros Hpre Hdice. unfold requestIdFromReceipt, findEvent.
  pose proof (find_first (isEvent consumer diceRolled) pre post dice Hpre Hdice) as E.
  unfold isEvent in E. now rewrite E.
Qed.

Definition coordinatorLog : Log :=
  {| address := "0xC1";
     topics := [ randomWordsRequested;
                 "0x0000000000000000000000000000000000000000000000000000000000000007" ];
     data := "0x" |}.

Definition diceLog : Log :=
  {| address := "0xc0";
     topics := [ diceRolled;
                 "0x0000000000000000000000000000000000000000000000000000000000000009" ];
     data := "0x" |}.

Lemma dice_event_takes_precedence_witness :
  requestIdFromReceipt "0xC0" "0xC1"
    (Some ([coordinatorLog] ++ diceLog :: [coordinatorLog])%list)
  = Returned 9.
Proof.
  rewrite (dice_event_takes_precedence "0xC0" "0xC1" [coordinatorLog] [coordinatorLog] diceLog).
  - vm_compute. reflexivity.
  - intros log [<-|[]]. reflexivity.
  - reflexivity.
Defined.

(** *** The event scan of the wait loop *)

Import Watcher.

(** X15: The scan of the fulfillment logs yields nothing exactly when no log
    has the padded request identifier as its second topic; otherwise it
    yields the payload of the first such log, decoded or not. *)
Theorem matchingEvent_spec (env : Env) (requestIdHex : string) (logs : list Log) :
  (matchingEvent env requestIdHex logs = None
   <-> forall log, In log logs -> nth_error (topics log) 1 <> Some requestIdHex)
  /\ (forall pre log post,
        logs = (pre ++ log :: post)%list ->
        (forall l, In l pre -> nth_error (topics l) 1 <> Some requestIdHex) ->
        nth_error (topics log) 1 = Some requestIdHex ->
        matchingEvent env requestIdHex logs
        = Some (FulfilledEvent (decodeFulfillment env (data log)))).
Proof.
  assert (Hstep : forall log rest,
            matchingEvent env requestIdHex (log :: rest) =
              match nth_error (topics log) 1 with
              | Some t1 =>
                  if (t1 =? requestIdHex)%string
                  then Some (FulfilledEvent (decodeFulfillment env (data log)))
                  else matchingEvent env requestIdHex rest
              | None => matchingEvent env requestIdHex rest
              end).
  { intros log rest. cbn [matchingEvent].
    destruct (nth_error (topics log) 1) as [t1|] eqn:Et.
    - assert (Hlen : (1 <? List.length (topics log))%nat = true).
      { apply Nat.ltb_lt. apply nth_error_Some. congruence. }
      rewrite Hlen. reflexivity.
    - now rewrite andb_false_r. }
  split.
  - induction logs as [|log logs IH]; [split; [intros _ l []|reflexivity]|].
    rewrite Hstep. destruct (nth_error (topics log) 1) as [t1|] eqn:Et.
    + destruct (String.eqb_spec t1 requestIdHex) as [->|Hne].
      * split; [discriminate|]. intros H. exfalso.
        apply (H log); [now left|exact Et].
      * rewrite IH. split.
        -- intros H l [<-|Hin]; [congruence|now apply H].
        -- intros H l Hin. apply H. now right.
    + rewrite IH. split.
      * intros H l [<-|Hin]; [congruence|now apply H].
      * intros H l Hin. apply H. now right.
  - intros pre log post -> Hpre Hlog.
    induction pre as [|p pre IH]; cbn [app]; rewrite Hstep.
    + rewrite Hlog, String.eqb_refl. reflexivity.
    + assert (Hp : nth_error (topics p) 1 <> Some requestIdHex)
        by (apply Hpre; now left).
      assert (Hrest : matchingEvent env requestIdHex (pre ++ log :: post)%list
                      = Some (FulfilledEvent (decodeFulfillment env (data log)))).
      { apply IH. intros l Hl. apply Hpre. now right. }
      destruct (nth_error (topics p) 1) as [t1|]; [|exact Hrest].
      destruct (String.eqb_spec t1 requestIdHex) as [->|_]; [congruence|exact Hrest].
Qed.

End StepFacts.

(* ===================================================================== *)
(** ** The wait loop of [request-randomness-2] *)
(* ===================================================================== *)

Module DiceWatcherFacts.
Import DiceWatcher.

(** The turn [n] reaches its [return] exactly when its three reads are
    answered. *)
Definition settledAt (ticks : nat -> Tick) (n : nat) : option Landed :=
  match tickBody (ticks n) with
  | Returned r => r
  | Thrown _ => None
  end.

Fixpoint firstSettled (ticks : nat -> Tick) (from count : nat)
  : option (nat * Landed) :=
  match count with
  | O => None
  | S c =>
      match settledAt ticks from with
      | Some l => Some (from, l)
      | None => firstSettled ticks (S from) c
      end
  end.

Definition verdict (ticks : nat -> Tick) : Watch :=
  match firstSettled ticks 0 60 with
  | Some (k, l) => Settled (S k) l
  | None => TimedOut 60
  end.

Lemma waitLoop_from (ticks : nat -> Tick) (remaining : nat) :
  forall (turn fuel : nat),
    (turn + remaining = 60)%nat ->
    (remaining <= fuel)%nat ->
    waitLoop fuel ticks (waitInterval * Z.of_nat turn) turn
    = Watcher.Done (Returned (match firstSettled ticks turn remaining with
                              | Some (k, l) => Settled (S k) l
                              | None => TimedOut 60
                              end)).
Proof.
  unfold waitInterval.
  induction remaining as [|r IH]; intros turn fuel Hsum Hfuel.
  - assert (E : (5000 * Z.of_nat turn <? timeout) = false)
      by (apply Z.ltb_ge; unfold timeout; lia).
    replace turn with 60%nat in * by lia.
    destruct fuel; cbn [waitLoop]; rewrite E; reflexivity.
  - assert (E : (5000 * Z.of_nat turn <? timeout) = true)
      by (apply Z.ltb_lt; unfold timeout; lia).
    destruct fuel as [|f]; [lia|].
    cbn [waitLoop firstSettled]. rewrite E. unfold settledAt, tryCatch.
    destruct (tickBody (ticks turn)) as [[l|]|x].
    + reflexivity.
    + replace (5000 * Z.of_nat turn + waitInterval) with (5000 * Z.of_nat (S turn))
        by (unfold waitInterval; lia).
      apply IH; lia.
    + replace (5000 * Z.of_nat turn + waitInterval) with (5000 * Z.of_nat (S turn))
        by (unfold waitInterval; lia).
      apply IH; lia.
Qed.

Lemma waitForSettlement_verdict (ticks : nat -> Tick) (fuel : nat) :
  (60 <= fuel)%nat ->
  waitForSettlement fuel ticks = Watcher.Done (Returned (verdict ticks)).
Proof.
  intros H. unfold waitForSettlement, verdict.
  change 0 with (waitInterval * Z.of_nat 0).
  now apply waitLoop_from.
Qed.

Lemma firstSettled_first (ticks : nat -> Tick) (count : nat) :
  forall from k l,
    (from <= k < from + count)%nat ->
    (forall n, (from <= n < k)%nat -> settledAt ticks n = None) ->
    settledAt ticks k = Some l ->
    firstSettled ticks from count = Some (k, l).
Proof.
  induction count as [|c IH]; intros from k l Hk Hnone Hat; [lia|].
  cbn [firstSettled]. destruct (Nat.eq_dec from k) as [->|Hne].
  - now rewrite Hat.
  - rewrite (Hnone from) by lia. apply IH; [lia| |exact Hat].
    intros n Hn. apply Hnone. lia.
Qed.

Lemma firstSettled_sound (ticks : nat -> Tick) (count : nat) :
  forall from k l,
    firstSettled ticks from count = Some (k, l) ->
    (from <= k < from + count)%nat /\ settledAt ticks k = Some l.
Proof.
  induction count as [|c IH]; intros from k l; cbn [firstSettled];
    [discriminate|].
  destruct (settledAt ticks from) as [l0|] eqn:E.
  - intros [= <- <-]. split; [lia|exact E].
  - intros H. apply IH in H. split; [lia|apply H].
Qed.

Lemma firstSettled_none (ticks : nat -> Tick) (count : nat) :
  forall from,
    firstSettled ticks from count = None
    <-> forall n, (from <= n < from + count)%nat -> settledAt ticks n = None.
Proof.
  induction count as [|c IH]; intros from; cbn [firstSettled].
  - split; [intros _ n Hn; lia|reflexivity].
  - destruct (settledAt ticks from) as [l|] eqn:E.
    + split; [discriminate|]. intros H. rewrite (H from) in E by lia.
      discriminate E.
    + rewrite IH. split.
      * intros H n Hn. destruct (Nat.eq_dec n from) as [->|]; [exact E|].
        apply H. lia.
      * intros H n Hn. apply H. lia.
Qed.

(** One of the three reads of the turn is rejected. *)
Definition rejected (t : Tick) : Prop :=
  (exists e, house t = Thrown e)
  \/ (exists e, currentBlock t = Thrown e)
  \/ (exists e, diceLandedLogs t = Thrown e).

Lemma rejected_not_settled (ticks : nat -> Tick) (n : nat) :
  rejected (ticks n) <-> settledAt ticks n = None.
Proof.
  unfold rejected, settledAt, tickBody.
  destruct (house (ticks n)) as [h|e1]; cbn [obind].
  - destruct (currentBlock (ticks n)) as [b|e2]; cbn [obind].
    + destruct (diceLandedLogs (ticks n)) as [l|e3]; cbn [obind].
      * split; [|discriminate].
        intros [[e H]|[[e H]|[e H]]]; discriminate H.
      * split; [reflexivity|]. intros _. right; right. now exists e3.
    + split; [reflexivity|]. intros _. right; left. now exists e2.
  - split; [reflexivity|]. intros _. left. now exists e1.
Qed.

(** X16: The wait of the second task ends with success at the first turn in
    which [house()], [eth_blockNumber] and [eth_getLogs] are all answered,
    and reports the house and the logs of that turn.  A turn in which one
    of the three is rejected, be it after [house()] has answered, does not
    end the wait. *)
Theorem settles_when_all_reads_answer (ticks : nat -> Tick) (fuel k : nat) :
  (60 <= fuel)%nat ->
  (k < 60)%nat ->
  (forall j, (j < k)%nat -> rejected (ticks j)) ->
  (forall h b logs,
      house (ticks k) = Returned h ->
      currentBlock (ticks k) = Returned b ->
      diceLandedLogs (ticks k) = Returned logs ->
      waitForSettlement fuel ticks
      = Watcher.Done (Returned (Settled (S k)
                        {| houseName := h; events := map landedEvent logs |})))
  /\ (rejected (ticks k) ->
      forall l, waitForSettlement fuel ticks
                <> Watcher.Done (Returned (Settled (S k) l))).
Proof.
  intros Hfuel Hk Hbefore.
  rewrite (waitForSettlement_verdict ticks fuel Hfuel). unfold verdict.
  assert (Hsilent : forall n, (0 <= n < k)%nat -> settledAt ticks n = None).
  { intros n Hn. apply rejected_not_settled. apply Hbefore. lia. }
  split.
  - intros h b logs Hh Hb Hl.
    rewrite (firstSettled_first ticks 60 0 k
               {| houseName := h; events := map landedEvent logs |});
      [reflexivity|lia|exact Hsilent|].
    unfold settledAt, tickBody. now rewrite Hh, Hb, Hl.
  - intros Hrej l H. apply rejected_not_settled in Hrej.
    destruct (firstSettled ticks 0 60) as [[k' l']|] eqn:E; [|discriminate H].
    injection H as -> ->. apply firstSettled_sound in E as [_ E]. congruence.
Qed.

Definition notYet : Tick :=
  {| house := Thrown (CallError "Roll in progress" None);
     currentBlock := Returned "0x10";
     diceLandedLogs := Returned [] |}.

Definition landedLog : Log :=
  {| address := "0xC0";
     topics := [ "0x81fb80c7f8cba4b5a0fa21c9ee5a0dd70cc149bb2d6d5f2512e74c332de7c58d";
                 "0x0000000000000000000000000000000000000000000000000000000000000009";
                 "0x000000000000000000000000000000000000000000000000000000000000000c" ];
     data := "0x" |}.

(** The roll is settled from the second turn on, but the node drops the
    log query of that turn. *)
Definition settledLate (n : nat) : Tick :=
  match n with
  | 0%nat => notYet
  | 1%nat => {| house := Returned "Targaryen";
                currentBlock := Returned "0x11";
                diceLandedLogs := Thrown (CallError "timeout" None) |}
  | _ => {| house := Returned "Targaryen";
            currentBlock := Returned "0x12";
            diceLandedLogs := Returned [landedLog] |}
  end.

Lemma settles_when_all_reads_answer_witness :
  house (settledLate 1) = Returned "Targaryen"
  /\ waitForSettlement 60 settledLate
     = Watcher.Done (Returned (Settled 3
         {| houseName := "Targaryen";
            events := [(Some "0x0000000000000000000000000000000000000000000000000000000000000009",
                        Js.Finite 12)] |})).
Proof.
  split; [reflexivity|].
  destruct (settles_when_all_reads_answer settledLate 60 2) as [H _].
  - lia.
  - lia.
  - intros j Hj. destruct j as [|[|j]]; [| |lia].
    + left. now exists (CallError "Roll in progress" None).
    + right; right. now exists (CallError "timeout" None).
  - exact (H "Targaryen" "0x12" [landedLog] eq_refl eq_refl eq_refl).
Defined.

(** X17: Whatever the node answers, the wait of the second task ends after at
    least one and at most 60 turns, settled or timed out, and never with
    an exception. *)
Theorem dice_wait_terminates (ticks : nat -> Tick) (fuel : nat) :
  (60 <= fuel)%nat ->
  exists w,
    waitForSettlement fuel ticks = Watcher.Done (Returned w)
    /\ (1 <= turnsOf w <= 60)%nat
    /\ (w = TimedOut 60 <-> forall n, (n < 60)%nat -> rejected (ticks n)).
Proof.
  intros Hfuel. exists (verdict ticks).
  split; [now apply waitForSettlement_verdict|].
  unfold verdict.
  destruct (firstSettled ticks 0 60) as [[k l]|] eqn:E; cbn [turnsOf].
  - apply firstSettled_sound in E as [Hk E]. split; [lia|].
    split; [discriminate|].
    intros H. specialize (H k ltac:(lia)).
    apply rejected_not_settled in H. congruence.
  - split; [lia|]. split; [|reflexivity]. intros _ n Hn.
    apply rejected_not_settled.
    apply (proj1 (firstSettled_none ticks 60 0) E). lia.
Qed.

Lemma dice_wait_terminates_witness :
  (60 <= 75)%nat
  /\ exists w,
       waitForSettlement 75 (fun _ => notYet) = Watcher.Done (Returned w)
       /\ (1 <= turnsOf w <= 60)%nat
       /\ (w = TimedOut 60
           <-> forall n, (n < 60)%nat -> rejected ((fun _ => notYet) n)).
Proof.
  split; [lia|]. apply (dice_wait_terminates (fun _ => notYet) 75). lia.
Defined.

End DiceWatcherFacts.

(* ===================================================================== *)
(** ** The action as a whole *)
(* ===================================================================== *)

Module LifecycleFacts.
Import Lifecycle.

(** The key hash the request is made with. *)
Definition keyHashUsed (env : Env) : string :=
  match s_provingKeyHashes env with
  | Returned keyHash => keyHash
  | Thrown _ => fallbackKeyHash
  end.

(** The calls of a run up to the request, when every step before it
    returned. *)
Definition fullSequence (env : Env) (subId : Z) (consumer payload : string)
  : list Call :=
  let coordinatorAddress := Resolver.coordinatorAddress (discovery env) in
  [ Setup; Discover; DeployConsumer;
    Register (Registration.AddConsumer subId consumer);
    Fund (Funding.Approve coordinatorAddress Funding.twoLink);
    Fund Funding.ApproveWait;
    Fund (Funding.TransferAndCall coordinatorAddress Funding.twoLink payload);
    Fund Funding.TransferWait;
    ProvingKeyHash;
    Submit (keyHashUsed env) subId ].

(** Every step before the request returned. *)
Definition prepared (env : Env) (subId : Z) (consumer payload : string) : Prop :=
  setup env = Returned tt
  /\ Resolver.resolveSubscription (discovery env) = Returned subId
  /\ deployConsumer env = Returned consumer
  /\ Registration.addConsumer (registration env) = Returned tt
  /\ Funding.approve (funding env) = Returned tt
  /\ Funding.approveWait (funding env) = Returned tt
  /\ (exists width, Funding.encodeSubId subId = Returned (width, payload))
  /\ Funding.transferAndCall (funding env) = Returned tt
  /\ Funding.transferWait (funding env) = Returned tt.

(** The request was accepted and its identifier read. *)
Definition requested (env : Env) (requestId : Z) : Prop :=
  requestRandomness env = Returned tt
  /\ requestWait env = Returned tt
  /\ s_requestId env = Returned requestId
  /\ dummyWords (numWords env) = Returned tt.

Lemma submit_outcome (env : Env) :
  snd (Submission.submitRequest (submission env)) =
    match requestRandomness env with
    | Thrown e => Thrown e
    | Returned _ =>
        match requestWait env with
        | Thrown e => Thrown e
        | Returned _ => s_requestId env
        end
    end.
Proof.
  unfold Submission.submitRequest, submission.
  cbn [Submission.requestRandomness Submission.requestWait Submission.s_requestId].
  destruct (requestRandomness env) as [[]|e]; [|reflexivity].
  destruct (requestWait env) as [[]|e]; [|reflexivity].
  destruct (s_requestId env); reflexivity.
Qed.

Lemma keyHash_read (env : Env) :
  Task.catch (Task.call ProvingKeyHash (s_provingKeyHashes env))
             (fun _ => Task.ret fallbackKeyHash)
  = ([ProvingKeyHash], Returned (keyHashUsed env)).
Proof.
  unfold keyHashUsed, Task.catch, Task.call, Task.ret.
  destruct (s_provingKeyHashes env); reflexivity.
Qed.

Ltac stops_here :=
  right; split;
  [ let Hin := fresh "Hin" in
    intros ? ? Hin; cbn [In] in Hin;
    repeat (destruct Hin as [Hin|Hin]; [discriminate Hin|]); contradiction
  | eexists; reflexivity ].

(** Either every step before the request returned, or the run stopped
    with an exception before asking for randomness. *)
Lemma untilRequested_cases (env : Env) :
  (exists subId consumer payload, prepared env subId consumer payload)
  \/ ((forall keyHash subId,
         ~ In (Submit keyHash subId) (fst (untilRequested env)))
      /\ exists e, snd (untilRequested env) = Thrown e).
Proof.
  unfold untilRequested, prepared.
  rewrite keyHash_read.
  unfold Funding.fundSubscription, Funding.fundSubscriptionWith.
  unfold Task.bind, Task.call, Task.local, Task.ret, within.
  destruct (setup env) as [[]|e0]; cbn [fst snd map app]; [|stops_here].
  destruct (Resolver.resolveSubscription (discovery env)) as [s|e1];
    cbn [fst snd map app]; [|stops_here].
  destruct (deployConsumer env) as [c|e2]; cbn [fst snd map app];
    [|stops_here].
  rewrite StepFacts.addConsumerStep_cases.
  destruct (Registration.addConsumer (registration env)) as [[]|e3];
    cbn [fst snd map app].
  2:{ destruct (dataIs e3 Registration.nonExistentSubscription);
        cbn [fst snd map app]; stops_here. }
  destruct (Funding.approve (funding env)) as [[]|e4];
    cbn [fst snd map app]; [|stops_here].
  destruct (Funding.approveWait (funding env)) as [[]|e5];
    cbn [fst snd map app]; [|stops_here].
  destruct (Funding.encodeSubId s) as [[width payload]|e6] eqn:E6;
    cbn [fst snd map app]; [|stops_here].
  destruct (Funding.transferAndCall (funding env)) as [[]|e7];
    cbn [fst snd map app]; [|stops_here].
  destruct (Funding.transferWait (funding env)) as [[]|e8];
    cbn [fst snd map app]; [|stops_here].
  left. exists s, c, payload.
  do 6 (split; [reflexivity|]). split; [|split; reflexivity].
  now exists width.
Qed.

(** When every step before the request returned, the calls made and the
    way the run goes on. *)
Lemma untilRequested_prepared (env : Env) (subId : Z) (consumer payload : string) :
  prepared env subId consumer payload ->
  untilRequested env
  = (fullSequence env subId consumer payload,
     match requestRandomness env with
     | Thrown e => Thrown e
     | Returned _ =>
         match requestWait env with
         | Thrown e => Thrown e
         | Returned _ =>
             match s_requestId env with
             | Thrown e => Thrown e
             | Returned requestId =>
                 match dummyWords (numWords env) with
                 | Thrown e => Thrown e
                 | Returned _ => Returned requestId
                 end
             end
         end
     end).
Proof.
  intros [H0 [H1 [H2 [H3 [H4 [H5 [[width H6] [H7 H8]]]]]]]].
  unfold untilRequested, fullSequence.
  rewrite keyHash_read, submit_outcome, H0, H1, H2.
  unfold Funding.fundSubscription, Funding.fundSubscriptionWith.
  unfold Task.bind, Task.call, Task.local, Task.ret, within.
  cbn [fst snd map app].
  rewrite StepFacts.addConsumerStep_cases, H3, H4, H5, H6, H7, H8.
  cbn [fst snd map app].
  destruct (requestRandomness env) as [[]|x]; [|reflexivity].
  destruct (requestWait env) as [[]|x]; [|reflexivity].
  destruct (s_requestId env) as [id|x]; [|reflexivity].
  destruct (dummyWords (numWords env)) as [[]|x]; reflexivity.
Qed.

Lemma action_calls (env : Env) :
  fst (requestRandomnessAction env)
  = (fst (untilRequested env)
     ++ match snd (untilRequested env) with
        | Returned requestId => [Watch requestId]
        | Thrown _ => []
        end)%list.
Proof.
  unfold requestRandomnessAction.
  destruct (untilRequested env) as [calls [id|e]]; cbn [fst snd];
    [reflexivity|now rewrite app_nil_r].
Qed.

Lemma action_outcome (env : Env) :
  snd (requestRandomnessAction env)
  = match snd (untilRequested env) with
    | Returned requestId => Watcher.waitForFulfillment 60 (watch env requestId)
    | Thrown e => Watcher.Done (Thrown e)
    end.
Proof.
  unfold requestRandomnessAction.
  destruct (untilRequested env) as [calls [id|e]]; reflexivity.
Qed.

(** X18: The task asks the consumer for randomness only after every earlier
    step returned: the subscription identifier is the one discovery
    returned, the consumer was deployed and added to it, the approval and
    the transfer were made and mined, and the key hash is the one read
    from the coordinator, or the zero word when that read failed.  The
    calls made up to the request are then the ten of [fullSequence], in
    that order. *)
Theorem request_follows_every_step (env : Env) (keyHash : string) (subId : Z) :
  In (Submit keyHash subId) (fst (requestRandomnessAction env)) ->
  (forall read, s_provingKeyHashes env = Returned read -> keyHash = read)
  /\ (forall e, s_provingKeyHashes env = Thrown e -> keyHash = fallbackKeyHash)
  /\ exists consumer payload,
       prepared env subId consumer payload
       /\ exists later,
            fst (requestRandomnessAction env)
            = (fullSequence env subId consumer payload ++ later)%list
            /\ (later = [] \/ exists requestId, later = [Watch requestId]).
Proof.
  intros Hin. rewrite action_calls in Hin |- *.
  destruct (untilRequested_cases env) as [[s [c [p Hp]]]|[Hnone [e He]]].
  - rewrite (untilRequested_prepared env s c p Hp) in Hin |- *.
    cbn [fst snd] in Hin |- *.
    assert (Hhere : In (Submit keyHash subId) (fullSequence env s c p)).
    { apply in_app_or in Hin as [Hin|Hin]; [exact Hin|].
      destruct (requestRandomness env) as [[]|?]; [|destruct Hin].
      destruct (requestWait env) as [[]|?]; [|destruct Hin].
      destruct (s_requestId env) as [id|?]; [|destruct Hin].
      destruct (dummyWords (numWords env)) as [[]|?]; [|destruct Hin].
      destruct Hin as [Hin|[]]. discriminate Hin. }
    unfold fullSequence in Hhere. cbn [In] in Hhere.
    repeat (destruct Hhere as [Hhere|Hhere]; [try discriminate Hhere|]);
      [|contradiction].
    injection Hhere as <- <-.
    split; [|split].
    + intros read Hread. unfold keyHashUsed. now rewrite Hread.
    + intros x Hx. unfold keyHashUsed. now rewrite Hx.
    + exists c, p. split; [exact Hp|].
      eexists. split; [reflexivity|].
      destruct (requestRandomness env) as [[]|?]; [|now left].
      destruct (requestWait env) as [[]|?]; [|now left].
      destruct (s_requestId env) as [id|?]; [|now left].
      destruct (dummyWords (numWords env)) as [[]|?]; [|now left].
      right. now exists id.
  - rewrite He in Hin. rewrite app_nil_r in Hin.
    destruct (Hnone _ _ Hin).
Qed.

(** A run on the coordinator of scenario A whose key hash cannot be read:
    the request is made for subscription 3 with the zero word, and the
    third turn of the wait finds a random word. *)
Definition keylessRun : Env :=
  {| setup := Returned tt;
     discovery := ResolverRuns.scenarioA;
     deployConsumer := Returned "0xe7f1725E7734CE288F8367e1Bb143E90bb3F0512";
     registration :=
       {| Registration.addConsumer := Returned tt;
          Registration.createSubscription := Returned tt;
          Registration.retryAddConsumer := Returned tt |};
     funding := FundingClaims.allGood;
     s_provingKeyHashes := Thrown (CallError "execution reverted" None);
     requestRandomness := Returned tt;
     requestWait := Returned tt;
     s_requestId := Returned 5;
     numWords := Some 1;
     getTransactionReceipt := Thrown (CallError "timeout" None);
     decodeFulfillment := fun _ => None;
     ticks := Watcher.ticks WatcherClaims.scenarioC |}.

Lemma request_follows_every_step_witness :
  In (Submit fallbackKeyHash 3) (fst (requestRandomnessAction keylessRun))
  /\ exists consumer payload,
       prepared keylessRun 3 consumer payload
       /\ exists later,
            fst (requestRandomnessAction keylessRun)
            = (fullSequence keylessRun 3 consumer payload ++ later)%list
            /\ (later = [] \/ exists requestId, later = [Watch requestId]).
Proof.
  assert (Hin : In (Submit fallbackKeyHash 3)
                   (fst (requestRandomnessAction keylessRun))).
  { vm_compute. do 9 right. left. reflexivity. }
  split; [exact Hin|].
  exact (proj2 (proj2 (request_follows_every_step keylessRun _ 3 Hin))).
Defined.

(** X19: The action ends without an exception exactly when every step before
    the wait returned; whether the key hash could be read, and what the
    receipt of the request contained, makes no difference.  The wait then
    ends after 1 to 60 turns, and the calls are those of [fullSequence]
    followed by the wait.  In every other case the action ends with the
    exception of the step that failed; it never runs out of turns. *)
Theorem action_ends_normally_iff (env : Env) :
  ((exists w, snd (requestRandomnessAction env) = Watcher.Done (Returned w))
   <-> exists subId consumer payload requestId,
         prepared env subId consumer payload /\ requested env requestId)
  /\ (forall w,
        snd (requestRandomnessAction env) = Watcher.Done (Returned w) ->
        (1 <= Watcher.turnsOf w <= 60)%nat
        /\ exists subId consumer payload requestId,
             fst (requestRandomnessAction env)
             = (fullSequence env subId consumer payload ++ [Watch requestId])%list)
  /\ ((exists e, snd (requestRandomnessAction env) = Watcher.Done (Thrown e))
      \/ exists w, snd (requestRandomnessAction env) = Watcher.Done (Returned w)).
Proof.
  assert (Hturns : forall id,
             (1 <= Watcher.turnsOf (WatcherFacts.verdict (watch env id) 0 60) <= 60)%nat).
  { intros id. unfold WatcherFacts.verdict.
    destruct (WatcherFacts.firstEvidence (watch env id) 0 60) as [[k ev]|] eqn:Ef.
    - apply WatcherFacts.firstEvidence_bound in Ef. cbn [Watcher.turnsOf]. lia.
    - cbn [Watcher.turnsOf]. lia. }
  rewrite action_calls, action_outcome. unfold requested.
  destruct (untilRequested_cases env) as [[s [c [p Hp]]]|[Hnone [e He]]].
  - rewrite (untilRequested_prepared env s c p Hp). cbn [fst snd].
    destruct (requestRandomness env) as [[]|x1].
    2:{ split; [split|split].
        - intros [w Hw]. discriminate Hw.
        - intros [? [? [? [? [_ [H _]]]]]]. discriminate H.
        - intros w Hw. discriminate Hw.
        - left. now exists x1. }
    destruct (requestWait env) as [[]|x2].
    2:{ split; [split|split].
        - intros [w Hw]. discriminate Hw.
        - intros [? [? [? [? [_ [_ [H _]]]]]]]. discriminate H.
        - intros w Hw. discriminate Hw.
        - left. now exists x2. }
    destruct (s_requestId env) as [id|x3].
    2:{ split; [split|split].
        - intros [w Hw]. discriminate Hw.
        - intros [? [? [? [? [_ [_ [_ [H _]]]]]]]]. discriminate H.
        - intros w Hw. discriminate Hw.
        - left. now exists x3. }
    destruct (dummyWords (numWords env)) as [[]|x4].
    2:{ split; [split|split].
        - intros [w Hw]. discriminate Hw.
        - intros [? [? [? [? [_ [_ [_ [_ H]]]]]]]]. discriminate H.
        - intros w Hw. discriminate Hw.
        - left. now exists x4. }
    rewrite (WatcherFacts.waitForFulfillment_verdict (watch env id) 60 (le_n 60)).
    split; [split|split].
    + intros _. exists s, c, p, id. split; [exact Hp|repeat split].
    + intros _. eexists. reflexivity.
    + intros w Hw. injection Hw as <-. split; [apply Hturns|].
      exists s, c, p, id. reflexivity.
    + right. eexists. reflexivity.
  - rewrite He. split; [split|split].
    + intros [w Hw]. discriminate Hw.
    + intros [s [c [p [id [Hp _]]]]].
      exfalso. pose proof (untilRequested_prepared env s c p Hp) as Heq.
      assert (Hin : In (Submit (keyHashUsed env) s) (fst (untilRequested env))).
      { rewrite Heq. cbn [fst]. unfold fullSequence. cbn [In]. tauto. }
      exact (Hnone _ _ Hin).
    + intros w Hw. discriminate Hw.
    + left. now exists e.
Qed.

End LifecycleFacts.

(* ===================================================================== *)
(** ** The deployment script: subscription, consumer, funding *)
(* ===================================================================== *)

Module DeploymentFacts.
Import Deployment.

(** The receipt is [null], or its first log has no second topic, or an
    empty one. *)
Definition withoutIdTopic (createSubReceipt : option Receipt) : Prop :=
  createSubReceipt = None
  \/ exists receipt log,
       createSubReceipt = Some receipt
       /\ nth_error (logs receipt) 0 = Some log
       /\ (nth_error (topics log) 1 = None \/ nth_error (topics log) 1 = Some "").

Definition word (n : Z) : string := "0x" ++ Js.padStart 64 "0" (Js.toString16 n).

(** The calls of a run in which every transaction was mined. *)
Definition allCalls (coordinatorAddress consumerAddress : string)
  (subId linkAmount nativeAmount : Z) (encodedSubId : string) : list Call :=
  [ CreateSubscription; CreateSubscriptionWait;
    AddConsumer subId consumerAddress; AddConsumerWait;
    TransferAndCall coordinatorAddress linkAmount encodedSubId; TransferWait;
    FundSubscriptionWithNative subId nativeAmount; FundNativeWait ].

Lemma withoutIdTopic_zero (r : option Receipt) :
  withoutIdTopic r -> subscriptionId r = Returned 0.
Proof.
  unfold subscriptionId, subIdHex.
  intros [->|[receipt [log [-> [Hlog [Ht|Ht]]]]]]; [reflexivity| |];
    rewrite Hlog; cbn [obind]; rewrite Ht; reflexivity.
Qed.

Lemma packed_zero : packedSubId 0 = Returned (word 0).
Proof. reflexivity. Qed.

Ltac which_call Hin :=
  cbn [In] in Hin;
  repeat (destruct Hin as [Hin|Hin]; [try discriminate Hin|]);
  try contradiction.

Ltac settle :=
  repeat split;
  try (cbn [In]; tauto);
  try congruence;
  intros;
  match goal with
  | Hin : In _ _ |- _ =>
      which_call Hin;
      first [ injection Hin as <- <- <- | injection Hin as <- <- ];
      auto
  end.

(** Once the identifier is read, every later call of the run carries
    it. *)
Lemma createAndFund_one_id (env : Env) (coordinatorAddress consumerAddress : string)
  (r : option Receipt) (subId : Z) :
  createSubscription env = Returned tt ->
  createSubscriptionWait env = Returned r ->
  subscriptionId r = Returned subId ->
  let run := createAndFund env coordinatorAddress consumerAddress in
  In (AddConsumer subId consumerAddress) (fst run)
  /\ (forall s c, In (AddConsumer s c) (fst run) -> s = subId /\ c = consumerAddress)
  /\ (forall to amount data,
        In (TransferAndCall to amount data) (fst run) ->
        to = coordinatorAddress
        /\ linkFundingAmount env = Returned amount
        /\ packedSubId subId = Returned data)
  /\ (forall s v,
        In (FundSubscriptionWithNative s v) (fst run) ->
        s = subId /\ nativeFundingAmount env = Returned v)
  /\ (forall id, snd run = Returned id -> id = subId).
Proof.
  intros H1 H2 H3. unfold createAndFund.
  unfold Task.bind, Task.call, Task.local, Task.ret.
  rewrite H1, H2. cbn [fst snd app]. rewrite H3. cbn [fst snd app].
  destruct (addConsumer env) as [[]|?]; cbn [fst snd app]; [|settle].
  destruct (addConsumerWait env) as [[]|?]; cbn [fst snd app]; [|settle].
  destruct (linkFundingAmount env) as [a1|?]; cbn [fst snd app]; [|settle].
  destruct (packedSubId subId) as [w|?]; cbn [fst snd app]; [|settle].
  destruct (transferAndCall env) as [[]|?]; cbn [fst snd app]; [|settle].
  destruct (transferWait env) as [[]|?]; cbn [fst snd app]; [|settle].
  destruct (nativeFundingAmount env) as [a2|?]; cbn [fst snd app]; [|settle].
  destruct (fundSubscriptionWithNative env) as [[]|?]; cbn [fst snd app];
    [|settle].
  destruct (fundNativeWait env) as [[]|?]; cbn [fst snd app]; settle.
Qed.

Lemma word_id (n : Z) :
  0 <= n < 2 ^ 256 ->
  Js.BigIntOf (Some (if Js.truthy (word n) then word n else "0")) = Returned n
  /\ packedSubId n = Returned (word n).
Proof.
  intros Hn. destruct (HexFacts.word_roundtrip n Hn) as [_ Hb].
  cbv zeta in Hb. fold (word n) in Hb. split.
  - replace (Js.truthy (word n)) with true by reflexivity.
    unfold Js.BigIntOf. now rewrite Hb.
  - unfold packedSubId, Funding.abiEncodeUint.
    replace ((0 <=? n) && (n <? 2 ^ 256)) with true; [reflexivity|].
    symmetry. apply andb_true_iff. split; [apply Z.leb_le|apply Z.ltb_lt]; lia.
Qed.

(** X20: When the receipt of [createSubscription] gives no identifier (it is
    [null], or its first log has no second topic), the script does not
    stop: it takes the identifier to be 0, adds the consumer to
    subscription 0 and, if it gets that far, sends the LINK with the zero
    word as data and the native funds to subscription 0. *)
Theorem missing_topic_funds_subscription_zero
  (env : Env) (coordinatorAddress consumerAddress : string) (r : option Receipt) :
  createSubscription env = Returned tt ->
  createSubscriptionWait env = Returned r ->
  withoutIdTopic r ->
  let run := createAndFund env coordinatorAddress consumerAddress in
  In (AddConsumer 0 consumerAddress) (Task.calls run)
  /\ (forall to amount data,
        In (TransferAndCall to amount data) (Task.calls run) -> data = word 0)
  /\ (forall s v, In (FundSubscriptionWithNative s v) (Task.calls run) -> s = 0)
  /\ (forall id, Task.outcome run = Returned id -> id = 0).
Proof.
  intros H1 H2 Hr.
  destruct (createAndFund_one_id env coordinatorAddress consumerAddress r 0
              H1 H2 (withoutIdTopic_zero r Hr)) as [Ha [_ [Ht [Hf Hid]]]].
  cbv zeta. unfold Task.calls, Task.outcome. repeat split.
  - exact Ha.
  - intros to amount data Hin.
    destruct (Ht to amount data Hin) as [_ [_ Hp]].
    rewrite packed_zero in Hp. congruence.
  - intros s v Hin. exact (proj1 (Hf s v Hin)).
  - exact Hid.
Qed.

(** Every transaction is mined, but the receipt is [null]. *)
Definition lostReceipt : Env :=
  {| createSubscription := Returned tt;
     createSubscriptionWait := Returned None;
     addConsumer := Returned tt;
     addConsumerWait := Returned tt;
     linkFundingAmount := Returned (100 * 10 ^ 18);
     transferAndCall := Returned tt;
     transferWait := Returned tt;
     nativeFundingAmount := Returned (10 ^ 18);
     fundSubscriptionWithNative := Returned tt;
     fundNativeWait := Returned tt |}.

Lemma missing_topic_funds_subscription_zero_witness :
  Task.calls (createAndFund lostReceipt "0xC0" "0xC1")
  = allCalls "0xC0" "0xC1" 0 (100 * 10 ^ 18) (10 ^ 18) (word 0)
  /\ In (AddConsumer 0 "0xC1") (Task.calls (createAndFund lostReceipt "0xC0" "0xC1"))
  /\ (forall s v,
        In (FundSubscriptionWithNative s v)
           (Task.calls (createAndFund lostReceipt "0xC0" "0xC1")) -> s = 0).
Proof.
  split; [reflexivity|].
  pose proof (missing_topic_funds_subscription_zero lostReceipt "0xC0" "0xC1" None
                eq_refl eq_refl (or_introl eq_refl)) as H.
  cbv zeta in H. split; [exact (proj1 H)|exact (proj1 (proj2 (proj2 H)))].
Defined.

(** X21: The identifier survives the trip through the event: when the first
    log of the receipt carries the 32-byte word of [n] as its second
    topic, the consumer is added to subscription [n], the data sent with
    the LINK is that same word, and the native funds go to subscription
    [n]. *)
Theorem creation_topic_round_trip
  (env : Env) (coordinatorAddress consumerAddress : string)
  (receipt : Receipt) (log : Log) (n : Z) :
  createSubscription env = Returned tt ->
  createSubscriptionWait env = Returned (Some receipt) ->
  nth_error (logs receipt) 0 = Some log ->
  nth_error (topics log) 1 = Some (word n) ->
  0 <= n < 2 ^ 256 ->
  let run := createAndFund env coordinatorAddress consumerAddress in
  In (AddConsumer n consumerAddress) (Task.calls run)
  /\ (forall to amount data,
        In (TransferAndCall to amount data) (Task.calls run) -> data = word n)
  /\ (forall s v, In (FundSubscriptionWithNative s v) (Task.calls run) -> s = n)
  /\ (forall id, Task.outcome run = Returned id -> id = n).
Proof.
  intros H1 H2 Hlog Ht Hn.
  destruct (word_id n Hn) as [Hb Hp].
  assert (Hs : subscriptionId (Some receipt) = Returned n).
  { unfold subscriptionId, subIdHex. rewrite Hlog. cbn [obind]. rewrite Ht.
    exact Hb. }
  destruct (createAndFund_one_id env coordinatorAddress consumerAddress _ n
              H1 H2 Hs) as [Ha [_ [Htr [Hf Hid]]]].
  cbv zeta. unfold Task.calls, Task.outcome. repeat split.
  - exact Ha.
  - intros to amount data Hin.
    destruct (Htr to amount data Hin) as [_ [_ Hp']]. congruence.
  - intros s v Hin. exact (proj1 (Hf s v Hin)).
  - exact Hid.
Qed.

(** The receipt of the creation carries identifier 7. *)
Definition created7 : Env :=
  {| createSubscription := Returned tt;
     createSubscriptionWait :=
       Returned (Some {| blockNumber := 12;
                         logs := [ {| address := "0xC0";
                                      topics := [ Resolver.topicV2_5; word 7 ];
                                      data := "0x" |} ] |});
     addConsumer := Returned tt;
     addConsumerWait := Returned tt;
     linkFundingAmount := Returned (100 * 10 ^ 18);
     transferAndCall := Returned tt;
     transferWait := Returned tt;
     nativeFundingAmount := Returned (10 ^ 18);
     fundSubscriptionWithNative := Returned tt;
     fundNativeWait := Returned tt |}.

Lemma creation_topic_round_trip_witness :
  createAndFund created7 "0xC0" "0xC1"
  = (allCalls "0xC0" "0xC1" 7 (100 * 10 ^ 18) (10 ^ 18) (word 7), Returned 7)
  /\ In (AddConsumer 7 "0xC1") (Task.calls (createAndFund created7 "0xC0" "0xC1"))
  /\ (forall to amount data,
        In (TransferAndCall to amount data)
           (Task.calls (createAndFund created7 "0xC0" "0xC1")) -> data = word 7).
Proof.
  split; [vm_compute; reflexivity|].
  assert (Hn : 0 <= 7 < 2 ^ 256) by (split; [lia|reflexivity]).
  pose proof (creation_topic_round_trip created7 "0xC0" "0xC1" _ _ 7
                eq_refl eq_refl eq_refl eq_refl Hn) as H.
  cbv zeta in H. split; [exact (proj1 H)|exact (proj1 (proj2 H))].
Defined.

(** X22: The native funds are the last thing sent: by then the subscription
    was created and its identifier read from the receipt, the consumer
    was added and the LINK transfer mined, all for the same identifier. *)
Theorem native_funding_comes_last
  (env : Env) (coordinatorAddress consumerAddress : string) (subId value : Z) :
  In (FundSubscriptionWithNative subId value)
     (Task.calls (createAndFund env coordinatorAddress consumerAddress)) ->
  exists r linkAmount encodedSubId later,
    createSubscription env = Returned tt
    /\ createSubscriptionWait env = Returned r
    /\ subscriptionId r = Returned subId
    /\ addConsumer env = Returned tt
    /\ addConsumerWait env = Returned tt
    /\ linkFundingAmount env = Returned linkAmount
    /\ packedSubId subId = Returned encodedSubId
    /\ transferAndCall env = Returned tt
    /\ transferWait env = Returned tt
    /\ nativeFundingAmount env = Returned value
    /\ Task.calls (createAndFund env coordinatorAddress consumerAddress)
       = ([ CreateSubscription; CreateSubscriptionWait;
            AddConsumer subId consumerAddress; AddConsumerWait;
            TransferAndCall coordinatorAddress linkAmount encodedSubId;
            TransferWait;
            FundSubscriptionWithNative subId value ] ++ later)%list
    /\ (later = [] \/ later = [FundNativeWait]).
Proof.
  unfold Task.calls, createAndFund.
  unfold Task.bind, Task.call, Task.local, Task.ret.
  destruct (createSubscription env) as [[]|?]; cbn [fst snd app];
    [|intros Hin; which_call Hin].
  destruct (createSubscriptionWait env) as [r|?]; cbn [fst snd app];
    [|intros Hin; which_call Hin].
  destruct (subscriptionId r) as [s|?] eqn:Es; cbn [fst snd app];
    [|intros Hin; which_call Hin].
  destruct (addConsumer env) as [[]|?]; cbn [fst snd app];
    [|intros Hin; which_call Hin].
  destruct (addConsumerWait env) as [[]|?]; cbn [fst snd app];
    [|intros Hin; which_call Hin].
  destruct (linkFundingAmount env) as [a1|?]; cbn [fst snd app];
    [|intros Hin; which_call Hin].
  destruct (packedSubId s) as [w|?] eqn:Ew; cbn [fst snd app];
    [|intros Hin; which_call Hin].
  destruct (transferAndCall env) as [[]|?]; cbn [fst snd app];
    [|intros Hin; which_call Hin].
  destruct (transferWait env) as [[]|?]; cbn [fst snd app];
    [|intros Hin; which_call Hin].
  destruct (nativeFundingAmount env) as [a2|?]; cbn [fst snd app];
    [|intros Hin; which_call Hin].
  destruct (fundSubscriptionWithNative env) as [[]|?]; cbn [fst snd app].
  - destruct (fundNativeWait env) as [[]|?]; cbn [fst snd app];
      intros Hin; which_call Hin; injection Hin as <- <-;
      exists r, a1, w, [FundNativeWait]; repeat split; auto.
  - intros Hin; which_call Hin. injection Hin as <- <-.
    exists r, a1, w, []. repeat split; auto.
Qed.

Lemma native_funding_comes_last_witness :
  exists r linkAmount encodedSubId later,
    createSubscription created7 = Returned tt
    /\ createSubscriptionWait created7 = Returned r
    /\ subscriptionId r = Returned 7
    /\ addConsumer created7 = Returned tt
    /\ addConsumerWait created7 = Returned tt
    /\ linkFundingAmount created7 = Returned linkAmount
    /\ packedSubId 7 = Returned encodedSubId
    /\ transferAndCall created7 = Returned tt
    /\ transferWait created7 = Returned tt
    /\ nativeFundingAmount created7 = Returned (10 ^ 18)
    /\ Task.calls (createAndFund created7 "0xC0" "0xC1")
       = ([ CreateSubscription; CreateSubscriptionWait;
            AddConsumer 7 "0xC1"; AddConsumerWait;
            TransferAndCall "0xC0" linkAmount encodedSubId;
            TransferWait;
            FundSubscriptionWithNative 7 (10 ^ 18) ] ++ later)%list
    /\ (later = [] \/ later = [FundNativeWait]).
Proof.
  apply (native_funding_comes_last created7 "0xC0" "0xC1" 7 (10 ^ 18)).
  vm_compute. do 6 right. left. reflexivity.
Defined.

End DeploymentFacts.
